(** * The NVIDIA/4paradigm Kubernetes device plugin server, [server.go]

    A shallow embedding of the gRPC handlers of [NvidiaDevicePlugin]
    (crash-restart supervision of the serve loop, [ListAndWatch],
    [GetPreferredAllocation], [Allocate]/[MIGAllocate] and the helpers that
    build environment variables, mounts and device specs) and of the life
    cycle of the plugin ([Start], [Serve], [Register], [Stop]), with the
    properties of the design document stated and proved against it, and
    further properties that the code itself shows.

    Conventions.
    - A Go call that returns [(value, error)] or can panic returns a
      [result]: [Ok v], [Err msg] (the non-nil error and its text) or
      [Panic] (a run-time panic: nil dereference, index out of range,
      write to a nil map).
    - A [*Device] is the position of the device in [cachedDevices], which
      is the store that holds the physical devices of the session; health
      is mutated in that store, so every holder of the pointer sees it.
    - Logging ([log.Printf], [fmt.Println]) is not modelled.
    - The life-cycle methods act on the outside (sockets, the gRPC server,
      channels, goroutines): what they do is recorded in order in a
      [World], and what the outside answers is an input. *)

From stdpp Require Import gmap strings list fin_maps pretty.
From Stdlib Require Import ZArith Lia Ascii.

Local Open Scope string_scope.
Local Open Scope Z_scope.
Local Open Scope list_scope.

(** ** Results of Go calls *)

Inductive result (A : Type) : Type :=
| Ok (a : A)
| Err (msg : string)
| Panic.
Arguments Ok {A} a.
Arguments Err {A} msg.
Arguments Panic {A}.

Definition rbind {A B} (r : result A) (k : A -> result B) : result B :=
  match r with
  | Ok a => k a
  | Err e => Err e
  | Panic => Panic
  end.

Notation "x <- r ;; k" := (rbind r (fun x => k))
  (at level 100, r at next level, right associativity).

(** [fmt.Errorf(prefix + "%v", err)]: an error is re-wrapped with a prefix,
    a panic is not caught. *)
Definition wrapErr {A} (prefix : string) (r : result A) : result A :=
  match r with
  | Err e => Err (prefix +:+ e)
  | other => other
  end.

(** ** Strings and paths of the Go standard library *)

(** [strings.Join(elems, sep)]. *)
Definition strings_Join (elems : list string) (sep : string) : string :=
  String.concat sep elems.

(** The elements of a path between its separators; ["a//b"] has the three
    elements ["a"], [""] and ["b"]. *)
Fixpoint path_elems (s : string) : list string :=
  match s with
  | EmptyString => [EmptyString]
  | String c rest =>
      if Ascii.eqb c "/"%char then EmptyString :: path_elems rest
      else match path_elems rest with
           | [] => [String c EmptyString]
           | e :: es => String c e :: es
           end
  end.

Definition is_rooted (p : string) : bool :=
  match p with
  | String c _ => Ascii.eqb c "/"%char
  | EmptyString => false
  end.

(** One element of [filepath.Clean]; [stack] holds the elements kept so far,
    last one first.  Empty and ["."] elements vanish, [".."] removes the
    element before it, is dropped at the root of a rooted path and is kept at
    the start of a relative one. *)
Definition clean_step (rooted : bool) (stack : list string) (e : string)
  : list string :=
  if String.eqb e "" || String.eqb e "." then stack
  else if String.eqb e ".." then
    match stack with
    | top :: below => if String.eqb top ".." then e :: stack else below
    | [] => if rooted then [] else [e]
    end
  else e :: stack.

(** [filepath.Clean(p)] on Unix. *)
Definition filepath_Clean (p : string) : string :=
  let rooted := is_rooted p in
  let kept := rev (fold_left (clean_step rooted) (path_elems p) []) in
  let out := (if rooted then "/" else "") +:+ String.concat "/" kept in
  if String.eqb out "" then "." else out.

(** [filepath.Join(elem...)]: leading empty elements are ignored, the rest is
    joined with the separator and cleaned; all empty gives [""]. *)
Fixpoint filepath_Join (elem : list string) : string :=
  match elem with
  | [] => ""
  | e :: rest =>
      if String.eqb e "" then filepath_Join rest
      else filepath_Clean (String.concat "/" elem)
  end.

(** [int32(n)]: conversion to a signed 32-bit integer, wrapping. *)
Definition int32 (n : Z) : Z := (n + 2 ^ 31) mod 2 ^ 32 - 2 ^ 31.

(** ** The crash-restart loop of [Serve] *)

Module Supervisor.

(** The goroutine's two local variables.  Times are readings of the
    monotonic clock in nanoseconds, as [time.Time] and [time.Duration]
    hold them. *)
Record crash_state : Type := {
  lastCrashTime : Z;
  restartCount : Z;
}.

(** A crash of [m.server.Serve]: the clock as read by
    [time.Since(lastCrashTime)] and, right after it, by [time.Now()]. *)
Record crash : Type := {
  sinceAt : Z;
  nowAt : Z;
}.

(** What one call of [m.server.Serve(sock)] returned. *)
Inductive serve_return : Type :=
| ServeNil
| ServeError (c : crash).

Inductive loop_outcome : Type :=
| Serving (s : crash_state)   (* blocked in [m.server.Serve] *)
| LoopEnded                   (* [break]: the goroutine returns *)
| Fatal.                      (* [log.Fatalf]: the process exits *)

Definition second : Z := 1000000000.

(** [d.Seconds() > 3600] for a duration of [d] nanoseconds.  [Seconds]
    returns [float64(d/1e9) + float64(d%1e9)/1e9]; for the whole range of
    [Duration] that float exceeds [3600] exactly when [d] exceeds
    [3600e9] nanoseconds. *)
Definition moreThanAnHour (d : Z) : bool := 3600 * second <? d.

(** The body of the [for] loop after a non-nil error (lines 190-206). *)
Definition on_crash (s : crash_state) (c : crash) : loop_outcome :=
  if 5 <? restartCount s then Fatal
  else
    let timeSinceLastCrash := sinceAt c - lastCrashTime s in
    Serving {| lastCrashTime := nowAt c;
               restartCount := if moreThanAnHour timeSinceLastCrash then 1
                               else restartCount s + 1 |}.

(** The loop, run against the returns of the successive [Serve] calls. *)
Fixpoint serve_loop (s : crash_state) (rs : list serve_return)
  : loop_outcome :=
  match rs with
  | [] => Serving s
  | ServeNil :: _ => LoopEnded
  | ServeError c :: rest =>
      match on_crash s c with
      | Serving s' => serve_loop s' rest
      | other => other
      end
  end.

(** [lastCrashTime := time.Now(); restartCount := 0]. *)
Definition start (now : Z) : crash_state :=
  {| lastCrashTime := now; restartCount := 0 |}.

(** The measured gap before the crash [c]. *)
Definition gap (s : crash_state) (c : crash) : Z :=
  sinceAt c - lastCrashTime s.

End Supervisor.

(** ** Data model *)

(** [pluginapi.Healthy] and [pluginapi.Unhealthy]. *)
Definition Healthy : string := "Healthy".
Definition Unhealthy : string := "Unhealthy".

(** [pluginapi.Device], the entry of a device list sent to the kubelet. *)
Record ApiDevice : Type := {
  ID : string;
  Health : string;
}.

(** Modelled from the spec: the struct [Device] (its declaration is not in
    [server.go]): a physical device embeds a [pluginapi.Device] and has the
    paths of its device nodes and its index in string form. *)
Record Device : Type := {
  d_Device : ApiDevice;
  Paths : list string;
  Index : string;
}.

(** Modelled from the spec: the struct [VDevice] (its declaration is not in
    [server.go]): a slice of one physical device embeds a [pluginapi.Device]
    of its own, points to its physical device ([dev], a position in
    [cachedDevices]) and reserves [memory] megabytes on it. *)
Record VDevice : Type := {
  vd_Device : ApiDevice;
  dev : nat;
  memory : N;
}.

Definition setHealth (h : string) (a : ApiDevice) : ApiDevice :=
  {| ID := ID a; Health := h |}.

Definition d_setHealth (h : string) (d : Device) : Device :=
  {| d_Device := setHealth h (d_Device d); Paths := Paths d; Index := Index d |}.

Definition vd_setHealth (h : string) (vd : VDevice) : VDevice :=
  {| vd_Device := setHealth h (vd_Device vd); dev := dev vd;
     memory := memory vd |}.

(** [gpuallocator.Device] of the go-gpuallocator library, as far as this
    file reads it. *)
Record GDevice : Type := {
  UUID : string;
  g_Index : Z;
}.

(** [gpuallocator.Policy]: [Allocate(available, required, size)]. *)
Definition Policy : Type := list GDevice -> list GDevice -> Z -> list GDevice.

(** [pluginapi.Mount] and [pluginapi.DeviceSpec]. *)
Record Mount : Type := {
  mnt_ContainerPath : string;
  mnt_HostPath : string;
  mnt_ReadOnly : bool;
}.

Record DeviceSpec : Type := {
  spec_ContainerPath : string;
  spec_HostPath : string;
  spec_Permissions : string;
}.

(** Requests and responses of the device plugin API. *)
Record ContainerPreferredAllocationRequest : Type := {
  AvailableDeviceIDs : list string;
  MustIncludeDeviceIDs : list string;
  AllocationSize : Z;                    (* int32 *)
}.

Record ContainerPreferredAllocationResponse : Type := {
  DeviceIDs : list string;
}.

Record ContainerAllocateRequest : Type := {
  DevicesIDs : list string;
}.

(** [Envs] is [None] for the nil map, which panics when written to. *)
Record ContainerAllocateResponse : Type := {
  Envs : option (gmap string string);
  Mounts : list Mount;
  Devices : list DeviceSpec;
  Annotations : gmap string string;
}.

Record DevicePluginOptions : Type := {
  GetPreferredAllocationAvailable : bool;
}.

(** The pods that [clientset.CoreV1().Pods("").List] returns, as far as
    monitor mode reads them.  [gpuLimit] is the container's limit of
    ["nvidia.com/gpu"], an integer quantity, or [None] without one. *)
Record Container : Type := {
  ctr_Name : string;
  gpuLimit : option Z;
}.

Record Pod : Type := {
  pod_Name : string;
  pod_Pending : bool;
  pod_Containers : list Container;
}.

(** The command-line flags and constants that [server.go] reads and that
    are declared in other files of the package. *)
Record Flags : Type := {
  deviceListStrategyFlag : string;
  deviceIDStrategyFlag : string;
  passDeviceSpecsFlag : bool;
  nvidiaDriverRootFlag : string;
  enableLegacyPreferredFlag : bool;
  (** [strconv.Itoa(int(100 * deviceCoresScalingFlag /
      float64(deviceSplitCountFlag)))], computed in floating point *)
  smLimit : string;
  (** [deviceMemoryScalingFlag > 1], a comparison of floats *)
  memoryOversold : bool;
  annRequest : string;
  annUsing : string;
  annSep : string;
}.

(** What the handlers read from the host. *)
Record Host : Type := {
  (** [os.Stat(p)] returns no error *)
  statOK : string -> bool;
  (** [os.Getenv] *)
  getenv : string -> string;
  (** [gpuallocator.NewDevices()]: the GPUs NVML enumerates, or its error *)
  nvmlDevices : result (list GDevice);
  (** the cluster's pods; [None] when the in-cluster client or the listing
      fails, which panics *)
  podList : option (list Pod);
  (** [uuid.NewString()] as drawn for the container request of that index *)
  newUUID : nat -> string;
}.

(** Modelled from the spec: the Binding Ledger [VDeviceController], whose
    code is not in [server.go].  [L] is the state behind the pointer
    [m.vDeviceController]; each method takes the state and returns the new
    one.  [available] is a query. *)
Class VDeviceController (L : Type) : Type := {
  newVDeviceController : list string -> L;
  ledger_initialize : L -> L;
  updateFromCheckpoint : L -> L * option string;
  releaseByRequest : list string -> L -> L;
  available : L -> list string;
  acquire : list string -> list string -> L -> L;
}.

(** [NvidiaDevicePlugin].  The gRPC server and the channels are left out;
    the events of the channels are inputs of [ListAndWatch]. *)
Record NvidiaDevicePlugin (L : Type) : Type := {
  resourceName : string;
  deviceListEnvvar : string;
  allocatePolicy : option Policy;
  socket : string;
  migStrategy : string;
  cachedDevices : list Device;
  vDevices : list VDevice;
  vDeviceController : option L;
}.
Arguments resourceName {L} _.
Arguments deviceListEnvvar {L} _.
Arguments allocatePolicy {L} _.
Arguments socket {L} _.
Arguments migStrategy {L} _.
Arguments cachedDevices {L} _.
Arguments vDevices {L} _.
Arguments vDeviceController {L} _.

Definition notNil {A} (o : option A) : bool :=
  match o with Some _ => true | None => false end.

Definition deviceListAsVolumeMountsHostPath : string := "/dev/null".
Definition deviceListAsVolumeMountsContainerPathRoot : string :=
  "/var/run/nvidia-container-devices".
Definition DeviceListStrategyEnvvar : string := "envvar".
Definition DeviceListStrategyVolumeMounts : string := "volume-mounts".
Definition DeviceIDStrategyUUID : string := "uuid".
Definition DeviceIDStrategyIndex : string := "index".

(** ** Helpers declared in other files of the package *)

(** Modelled from the spec: [VDevicesByIDs] resolves each ID, in order, to
    the virtual device of that ID and fails with "unknown device" when one
    does not resolve. *)
Fixpoint VDevicesByIDs (vdevices : list VDevice) (ids : list string)
  : result (list VDevice) :=
  match ids with
  | [] => Ok []
  | id :: rest =>
      match List.find (fun vd => String.eqb (ID (vd_Device vd)) id) vdevices with
      | None => Err ("unknown device: " +:+ id)
      | Some vd => vds <- VDevicesByIDs vdevices rest ;; Ok (vd :: vds)
      end
  end.

(** [vd.dev.ID]: the pointer is followed in the store. *)
Definition devID (cached : list Device) (vd : VDevice) : result string :=
  match cached !! dev vd with
  | Some d => Ok (ID (d_Device d))
  | None => Panic
  end.

(** Modelled from the spec: [UniqueDeviceIDs] reduces virtual devices to the
    identifiers of their physical devices, each once, in order of first
    occurrence. *)
Fixpoint UniqueDeviceIDs_from (cached : list Device) (seen : list string)
  (vdevices : list VDevice) : result (list string) :=
  match vdevices with
  | [] => Ok []
  | vd :: rest =>
      id <- devID cached vd ;;
      if bool_decide (id ∈ seen) then UniqueDeviceIDs_from cached seen rest
      else ids <- UniqueDeviceIDs_from cached (id :: seen) rest ;; Ok (id :: ids)
  end.

Definition UniqueDeviceIDs (cached : list Device) (vdevices : list VDevice)
  : result (list string) :=
  UniqueDeviceIDs_from cached [] vdevices.

(** [gpuallocator.NewDevicesFrom(uuids)] of the go-gpuallocator library:
    the enumerated device of each uuid, in the order of [uuids]; an unknown
    uuid is an error. *)
Fixpoint devicesFrom (devices : list GDevice) (uuids : list string)
  : result (list GDevice) :=
  match uuids with
  | [] => Ok []
  | uuid :: rest =>
      match List.find (fun g => String.eqb (UUID g) uuid) devices with
      | None => Err ("no device with uuid: " +:+ uuid)
      | Some g => gs <- devicesFrom devices rest ;; Ok (g :: gs)
      end
  end.

Definition NewDevicesFrom (host : Host) (uuids : list string)
  : result (list GDevice) :=
  devices <- nvmlDevices host ;; devicesFrom devices uuids.

(** ** The handlers of [NvidiaDevicePlugin] *)

Section Handlers.

Context {L : Type} `{!VDeviceController L}.
Variable flags : Flags.
Variable host : Host.

Abbreviation plugin := (NvidiaDevicePlugin L).

Definition withCachedDevices (m : plugin) (ds : list Device) : plugin :=
  {| resourceName := resourceName m; deviceListEnvvar := deviceListEnvvar m;
     allocatePolicy := allocatePolicy m; socket := socket m;
     migStrategy := migStrategy m; cachedDevices := ds;
     vDevices := vDevices m; vDeviceController := vDeviceController m |}.

Definition withVDevices (m : plugin) (vds : list VDevice) : plugin :=
  {| resourceName := resourceName m; deviceListEnvvar := deviceListEnvvar m;
     allocatePolicy := allocatePolicy m; socket := socket m;
     migStrategy := migStrategy m; cachedDevices := cachedDevices m;
     vDevices := vds; vDeviceController := vDeviceController m |}.

Definition withController (m : plugin) (c : option L) : plugin :=
  {| resourceName := resourceName m; deviceListEnvvar := deviceListEnvvar m;
     allocatePolicy := allocatePolicy m; socket := socket m;
     migStrategy := migStrategy m; cachedDevices := cachedDevices m;
     vDevices := vDevices m; vDeviceController := c |}.

(** [initialize] (lines 98-115), given the snapshot [m.Devices()] and the
    slicing [Device2VDevice] of the package. *)
Definition initialize (devices : list Device)
  (Device2VDevice : list Device -> list VDevice) (m : plugin) : plugin :=
  let m1 := withCachedDevices m devices in
  let m2 := if String.eqb (migStrategy m1) "none"
            then withVDevices m1 (Device2VDevice (cachedDevices m1))
            else m1 in
  if enableLegacyPreferredFlag flags && notNil (allocatePolicy m2) then
    let deviceIDs := map (fun v => ID (vd_Device v)) (vDevices m2) in
    withController m2
      (Some (ledger_initialize (newVDeviceController deviceIDs)))
  else m2.

(** The [Options] of the [RegisterRequest] built by [Register]
    (lines 233-235). *)
Definition Register_Options (m : plugin) : DevicePluginOptions :=
  {| GetPreferredAllocationAvailable :=
       notNil (allocatePolicy m) && negb (notNil (vDeviceController m)) |}.

(** [GetDevicePluginOptions] (lines 246-251). *)
Definition GetDevicePluginOptions (m : plugin) : result DevicePluginOptions :=
  Ok {| GetPreferredAllocationAvailable := notNil (allocatePolicy m) |}.

(** *** [ListAndWatch] *)

(** [apiDevices] (lines 583-596).  With strategy "none" every virtual
    device first copies the health of its physical device; the result is
    the list as [s.Send] serialises it, and the plugin with the copied
    healths. *)
Fixpoint refreshHealth (cached : list Device) (vds : list VDevice)
  : result (list VDevice) :=
  match vds with
  | [] => Ok []
  | d :: rest =>
      match cached !! dev d with
      | None => Panic
      | Some pd =>
          rest' <- refreshHealth cached rest ;;
          Ok (vd_setHealth (Health (d_Device pd)) d :: rest')
      end
  end.

Definition apiDevices (m : plugin) : result (list ApiDevice * plugin) :=
  if String.eqb (migStrategy m) "none" then
    vds <- refreshHealth (cachedDevices m) (vDevices m) ;;
    Ok (map vd_Device vds, withVDevices m vds)
  else Ok (map d_Device (cachedDevices m), m).

(** What the [select] of [ListAndWatch] receives: the closing of [m.stop]
    or a [*Device] on [m.health] ([None] for a nil pointer; a position
    outside [cachedDevices] is a device that is not part of the
    session). *)
Inductive watch_event : Type :=
| StopClosed
| HealthEvent (d : option nat).

Inductive watch_end : Type :=
| Returned      (* [return nil] *)
| Waiting       (* blocked in [select] *)
| Panicked.

(** [d.Health = pluginapi.Unhealthy] *)
Definition markUnhealthy (m : plugin) (d : nat) : plugin :=
  withCachedDevices m (alter (d_setHealth Unhealthy) d (cachedDevices m)).

(** The [for]/[select] loop (lines 257-267): the lists sent, and how the
    loop ended. *)
Fixpoint watch_loop (m : plugin) (evs : list watch_event)
  : list (list ApiDevice) * watch_end :=
  match evs with
  | [] => ([], Waiting)
  | StopClosed :: _ => ([], Returned)
  | HealthEvent None :: _ => ([], Panicked)
  | HealthEvent (Some d) :: rest =>
      match apiDevices (markUnhealthy m d) with
      | Ok (devs, m') =>
          let (sent, e) := watch_loop m' rest in (devs :: sent, e)
      | _ => ([], Panicked)
      end
  end.

(** [ListAndWatch] (lines 254-268). *)
Definition ListAndWatch (m : plugin) (evs : list watch_event)
  : list (list ApiDevice) * watch_end :=
  match apiDevices m with
  | Ok (devs, m') =>
      let (sent, e) := watch_loop m' evs in (devs :: sent, e)
  | _ => ([], Panicked)
  end.

(** *** Environment variables, mounts and device specs *)

(** [apiEnvs] (lines 598-602). *)
Definition apiEnvs (envvar : string) (deviceIDs : list string)
  : gmap string string :=
  {[ envvar := strings_Join deviceIDs "," ]}.

(** [apiMounts] (lines 604-616). *)
Definition apiMounts (deviceIDs : list string) : list Mount :=
  map (fun id =>
         {| mnt_HostPath := deviceListAsVolumeMountsHostPath;
            mnt_ContainerPath :=
              filepath_Join [deviceListAsVolumeMountsContainerPathRoot; id];
            mnt_ReadOnly := false |})
      deviceIDs.

Definition controlPaths : list string :=
  ["/dev/nvidiactl"; "/dev/nvidia-uvm"; "/dev/nvidia-uvm-tools";
   "/dev/nvidia-modeset"].

Definition deviceSpec (driverRoot p : string) : DeviceSpec :=
  {| spec_ContainerPath := p;
     spec_HostPath := filepath_Join [driverRoot; p];
     spec_Permissions := "rw" |}.

(** [apiDeviceSpecs] (lines 618-655). *)
Definition apiDeviceSpecs (m : plugin) (driverRoot : string)
  (uuids : list string) : list DeviceSpec :=
  map (deviceSpec driverRoot) (List.filter (statOK host) controlPaths)
  ++ flat_map (fun d =>
       flat_map (fun id =>
         if String.eqb (ID (d_Device d)) id
         then map (deviceSpec driverRoot) (Paths d)
         else [])
         uuids)
       (cachedDevices m).

(** [deviceExists] (lines 556-563). *)
Definition deviceExists (m : plugin) (id : string) : bool :=
  existsb (fun d => String.eqb (ID (d_Device d)) id) (cachedDevices m).

(** [deviceIDsFromUUIDs] (lines 565-581). *)
Definition deviceIDsFromUUIDs (m : plugin) (uuids : list string)
  : list string :=
  if String.eqb (deviceIDStrategyFlag flags) DeviceIDStrategyUUID then uuids
  else if String.eqb (deviceIDStrategyFlag flags) DeviceIDStrategyIndex then
    flat_map (fun d =>
      flat_map (fun id =>
        if String.eqb (ID (d_Device d)) id then [Index d] else [])
        uuids)
      (cachedDevices m)
  else [].

(** *** [GetPreferredAllocation] *)

(** Lines 302-310: each allocated device becomes the ID of the first
    available virtual device that lies on it. *)
Fixpoint firstOn (cached : list Device) (availableVDev : list VDevice)
  (uuid : string) : result (option string) :=
  match availableVDev with
  | [] => Ok None
  | vd :: rest =>
      id <- devID cached vd ;;
      if String.eqb id uuid then Ok (Some (ID (vd_Device vd)))
      else firstOn cached rest uuid
  end.

Fixpoint toDeviceIds (cached : list Device) (availableVDev : list VDevice)
  (allocated : list GDevice) : result (list string) :=
  match allocated with
  | [] => Ok []
  | device :: rest =>
      found <- firstOn cached availableVDev (UUID device) ;;
      ids <- toDeviceIds cached availableVDev rest ;;
      Ok (match found with Some id => id :: ids | None => ids end)
  end.

(** Lines 297-300: the policy's choice, or the first [AllocationSize]
    available devices when the policy chose nothing and that many are
    available.  A negative size panics in the slice expression. *)
Definition choose (policy : Policy) (available required : list GDevice)
  (size : Z) : result (list GDevice) :=
  let allocated := policy available required size in
  if (Z.of_nat (length allocated) =? 0)
     && (size <=? Z.of_nat (length available))
  then if size <? 0 then Panic else Ok (firstn (Z.to_nat size) available)
  else Ok allocated.

(** The body of the loop over [r.ContainerRequests] (lines 279-316). *)
Definition preferredForContainer (m : plugin)
  (req : ContainerPreferredAllocationRequest)
  : result ContainerPreferredAllocationResponse :=
  availableVDev <-
    wrapErr "Unable to retrieve list of available vdevices: "
      (VDevicesByIDs (vDevices m) (AvailableDeviceIDs req)) ;;
  availableUUIDs <- UniqueDeviceIDs (cachedDevices m) availableVDev ;;
  available <-
    wrapErr "Unable to retrieve list of available devices: "
      (NewDevicesFrom host availableUUIDs) ;;
  requiredVDev <-
    wrapErr "Unable to retrieve list of available vdevices: "
      (VDevicesByIDs (vDevices m) (MustIncludeDeviceIDs req)) ;;
  requiredUUIDs <- UniqueDeviceIDs (cachedDevices m) requiredVDev ;;
  required <-
    wrapErr "Unable to retrieve list of required devices: "
      (NewDevicesFrom host requiredUUIDs) ;;
  policy <- match allocatePolicy m with Some p => Ok p | None => Panic end ;;
  allocated <- choose policy available required (AllocationSize req) ;;
  deviceIds <- toDeviceIds (cachedDevices m) availableVDev allocated ;;
  Ok {| DeviceIDs := deviceIds |}.

Fixpoint preferredForContainers (m : plugin)
  (reqs : list ContainerPreferredAllocationRequest)
  : result (list ContainerPreferredAllocationResponse) :=
  match reqs with
  | [] => Ok []
  | req :: rest =>
      resp <- preferredForContainer m req ;;
      resps <- preferredForContainers m rest ;;
      Ok (resp :: resps)
  end.

(** [GetPreferredAllocation] (lines 271-326); [Ok None] is the pair
    [(nil, nil)], and the request is its [ContainerRequests]. *)
Definition GetPreferredAllocation (m : plugin)
  (r : list ContainerPreferredAllocationRequest)
  : result (option (list ContainerPreferredAllocationResponse)) :=
  if String.eqb (migStrategy m) "mixed" then Ok None
  else resps <- preferredForContainers m r ;; Ok (Some resps).

(** *** [Allocate] *)

Definition emptyResponse : ContainerAllocateResponse :=
  {| Envs := None; Mounts := []; Devices := []; Annotations := ∅ |}.

Definition withEnvs (r : ContainerAllocateResponse)
  (e : option (gmap string string)) : ContainerAllocateResponse :=
  {| Envs := e; Mounts := Mounts r; Devices := Devices r;
     Annotations := Annotations r |}.

Definition withMounts (r : ContainerAllocateResponse) (ms : list Mount)
  : ContainerAllocateResponse :=
  {| Envs := Envs r; Mounts := ms; Devices := Devices r;
     Annotations := Annotations r |}.

Definition withDevices (r : ContainerAllocateResponse)
  (ds : list DeviceSpec) : ContainerAllocateResponse :=
  {| Envs := Envs r; Mounts := Mounts r; Devices := ds;
     Annotations := Annotations r |}.

Definition withAnnotations (r : ContainerAllocateResponse)
  (a : gmap string string) : ContainerAllocateResponse :=
  {| Envs := Envs r; Mounts := Mounts r; Devices := Devices r;
     Annotations := a |}.

(** [response.Envs[k] = v]; a write to the nil map panics. *)
Definition setEnv (k v : string) (r : ContainerAllocateResponse)
  : result ContainerAllocateResponse :=
  match Envs r with
  | None => Panic
  | Some e => Ok (withEnvs r (Some (<[k := v]> e)))
  end.

(** The three [if]s that [MIGAllocate] (lines 343-352) and [Allocate]
    (lines 469-478) have in common: the device list as environment
    variable or as mounts, and the device specs. *)
Definition deviceListResponse (m : plugin) (deviceIDs uuids : list string)
  : ContainerAllocateResponse :=
  let r0 := emptyResponse in
  let r1 :=
    if String.eqb (deviceListStrategyFlag flags) DeviceListStrategyEnvvar
    then withEnvs r0 (Some (apiEnvs (deviceListEnvvar m) deviceIDs))
    else r0 in
  let r2 :=
    if String.eqb (deviceListStrategyFlag flags)
                  DeviceListStrategyVolumeMounts
    then withMounts
           (withEnvs r1
              (Some (apiEnvs (deviceListEnvvar m)
                       [deviceListAsVolumeMountsContainerPathRoot])))
           (apiMounts deviceIDs)
    else r1 in
  if passDeviceSpecsFlag flags
  then withDevices r2 (apiDeviceSpecs m (nvidiaDriverRootFlag flags) uuids)
  else r2.

(** The body of the loop of [MIGAllocate] (lines 332-354). *)
Definition migAllocateContainer (m : plugin) (req : ContainerAllocateRequest)
  : result ContainerAllocateResponse :=
  match List.find (fun id => negb (deviceExists m id)) (DevicesIDs req) with
  | Some id =>
      Err ("invalid allocation request for '" +:+ resourceName m
           +:+ "': unknown device: " +:+ id)
  | None =>
      let uuids := DevicesIDs req in
      let deviceIDs := deviceIDsFromUUIDs m uuids in
      Ok (deviceListResponse m deviceIDs uuids)
  end.

(** [MIGAllocate] (lines 329-358). *)
Fixpoint MIGAllocate (m : plugin) (reqs : list ContainerAllocateRequest)
  : result (list ContainerAllocateResponse) :=
  match reqs with
  | [] => Ok []
  | req :: rest =>
      response <- migAllocateContainer m req ;;
      responses <- MIGAllocate m rest ;;
      Ok (response :: responses)
  end.

(** Monitor mode, lines 386-399: does the pending pod [cursor] ask, per
    container with a GPU limit, for as many devices as the request of the
    same rank?  [reqs] is indexed at [ctridx - minus]; past its end the
    index expression panics. *)
Fixpoint podMatches (reqs : list ContainerAllocateRequest)
  (ctrs : list Container) (rank : nat) : result bool :=
  match ctrs with
  | [] => Ok true
  | ctr :: rest =>
      match gpuLimit ctr with
      | None => podMatches reqs rest rank
      | Some nvcount =>
          match reqs !! rank with
          | None => Panic
          | Some reqv =>
              if nvcount =? Z.of_nat (length (DevicesIDs reqv))
              then podMatches reqs rest (S rank)
              else Ok false
          end
      end
  end.

(** Lines 381-405: the last pending pod that matches. *)
Fixpoint findTargetPod (reqs : list ContainerAllocateRequest)
  (pods : list Pod) (targetpod : Pod) : result Pod :=
  match pods with
  | [] => Ok targetpod
  | cursor :: rest =>
      if pod_Pending cursor then
        matched <- podMatches reqs (pod_Containers cursor) 0%nat ;;
        findTargetPod reqs rest (if matched then cursor else targetpod)
      else findTargetPod reqs rest targetpod
  end.

(** [v1.Pod{}] *)
Definition noPod : Pod :=
  {| pod_Name := ""; pod_Pending := false; pod_Containers := [] |}.

Definition monitorMode : string := getenv host "VGPU_MONITOR_MODE".

Definition monitoring : bool := negb (String.eqb monitorMode "").

(** Lines 365-406. *)
Definition targetPod (reqs : list ContainerAllocateRequest) : result Pod :=
  if monitoring then
    match podList host with
    | None => Panic
    | Some pods => findTargetPod reqs pods noPod
    end
  else Ok noPod.

(** Lines 418-428: from container [reqidx + addnum] of the target pod on,
    the first one with a GPU limit; [ctrs] is the rest of the containers
    from that index.  Running off the end panics. *)
Fixpoint seekContainer (ctrs : list Container) (addnum : nat)
  : result (string * nat) :=
  match ctrs with
  | [] => Panic
  | c :: rest =>
      match gpuLimit c with
      | None => seekContainer rest (S addnum)
      | Some _ => Ok (ctr_Name c, addnum)
      end
  end.

(** Lines 432-457: with a ledger, release the binding of this request,
    read what is available, let [GetPreferredAllocation] choose and
    acquire the choice.  The result is [reqDeviceIDs]; the ledger is
    returned as the call leaves it, also when it fails. *)
Definition selectDevices (m : plugin) (ctl : option L)
  (req : ContainerAllocateRequest) : result (list string) * option L :=
  match ctl with
  | None => (Ok (DevicesIDs req), None)
  | Some l =>
      let l1 := releaseByRequest (DevicesIDs req) l in
      let availableIds := available l1 in
      if (length availableIds <? length (DevicesIDs req))%nat
      then (Err "no enough devices", Some l1)
      else
        let preferReq :=
          {| AllocationSize := int32 (Z.of_nat (length (DevicesIDs req)));
             AvailableDeviceIDs := availableIds;
             MustIncludeDeviceIDs := [] |} in
        match GetPreferredAllocation m [preferReq] with
        | Err e => (Err e, Some l1)
        | Panic | Ok None | Ok (Some []) => (Panic, Some l1)
        | Ok (Some (resp0 :: _)) =>
            let reqDeviceIDs :=
              if int32 (Z.of_nat (length (DeviceIDs resp0)))
                 =? AllocationSize preferReq
              then DeviceIDs resp0
              else firstn (length (DevicesIDs req)) availableIds in
            (Ok reqDeviceIDs,
             Some (acquire (DevicesIDs req) reqDeviceIDs l1))
        end
  end.

(** Lines 487-491: one memory limit per slot, and the slot-to-device map. *)
Fixpoint memoryLimits (cached : list Device) (i : nat)
  (vdevices : list VDevice) (r : ContainerAllocateResponse)
  : result (ContainerAllocateResponse * list string) :=
  match vdevices with
  | [] => Ok (r, [])
  | vd :: rest =>
      r1 <- setEnv ("CUDA_DEVICE_MEMORY_LIMIT_" +:+ pretty i)
                   (pretty (memory vd) +:+ "m") r ;;
      id <- devID cached vd ;;
      done <- memoryLimits cached (S i) rest r1 ;;
      Ok (done.1, (pretty i +:+ ":" +:+ id) :: done.2)
  end.

Definition shimMounts : list Mount :=
  [ {| mnt_ContainerPath := "/usr/local/vgpu/libvgpu.so";
       mnt_HostPath := "/usr/local/vgpu/libvgpu.so"; mnt_ReadOnly := true |};
    {| mnt_ContainerPath := "/etc/ld.so.preload";
       mnt_HostPath := "/usr/local/vgpu/ld.so.preload";
       mnt_ReadOnly := true |};
    {| mnt_ContainerPath := "/usr/local/vgpu/pciinfo.vgpu";
       mnt_HostPath := getenv host "PCIBUSFILE"; mnt_ReadOnly := true |};
    {| mnt_ContainerPath := "/usr/bin/vgpuvalidator";
       mnt_HostPath := "/usr/local/vgpu/vgpuvalidator";
       mnt_ReadOnly := true |};
    {| mnt_ContainerPath := "/vgpu";
       mnt_HostPath := "/usr/local/vgpu/license"; mnt_ReadOnly := true |} ].

(** Lines 486-522: what virtualisation adds to the response.
    [os.MkdirAll] of monitor mode only touches the file system. *)
Definition vgpuResponse (m : plugin) (targetpod : Pod) (ctrname : string)
  (reqidx : nat) (vdevices : list VDevice) (r : ContainerAllocateResponse)
  : result ContainerAllocateResponse :=
  limited <- memoryLimits (cachedDevices m) 0%nat vdevices r ;;
  r2 <- setEnv "CUDA_DEVICE_SM_LIMIT" (smLimit flags) limited.1 ;;
  r3 <- setEnv "NVIDIA_DEVICE_MAP" (strings_Join limited.2 " ") r2 ;;
  r4 <-
    (if monitoring then
       let timestr := pod_Name targetpod +:+ "_" +:+ ctrname in
       setEnv "CUDA_DEVICE_MEMORY_SHARED_CACHE"
         ("/" +:+ timestr +:+ "/" +:+ newUUID host reqidx +:+ ".cache")
         (withMounts r3
            (Mounts r3 ++
             [ {| mnt_ContainerPath := "/" +:+ timestr;
                  mnt_HostPath := "/usr/local/vgpu/shared/" +:+ timestr;
                  mnt_ReadOnly := false |} ]))
     else
       setEnv "CUDA_DEVICE_MEMORY_SHARED_CACHE"
         ("/tmp/" +:+ newUUID host reqidx +:+ ".cache") r3) ;;
  r5 <- (if memoryOversold flags then setEnv "CUDA_OVERSUBSCRIBE" "true" r4
         else Ok r4) ;;
  Ok (withMounts r5 (Mounts r5 ++ shimMounts)).

(** Lines 480-485: the annotations and the second [acquire]. *)
Definition recordBinding (ctl : option L) (req : ContainerAllocateRequest)
  (reqDeviceIDs : list string) (r : ContainerAllocateResponse)
  : ContainerAllocateResponse * option L :=
  match ctl with
  | None => (r, None)
  | Some l =>
      (withAnnotations r
         (<[annUsing flags := strings_Join reqDeviceIDs (annSep flags)]>
            (<[annRequest flags :=
                 strings_Join (DevicesIDs req) (annSep flags)]> ∅)),
       Some (acquire (DevicesIDs req) reqDeviceIDs l))
  end.

(** Lines 459-524, after the devices are selected. *)
Definition respond (m : plugin) (ctl : option L) (targetpod : Pod)
  (ctrname : string) (reqidx : nat) (req : ContainerAllocateRequest)
  (reqDeviceIDs : list string)
  : result ContainerAllocateResponse * option L :=
  match VDevicesByIDs (vDevices m) reqDeviceIDs with
  | Err e => (Err e, ctl)
  | Panic => (Panic, ctl)
  | Ok vdevices =>
      match UniqueDeviceIDs (cachedDevices m) vdevices with
      | Err e => (Err e, ctl)
      | Panic => (Panic, ctl)
      | Ok uuids =>
          let deviceIDs := deviceIDsFromUUIDs m uuids in
          let r := deviceListResponse m deviceIDs uuids in
          let '(r', ctl') := recordBinding ctl req reqDeviceIDs r in
          (vgpuResponse m targetpod ctrname reqidx vdevices r', ctl')
      end
  end.

(** The body of the loop over [reqs.ContainerRequests] (lines 415-530):
    the response and the new [addnum], and the ledger as left. *)
Definition allocateContainer (m : plugin) (ctl : option L) (targetpod : Pod)
  (reqidx addnum : nat) (req : ContainerAllocateRequest)
  : result (ContainerAllocateResponse * nat) * option L :=
  match (if monitoring
         then seekContainer
                (drop (reqidx + addnum) (pod_Containers targetpod)) addnum
         else Ok ("", addnum)) with
  | Err e => (Err e, ctl)
  | Panic => (Panic, ctl)
  | Ok (ctrname, addnum') =>
      match selectDevices m ctl req with
      | (Err e, ctl1) => (Err e, ctl1)
      | (Panic, ctl1) => (Panic, ctl1)
      | (Ok reqDeviceIDs, ctl1) =>
          match respond m ctl1 targetpod ctrname reqidx req reqDeviceIDs with
          | (Ok response, ctl2) => (Ok (response, addnum'), ctl2)
          | (Err e, ctl2) => (Err e, ctl2)
          | (Panic, ctl2) => (Panic, ctl2)
          end
      end
  end.

Fixpoint allocateContainers (m : plugin) (ctl : option L) (targetpod : Pod)
  (reqidx addnum : nat) (reqs : list ContainerAllocateRequest)
  : result (list ContainerAllocateResponse) * option L :=
  match reqs with
  | [] => (Ok [], ctl)
  | req :: rest =>
      match allocateContainer m ctl targetpod reqidx addnum req with
      | (Err e, ctl1) => (Err e, ctl1)
      | (Panic, ctl1) => (Panic, ctl1)
      | (Ok (response, addnum'), ctl1) =>
          match allocateContainers m ctl1 targetpod (S reqidx) addnum' rest
          with
          | (Ok responses, ctl2) => (Ok (response :: responses), ctl2)
          | other => other
          end
      end
  end.

(** [Allocate] (lines 361-533): the response or error, and the ledger
    behind [m.vDeviceController] as the call leaves it. *)
Definition Allocate (m : plugin) (reqs : list ContainerAllocateRequest)
  : result (list ContainerAllocateResponse) * option L :=
  if String.eqb (migStrategy m) "mixed"
  then (MIGAllocate m reqs, vDeviceController m)
  else
    match targetPod reqs with
    | Err e => (Err e, vDeviceController m)
    | Panic => (Panic, vDeviceController m)
    | Ok targetpod =>
        match vDeviceController m with
        | None => allocateContainers m None targetpod 0 0 reqs
        | Some l =>
            match updateFromCheckpoint l with
            | (l', Some err) => (Err err, Some l')
            | (l', None) =>
                allocateContainers m (Some l') targetpod 0 0 reqs
            end
        end
    end.

End Handlers.

(** ** Two Binding Ledgers *)

(** *** A ledger that records its calls *)

(** The calls of [server.go] that change the ledger. *)
Inductive LedgerCall : Type :=
| CallNew (deviceIDs : list string)
| CallInitialize
| CallUpdateFromCheckpoint
| CallRelease (request : list string)
| CallAcquire (request granted : list string).

(** Any ledger, together with the calls made on it, oldest first. *)
#[global] Instance Logged (L : Type) `{!VDeviceController L}
  : VDeviceController (L * list LedgerCall) := {|
  newVDeviceController ids := (newVDeviceController ids, [CallNew ids]);
  ledger_initialize s := (ledger_initialize s.1, s.2 ++ [CallInitialize]);
  updateFromCheckpoint s :=
    let r := updateFromCheckpoint s.1 in
    ((r.1, s.2 ++ [CallUpdateFromCheckpoint]), r.2);
  releaseByRequest req s :=
    (releaseByRequest req s.1, s.2 ++ [CallRelease req]);
  available s := available s.1;
  acquire req granted s :=
    (acquire req granted s.1, s.2 ++ [CallAcquire req granted]);
|}.


Definition logging {L} (m : NvidiaDevicePlugin L)
  : NvidiaDevicePlugin (L * list LedgerCall) :=
  {| resourceName := resourceName m; deviceListEnvvar := deviceListEnvvar m;
     allocatePolicy := allocatePolicy m; socket := socket m;
     migStrategy := migStrategy m; cachedDevices := cachedDevices m;
     vDevices := vDevices m;
     vDeviceController := (fun l => (l, [])) <$> vDeviceController m |}.

(** The calls a run of a handler left in the log. *)
Definition calls {L} (ctl : option (L * list LedgerCall)) : list LedgerCall :=
  match ctl with Some s => s.2 | None => [] end.

(** *** A ledger of bindings *)

Module Bindings.

(** Modelled from the spec: the state of the Binding Ledger.  An entry maps
    a request key (the originally requested IDs) to the virtual-device IDs
    granted to it; [acquire] creates the entry of a key, [release] removes
    it, the IDs of no entry are available.  The kubelet's checkpoint is
    seen through what a reconciliation finds in it: an error, or the keys
    whose release the ledger missed. *)
Record t : Type := {
  deviceIDs : list string;
  entries : list (list string * list string);
  checkpointError : option string;
  checkpointReleased : list (list string);
}.

Definition withEntries (l : t) (es : list (list string * list string)) : t :=
  {| deviceIDs := deviceIDs l; entries := es;
     checkpointError := checkpointError l;
     checkpointReleased := checkpointReleased l |}.

Definition without (key : list string)
  (es : list (list string * list string)) : list (list string * list string) :=
  List.filter (fun e => negb (bool_decide (e.1 = key))) es.

Definition release (key : list string) (l : t) : t :=
  withEntries l (without key (entries l)).

Definition reconcile (l : t) : t * option string :=
  match checkpointError l with
  | Some e => (l, Some e)
  | None =>
      ({| deviceIDs := deviceIDs l;
          entries := fold_right without (entries l) (checkpointReleased l);
          checkpointError := None;
          checkpointReleased := [] |}, None)
  end.

(** The IDs granted by some entry. *)
Definition granted (l : t) : list string :=
  flat_map snd (entries l).

Definition free (l : t) : list string :=
  List.filter (fun id => negb (bool_decide (id ∈ granted l))) (deviceIDs l).

Definition bind (key ids : list string) (l : t) : t :=
  withEntries l ((key, ids) :: without key (entries l)).




#[global] Instance ledger : VDeviceController t := {|
  newVDeviceController ids :=
    {| deviceIDs := ids; entries := []; checkpointError := None;
       checkpointReleased := [] |};
  ledger_initialize l := l;
  updateFromCheckpoint := reconcile;
  releaseByRequest := release;
  available := free;
  acquire := bind;
|}.

End Bindings.

(** Modelled from the spec: what the entries of the Binding Ledger obey
    (created by [acquire] under a request key, removed by [release]), as far
    as a repeated request needs it: releasing a key forgets what was
    acquired under it, and releasing twice is releasing once. *)
Class LedgerLaws (L : Type) `{!VDeviceController L} : Prop := {
  release_acquire : forall key ids (l : L),
    releaseByRequest key (acquire key ids l) = releaseByRequest key l;
  release_release : forall key (l : L),
    releaseByRequest key (releaseByRequest key l) = releaseByRequest key l;
}.

(** ** A small node, for the examples *)

(** Two GPUs, each sliced in two; the ledger of bindings knows the four
    slices. *)
Module Node.

Definition gpuA : Device :=
  {| d_Device := {| ID := "GPU-A"; Health := Healthy |};
     Paths := ["/dev/nvidia0"]; Index := "0" |}.

Definition gpuB : Device :=
  {| d_Device := {| ID := "GPU-B"; Health := Healthy |};
     Paths := ["/dev/nvidia1"]; Index := "1" |}.

Definition slice (id : string) (d : nat) : VDevice :=
  {| vd_Device := {| ID := id; Health := Healthy |}; dev := d;
     memory := 4096 |}.

Definition slices : list Device -> list VDevice :=
  fun _ => [slice "v1" 0; slice "v2" 0; slice "v3" 1; slice "v4" 1].

Definition host : Host :=
  {| statOK := fun _ => true;
     getenv := fun _ => "";
     nvmlDevices := Ok [ {| UUID := "GPU-A"; g_Index := 0 |};
                         {| UUID := "GPU-B"; g_Index := 1 |} ];
     podList := None;
     newUUID := fun _ => "6ba7b810-9dad-11d1-80b4-00c04fd430c8" |}.

Definition flags (deviceListStrategy : string) : Flags :=
  {| deviceListStrategyFlag := deviceListStrategy;
     deviceIDStrategyFlag := DeviceIDStrategyUUID;
     passDeviceSpecsFlag := true;
     nvidiaDriverRootFlag := "/run/nvidia/driver";
     enableLegacyPreferredFlag := true;
     smLimit := "50";
     memoryOversold := false;
     annRequest := "vgpu-request";
     annUsing := "vgpu-using";
     annSep := ";" |}.

(** A policy that selects nothing, and one that takes the first devices. *)
Definition silent : Policy := fun _ _ _ => [].
Definition firstFit : Policy :=
  fun available _ size => firstn (Z.to_nat size) available.

(** [NewNvidiaDevicePlugin] with a MIG strategy. *)
Definition new (policy : option Policy) (strategy : string)
  : NvidiaDevicePlugin Bindings.t :=
  {| resourceName := "nvidia.com/gpu";
     deviceListEnvvar := "NVIDIA_VISIBLE_DEVICES";
     allocatePolicy := policy;
     socket := "/var/lib/kubelet/device-plugins/nvidia.sock";
     migStrategy := strategy;
     cachedDevices := [];
     vDevices := [];
     vDeviceController := None |}.

(** The plugin after [initialize], with the ledger (legacy preferred
    allocation enabled) and without. *)
Definition started (policy : option Policy) (strategy : string)
  : NvidiaDevicePlugin Bindings.t :=
  initialize (flags DeviceListStrategyEnvvar) [gpuA; gpuB] slices
    (new policy strategy).

Definition unledgered (m : NvidiaDevicePlugin Bindings.t)
  : NvidiaDevicePlugin Bindings.t :=
  withController m None.

Definition request (ids : list string) : ContainerAllocateRequest :=
  {| DevicesIDs := ids |}.

Definition envvar : Flags := flags DeviceListStrategyEnvvar.

(** The started plugin with its ledger; the policy selects nothing. *)
Definition ledgered : NvidiaDevicePlugin Bindings.t :=
  started (Some silent) "none".

(** The ledger of the four slices with the given entries. *)
Definition ledger (es : list (list string * list string)) : Bindings.t :=
  {| Bindings.deviceIDs := ["v1"; "v2"; "v3"; "v4"];
     Bindings.entries := es;
     Bindings.checkpointError := None;
     Bindings.checkpointReleased := [] |}.

(** What a run returned, or no responses when it failed. *)
Definition responsesOf {A S} (run : result (list A) * S) : list A :=
  match run.1 with Ok rs => rs | _ => [] end.

End Node.

(** How often [id] occurs among the granted identifiers. *)
Definition occurrences (id : string) (uuids : list string) : nat :=
  length (List.filter (String.eqb id) uuids).

(** A crash at [t] seconds on the clock. *)
Definition at_second (t : Z) : Supervisor.crash :=
  {| Supervisor.sinceAt := t * Supervisor.second;
     Supervisor.nowAt := t * Supervisor.second |}.

(** ** What a list sent by [ListAndWatch] shows of a device *)

(** The device at position [d] of [cachedDevices] has health [Unhealthy] in
    the store. *)
Definition marked {L} (m : NvidiaDevicePlugin L) (d : nat) : Prop :=
  forall pd, cachedDevices m !! d = Some pd ->
             Health (d_Device pd) = Unhealthy.

(** The list [sent] shows the physical device [d] unhealthy: with strategy
    "none" the list has one entry per virtual device, and every entry of a
    slice of [d] is [Unhealthy]; otherwise it has one entry per physical
    device, and the entry of [d] is [Unhealthy]. *)
Definition showsUnhealthy {L} (m : NvidiaDevicePlugin L) (d : nat)
  (sent : list ApiDevice) : Prop :=
  if String.eqb (migStrategy m) "none" then
    forall i, map dev (vDevices m) !! i = Some d ->
              Health <$> sent !! i = Some Unhealthy
  else
    (d < length (cachedDevices m))%nat ->
    Health <$> sent !! d = Some Unhealthy.

(** The shape of a plugin, which a session never changes. *)
Definition sameShape {L} (m m' : NvidiaDevicePlugin L) : Prop :=
  migStrategy m' = migStrategy m
  /\ map dev (vDevices m') = map dev (vDevices m)
  /\ length (cachedDevices m') = length (cachedDevices m).


(** The calls of one allocated container request. *)
Definition callsOf (req : ContainerAllocateRequest) (granted : list string)
  : list LedgerCall :=
  [CallRelease (DevicesIDs req);
   CallAcquire (DevicesIDs req) granted;
   CallAcquire (DevicesIDs req) granted].

(** The identifiers of the distinct physical devices that lie under the
    virtual devices [ids], as [GetPreferredAllocation] computes them before
    it asks the policy. *)
Definition distinctDevices {L} (m : NvidiaDevicePlugin L) (ids : list string)
  : result (list string) :=
  vds <- VDevicesByIDs (vDevices m) ids ;;
  UniqueDeviceIDs (cachedDevices m) vds.


(** A plain file name: not empty, not ["."] or [".."], and without a
    separator. *)
Fixpoint hasSlash (s : string) : bool :=
  match s with
  | EmptyString => false
  | String c rest => Ascii.eqb c "/"%char || hasSlash rest
  end.


(** The names of the environment variables that virtualisation sets. *)
Definition vgpuKey (k : string) : bool :=
  String.prefix "CUDA_" k || String.eqb k "NVIDIA_DEVICE_MAP".

(** The value of an environment variable of a response. *)
Definition envAt (r : ContainerAllocateResponse) (k : string) : option string :=
  match Envs r with
  | Some e => e !! k
  | None => None
  end.


(** ** Further notions for the properties of the code *)

(** How many of the returns of [Serve] were crashes. *)
Definition crashCount (rs : list Supervisor.serve_return) : nat :=
  length (List.filter
            (fun r => match r with
                      | Supervisor.ServeError _ => true
                      | Supervisor.ServeNil => false
                      end) rs).

(** Every crash of [rs] comes more than an hour after the crash before it,
    the one before the first having been at [last]. *)
Fixpoint spacedFrom (last : Z) (rs : list Supervisor.serve_return) : Prop :=
  match rs with
  | [] => True
  | Supervisor.ServeNil :: _ => True
  | Supervisor.ServeError c :: rest =>
      3600 * Supervisor.second < Supervisor.sinceAt c - last
      /\ spacedFrom (Supervisor.nowAt c) rest
  end.

(** The entry of a virtual device in a device list: its own ID, and the
    health of its physical device in the store. *)
Definition mirrored (cached : list Device) (vd : VDevice) : ApiDevice :=
  {| ID := ID (vd_Device vd);
     Health := match cached !! dev vd with
               | Some pd => Health (d_Device pd)
               | None => Health (vd_Device vd)
               end |}.

(** The device list of a plugin as the store has it now. *)
Definition currentList {L} (m : NvidiaDevicePlugin L) : list ApiDevice :=
  if String.eqb (migStrategy m) "none"
  then map (mirrored (cachedDevices m)) (vDevices m)
  else map d_Device (cachedDevices m).

(** With strategy "none", every virtual device points to a physical device
    of the store. *)
Definition wellPointed {L} (m : NvidiaDevicePlugin L) : Prop :=
  String.eqb (migStrategy m) "none" = true ->
  Forall (fun vd => (dev vd < length (cachedDevices m))%nat) (vDevices m).

(** The device lists after each of the health events of [ds] in turn. *)
Fixpoint listsAfter {L} (m : NvidiaDevicePlugin L) (ds : list nat)
  : list (list ApiDevice) :=
  match ds with
  | [] => []
  | d :: rest =>
      currentList (markUnhealthy m d) :: listsAfter (markUnhealthy m d) rest
  end.

(** The devices of the health events that [ListAndWatch] receives before
    its loop ends, and how the loop ends. *)
Fixpoint heard (evs : list watch_event) : list nat :=
  match evs with
  | HealthEvent (Some d) :: rest => d :: heard rest
  | _ => []
  end.

Fixpoint ending (evs : list watch_event) : watch_end :=
  match evs with
  | [] => Waiting
  | StopClosed :: _ => Returned
  | HealthEvent None :: _ => Panicked
  | HealthEvent (Some _) :: rest => ending rest
  end.

(** Position [i] of a device list belongs to the physical device [d]. *)
Definition entryOf {L} (m : NvidiaDevicePlugin L) (d i : nat) : Prop :=
  if String.eqb (migStrategy m) "none"
  then map dev (vDevices m) !! i = Some d
  else i = d.

(** Two plugins that differ at most in the healths copied into their
    virtual devices. *)
Definition sameView {L} (m m' : NvidiaDevicePlugin L) : Prop :=
  migStrategy m' = migStrategy m
  /\ cachedDevices m' = cachedDevices m
  /\ map dev (vDevices m') = map dev (vDevices m)
  /\ map (fun vd => ID (vd_Device vd)) (vDevices m')
     = map (fun vd => ID (vd_Device vd)) (vDevices m).

(** The indices that one cached device contributes to the device IDs by
    index: its index, once for every occurrence of its ID. *)
Definition indicesOf (d : Device) (uuids : list string) : list string :=
  flat_map (fun id => if String.eqb (ID (d_Device d)) id then [Index d] else [])
           uuids.

(** The name of the variable that limits the memory of slot [i]
    ([fmt.Sprintf("CUDA_DEVICE_MEMORY_LIMIT_%v", i)], line 488). *)
Definition limitKey (i : nat) : string :=
  "CUDA_DEVICE_MEMORY_LIMIT_" +:+ pretty i.

(** The entries of [NVIDIA_DEVICE_MAP]: slot, colon, physical device. *)
Definition deviceMap (ids : list string) : list string :=
  imap (fun i id => pretty i +:+ ":" +:+ id) ids.

(** Flags as on the node, with the device-ID strategy "index". *)
Definition indexFlags : Flags :=
  {| deviceListStrategyFlag := DeviceListStrategyEnvvar;
     deviceIDStrategyFlag := DeviceIDStrategyIndex;
     passDeviceSpecsFlag := false;
     nvidiaDriverRootFlag := "/";
     enableLegacyPreferredFlag := false;
     smLimit := "100";
     memoryOversold := true;
     annRequest := "vgpu-request";
     annUsing := "vgpu-using";
     annSep := ";" |}.

(** Flags with a device-list strategy that is neither "envvar" nor
    "volume-mounts". *)
Definition otherStrategyFlags : Flags :=
  {| deviceListStrategyFlag := "cdi";
     deviceIDStrategyFlag := DeviceIDStrategyUUID;
     passDeviceSpecsFlag := true;
     nvidiaDriverRootFlag := "/";
     enableLegacyPreferredFlag := false;
     smLimit := "100";
     memoryOversold := false;
     annRequest := "vgpu-request";
     annUsing := "vgpu-using";
     annSep := ";" |}.

(** The sizes that a pod asks for: the GPU limits of its containers, in
    order, the containers without one left out. *)
Definition gpuLimits (p : Pod) : list Z := omap gpuLimit (pod_Containers p).

(** The limit [nv] is the number of devices of the container request. *)
Definition asksFor (nv : Z) (req : ContainerAllocateRequest) : Prop :=
  nv = Z.of_nat (length (DevicesIDs req)).

(** The node in monitor mode, with the pods that the API server lists. *)
Definition monitorHost (pods : list Pod) : Host :=
  {| statOK := fun _ => true;
     getenv := fun k => if String.eqb k "VGPU_MONITOR_MODE" then "1" else "";
     nvmlDevices := nvmlDevices Node.host;
     podList := Some pods;
     newUUID := newUUID Node.host |}.

(** A pod with one container per entry: a GPU limit, or none. *)
Definition podOf (name : string) (pending : bool) (limits : list (option Z))
  : Pod :=
  {| pod_Name := name; pod_Pending := pending;
     pod_Containers :=
       imap (fun i l => {| ctr_Name := "c" +:+ pretty i; gpuLimit := l |})
            limits |}.

(** ** The life cycle of the plugin: [Start], [Serve], [Register], [Stop] *)

(** [path.Base(p)]: the last element of [p] once its trailing slashes are
    removed; ["."] for the empty path and ["/"] for a path of slashes
    only.  A trailing slash ends the path with an empty element. *)
Fixpoint dropEmpty (elems : list string) : list string :=
  match elems with
  | e :: rest => if String.eqb e "" then dropEmpty rest else elems
  | [] => []
  end.

Definition path_Base (p : string) : string :=
  if String.eqb p "" then "."
  else match dropEmpty (rev (path_elems p)) with
       | e :: _ => e
       | [] => "/"
       end.

(** [pluginapi.Version] and [pluginapi.KubeletSocket] of the device plugin
    API, v1beta1. *)
Definition pluginapi_Version : string := "v1beta1".
Definition pluginapi_KubeletSocket : string :=
  "/var/lib/kubelet/device-plugins/kubelet.sock".

Record RegisterRequest : Type := {
  reg_Version : string;
  reg_Endpoint : string;
  reg_ResourceName : string;
  reg_Options : DevicePluginOptions;
}.

(** What the life-cycle methods do outside the plugin.  Servers and
    channels are named by the number they were made with. *)
Inductive Effect : Type :=
| RemoveSocket (path : string)        (* [os.Remove(m.socket)] *)
| Listen (path : string)              (* [net.Listen("unix", m.socket)] *)
| ServeLoop (server : nat)            (* the goroutine of [Serve] *)
| Dial (path : string)                (* [m.dial(path, 5*time.Second)] *)
| SendRegister (reqt : RegisterRequest)  (* [client.Register(ctx, reqt)] *)
| StopServer (server : nat)           (* [m.server.Stop()] *)
| CleanLedger                         (* [m.vDeviceController.cleanup()] *)
| CloseChannel (ch : nat)             (* [close(m.stop)] *)
| CheckHealth (stop : option nat) (devices : list Device)
    (health : option nat).
    (* [go m.CheckHealth(m.stop, m.cachedDevices, m.health)] *)

(** The outside: the next number to name a server or a channel with, the
    channels closed so far, and what has been done, in order. *)
Record World : Type := {
  fresh : nat;
  closed : list nat;
  did : list Effect;
}.

Definition say (e : Effect) (w : World) : World :=
  {| fresh := fresh w; closed := closed w; did := did w ++ [e] |}.

(** The result of [os.Remove]: no error, an error that [os.IsNotExist]
    accepts, or another error. *)
Inductive removal : Type :=
| Removed
| NotExist
| RemoveFailed (err : string).

(** What the outside answers during one [Start]: the devices of the
    resource manager and their slicing, and the errors (if any) of
    [net.Listen], of the dial of the plugin's own socket, of the dial of
    the kubelet's socket, of [client.Register], and of the [os.Remove] in
    [Stop]. *)
Record Outside : Type := {
  out_Devices : list Device;
  out_Device2VDevice : list Device -> list VDevice;
  listen : option string;
  dialSelf : option string;
  dialKubelet : option string;
  register : option string;
  remove : removal;
}.

(** [NvidiaDevicePlugin] with the fields that the handlers' record leaves
    out: [server], [health] and [stop], [None] for nil. *)
Record Session (L : Type) : Type := {
  plugin : NvidiaDevicePlugin L;
  server : option nat;
  health : option nat;
  stop : option nat;
}.
Arguments plugin {L} _.
Arguments server {L} _.
Arguments health {L} _.
Arguments stop {L} _.

Section LifeCycle.

Context {L : Type} `{!VDeviceController L}.
Variable flags : Flags.

(** [NewNvidiaDevicePlugin] (lines 79-96); the resource manager is the
    [out_Devices] of the outside. *)
Definition NewNvidiaDevicePlugin (name envvar : string)
  (policy : option Policy) (sock : string) : Session L :=
  {| plugin := {| resourceName := name;
                  deviceListEnvvar := envvar;
                  allocatePolicy := policy;
                  socket := sock;
                  migStrategy := "none";
                  cachedDevices := [];
                  vDevices := [];
                  vDeviceController := None |};
     server := None;
     health := None;
     stop := None |}.

(** [initialize] in full (lines 98-115): the devices and the ledger as
    [initialize] above has them, then a new server and two new channels. *)
Definition initializeSession (out : Outside) (s : Session L) (w : World)
  : Session L * World :=
  ({| plugin := initialize flags (out_Devices out) (out_Device2VDevice out)
                  (plugin s);
      server := Some (fresh w);
      health := Some (S (fresh w));
      stop := Some (S (S (fresh w))) |},
   {| fresh := S (S (S (fresh w))); closed := closed w; did := did w |}).

(** The fields that [cleanup] sets to nil. *)
Definition reset (s : Session L) : Session L :=
  {| plugin := withCachedDevices
                 (withVDevices (withController (plugin s) None) []) [];
     server := None;
     health := None;
     stop := None |}.

(** [cleanup] (lines 117-128).  Closing a nil channel panics, as does
    closing a closed one. *)
Definition cleanup (s : Session L) (w : World) : result (Session L * World) :=
  let w1 := match vDeviceController (plugin s) with
            | Some _ => say CleanLedger w
            | None => w
            end in
  match stop s with
  | None => Panic
  | Some ch =>
      if bool_decide (ch ∈ closed w1) then Panic
      else Ok (reset s,
               {| fresh := fresh w1; closed := ch :: closed w1;
                  did := did w1 ++ [CloseChannel ch] |})
  end.

(** [Stop] (lines 157-168), for a plugin that is not nil: the error
    returned, if any, and the session and the outside as left. *)
Definition Stop (rm : removal) (s : Session L) (w : World)
  : result (option string * Session L * World) :=
  match server s with
  | None => Ok (None, s, w)
  | Some srv =>
      let w1 := say (RemoveSocket (socket (plugin s)))
                  (say (StopServer srv) w) in
      match rm with
      | RemoveFailed err => Ok (Some err, s, w1)
      | Removed | NotExist =>
          done <- cleanup s w1 ;; Ok (None, done.1, done.2)
      end
  end.

(** [dial] (lines 541-554): the error of [grpc.Dial], if any; both callers
    close the connection that they get. *)
Definition dial (answer : option string) (unixSocketPath : string)
  (w : World) : option string * World :=
  (answer, say (Dial unixSocketPath) w).

(** [Serve] (lines 171-218): the removal of a stale socket, whose error is
    dropped, the listener, the goroutine with the crash-restart loop, and
    the blocking dial of the plugin's own socket.
    [pluginapi.RegisterDevicePluginServer] panics on a nil server. *)
Definition Serve (out : Outside) (s : Session L) (w : World)
  : result (option string * World) :=
  let sock := socket (plugin s) in
  let w1 := say (Listen sock) (say (RemoveSocket sock) w) in
  match listen out with
  | Some err => Ok (Some err, w1)
  | None =>
      match server s with
      | None => Panic
      | Some srv => Ok (dial (dialSelf out) sock (say (ServeLoop srv) w1))
      end
  end.

(** The request that [Register] builds (lines 228-236). *)
Definition registerRequest (m : NvidiaDevicePlugin L) : RegisterRequest :=
  {| reg_Version := pluginapi_Version;
     reg_Endpoint := path_Base (socket m);
     reg_ResourceName := resourceName m;
     reg_Options := Register_Options m |}.

(** [Register] (lines 221-243). *)
Definition Register (out : Outside) (m : NvidiaDevicePlugin L) (w : World)
  : option string * World :=
  let conn := dial (dialKubelet out) pluginapi_KubeletSocket w in
  match conn.1 with
  | Some err => (Some err, conn.2)
  | None => (register out, say (SendRegister (registerRequest m)) conn.2)
  end.

(** [Start] (lines 132-154).  The error that [m.Stop()] returns after a
    failed registration is dropped. *)
Definition Start (out : Outside) (s : Session L) (w : World)
  : result (option string * Session L * World) :=
  let init := initializeSession out s w in
  let s1 := init.1 in
  served <- Serve out s1 init.2 ;;
  match served.1 with
  | Some err => done <- cleanup s1 served.2 ;; Ok (Some err, done.1, done.2)
  | None =>
      let registered := Register out (plugin s1) served.2 in
      match registered.1 with
      | Some err =>
          stopped <- Stop (remove out) s1 registered.2 ;;
          Ok (Some err, stopped.1.2, stopped.2)
      | None =>
          Ok (None, s1,
              say (CheckHealth (stop s1) (cachedDevices (plugin s1))
                     (health s1))
                  registered.2)
      end
  end.

(** A call of [Start] or of [Stop], with what the outside answers. *)
Inductive LifeCall : Type :=
| StartCall (out : Outside)
| StopCall (rm : removal).

(** A sequence of calls on one plugin: the errors returned, in order, and
    the session and the outside at the end. *)
Fixpoint life (cs : list LifeCall) (s : Session L) (w : World)
  : result (list (option string) * Session L * World) :=
  match cs with
  | [] => Ok ([], s, w)
  | c :: rest =>
      r <- match c with
           | StartCall out => Start out s w
           | StopCall rm => Stop rm s w
           end ;;
      rs <- life rest r.1.2 r.2 ;;
      Ok (r.1.1 :: rs.1.1, rs.1.2, rs.2)
  end.

End LifeCycle.

(** The outside before anything was done. *)
Definition quiet : World := {| fresh := 0; closed := []; did := [] |}.

(** The first error among the answers of the outside, in the order in
    which [Start] meets them. *)
Definition firstError (out : Outside) : option string :=
  match listen out, dialSelf out, dialKubelet out with
  | Some e, _, _ => Some e
  | None, Some e, _ => Some e
  | None, None, Some e => Some e
  | None, None, None => register out
  end.

(** The session holds nothing of a started plugin. *)
Definition tornDown {L} (s : Session L) : Prop :=
  server s = None /\ health s = None /\ stop s = None
  /\ cachedDevices (plugin s) = [] /\ vDevices (plugin s) = []
  /\ vDeviceController (plugin s) = None.

(** The channels closed so far were made before the next one will be. *)
Definition worldOK (w : World) : Prop :=
  Forall (fun ch => (ch < fresh w)%nat) (closed w).

(** An outside in which everything succeeds on the node. *)
Definition fair : Outside :=
  {| out_Devices := [Node.gpuA; Node.gpuB];
     out_Device2VDevice := Node.slices;
     listen := None; dialSelf := None; dialKubelet := None;
     register := None; remove := Removed |}.

(** The plugin of the node as constructed. *)
Definition nodePlugin : Session Bindings.t :=
  NewNvidiaDevicePlugin "nvidia.com/gpu" "NVIDIA_VISIBLE_DEVICES"
    (Some Node.firstFit) "/var/lib/kubelet/device-plugins/nvidia.sock".

(** What [cleanup] does to the ledger of the session. *)
Definition ledgerCleaning {L} (s : Session L) : list Effect :=
  match vDeviceController (plugin s) with
  | Some _ => [CleanLedger]
  | None => []
  end.

(** A session whose [cleanup] will not panic: when it has a server it has
    a stop channel, made before and not closed. *)
Definition safe {L} (s : Session L) (w : World) : Prop :=
  worldOK w
  /\ match server s with
     | Some _ => exists ch, stop s = Some ch /\ (ch < fresh w)%nat
                            /\ ch ∉ closed w
     | None => True
     end.

(** An outside in which the kubelet refuses the registration and the
    socket cannot be removed, and one in which the plugin's own socket
    does not answer. *)
Definition unlucky : Outside :=
  {| out_Devices := [Node.gpuA; Node.gpuB];
     out_Device2VDevice := Node.slices;
     listen := None; dialSelf := None; dialKubelet := None;
     register := Some "rpc error: code = Unknown";
     remove := RemoveFailed "permission denied" |}.

Definition deaf : Outside :=
  {| out_Devices := [Node.gpuA; Node.gpuB];
     out_Device2VDevice := Node.slices;
     listen := None; dialSelf := Some "context deadline exceeded";
     dialKubelet := None; register := None; remove := Removed |}.

(** The session and the outside that a call left, or those given when it
    panicked. *)
Definition left_by {L} (r : result (option string * Session L * World))
  (s : Session L) (w : World) : Session L * World :=
  match r with
  | Ok x => (x.1.2, x.2)
  | _ => (s, w)
  end.

(** Is [id] the ID of a virtual device of the plugin? *)
Definition vdeviceExists {L} (m : NvidiaDevicePlugin L) (id : string) : bool :=
  existsb (fun vd => String.eqb (ID (vd_Device vd)) id) (vDevices m).

(** Every virtual device points into [cachedDevices]. *)
Definition allPointed {L} (m : NvidiaDevicePlugin L) : Prop :=
  Forall (fun vd => (dev vd < length (cachedDevices m))%nat) (vDevices m).

(** ** The devices that a call of [Allocate] grants *)


Section Grants.

Context {L : Type} `{!VDeviceController L}.
Variable host : Host.

(** The virtual devices that the loop of [Allocate] grants to each of
    [reqs], starting with the ledger [ctl]: what [selectDevices] returns
    for the request on the ledger as the requests before it left it, each
    of them having acquired its grant a second time for its response
    (line 484). *)
Fixpoint grantsFrom (m : NvidiaDevicePlugin L) (ctl : option L)
  (reqs : list ContainerAllocateRequest) : list (list string) :=
  match reqs with
  | [] => []
  | req :: rest =>
      match selectDevices host m ctl req with
      | (Ok granted, ctl1) =>
          granted
          :: grantsFrom m (acquire (DevicesIDs req) granted <$> ctl1) rest
      | _ => []
      end
  end.

(** The ledger after the reconciliation with the checkpoint
    (lines 408-413). *)
Definition reconciled (m : NvidiaDevicePlugin L) : option L :=
  (fun l => (updateFromCheckpoint l).1) <$> vDeviceController m.

(** The devices granted to each container request by a call of
    [Allocate]: with the MIG strategy "mixed" the devices requested,
    otherwise the virtual devices selected on the reconciled ledger. *)
Definition grantedBy (m : NvidiaDevicePlugin L)
  (reqs : list ContainerAllocateRequest) : list (list string) :=
  if String.eqb (migStrategy m) "mixed" then map DevicesIDs reqs
  else grantsFrom m (reconciled m) reqs.

End Grants.

(** * Properties *)

(** ** The library models on the examples of the Go documentation *)

Example Clean_doubled_separator : filepath_Clean "a//c" = "a/c".
Proof. reflexivity. Qed.

Example Clean_dot : filepath_Clean "a/c/." = "a/c".
Proof. reflexivity. Qed.

Example Clean_dotdot : filepath_Clean "a/c/b/.." = "a/c".
Proof. reflexivity. Qed.

Example Clean_rooted_dotdot : filepath_Clean "/../a/b/../././/c" = "/a/c".
Proof. reflexivity. Qed.

Example Clean_relative_dotdot : filepath_Clean "a/../../b" = "../b".
Proof. reflexivity. Qed.

Example Clean_empty : filepath_Clean "" = ".".
Proof. reflexivity. Qed.

Example Join_two : filepath_Join ["a"; "b"] = "a/b".
Proof. reflexivity. Qed.

Example Join_empty_elements :
  filepath_Join ["a"; ""] = "a" /\ filepath_Join [""; "b"] = "b"
  /\ filepath_Join [""; ""] = "".
Proof. repeat split. Qed.

Example Join_up : filepath_Join ["a/b"; "../../../xyz"] = "../xyz".
Proof. reflexivity. Qed.

Example Join_driver_root :
  filepath_Join ["/"; "/dev/nvidiactl"] = "/dev/nvidiactl"
  /\ filepath_Join ["/run/nvidia/driver"; "/dev/nvidiactl"]
     = "/run/nvidia/driver/dev/nvidiactl".
Proof. split; reflexivity. Qed.

Example int32_wraps :
  int32 2 = 2 /\ int32 (2 ^ 31) = - 2 ^ 31 /\ int32 (2 ^ 32 + 2) = 2.
Proof. repeat split. Qed.

Example decimal_keys :
  "CUDA_DEVICE_MEMORY_LIMIT_" +:+ pretty 10%nat = "CUDA_DEVICE_MEMORY_LIMIT_10"
  /\ pretty 4096%N +:+ "m" = "4096m".
Proof. split; reflexivity. Qed.

(** ** The crash-restart loop *)

Module SupervisorFacts.
Import Supervisor.

Lemma on_crash_first (now : Z) (c : crash) :
  on_crash (start now) c
  = Serving {| lastCrashTime := nowAt c; restartCount := 1 |}.
Proof.
  unfold on_crash, start; cbn.
  now destruct (moreThanAnHour _).
Qed.

Lemma on_crash_soon (s : crash_state) (c : crash) :
  restartCount s <= 5 ->
  gap s c <= 3600 * second ->
  on_crash s c
  = Serving {| lastCrashTime := nowAt c;
               restartCount := restartCount s + 1 |}.
Proof.
  intros Hn Hgap. unfold on_crash, moreThanAnHour, gap in *.
  destruct (Z.ltb_spec 5 (restartCount s)); [lia|].
  destruct (Z.ltb_spec (3600 * second) (sinceAt c - lastCrashTime s));
    [lia|reflexivity].
Qed.

Lemma on_crash_late (s : crash_state) (c : crash) :
  restartCount s <= 5 ->
  3600 * second < gap s c ->
  on_crash s c
  = Serving {| lastCrashTime := nowAt c; restartCount := 1 |}.
Proof.
  intros Hn Hgap. unfold on_crash, moreThanAnHour, gap in *.
  destruct (Z.ltb_spec 5 (restartCount s)); [lia|].
  destruct (Z.ltb_spec (3600 * second) (sinceAt c - lastCrashTime s));
    [reflexivity|lia].
Qed.

Lemma on_crash_often (s : crash_state) (c : crash) :
  5 < restartCount s -> on_crash s c = Fatal.
Proof.
  intros Hn. unfold on_crash.
  destruct (Z.ltb_spec 5 (restartCount s)); [reflexivity|lia].
Qed.

(** The counter stays between 0 and 6, so the Go [int] never wraps. *)
Lemma restartCount_bounded (rs : list serve_return) (s s' : crash_state) :
  0 <= restartCount s <= 6 ->
  serve_loop s rs = Serving s' ->
  0 <= restartCount s' <= 6.
Proof.
  revert s. induction rs as [|[|c] rs IH]; intros s Hs; cbn.
  - intros [= <-]. exact Hs.
  - discriminate.
  - unfold on_crash. destruct (Z.ltb_spec 5 (restartCount s)); [discriminate|].
    apply IH; cbn. destruct (moreThanAnHour _); lia.
Qed.

(** Six crashes, the second to the sixth each within the hour of the one
    before, leave the counter at 6. *)
Lemma six_crashes (now : Z) (c1 c2 c3 c4 c5 c6 : crash) :
  sinceAt c2 - nowAt c1 <= 3600 * second ->
  sinceAt c3 - nowAt c2 <= 3600 * second ->
  sinceAt c4 - nowAt c3 <= 3600 * second ->
  sinceAt c5 - nowAt c4 <= 3600 * second ->
  sinceAt c6 - nowAt c5 <= 3600 * second ->
  serve_loop (start now) (ServeError <$> [c1; c2; c3; c4; c5; c6])
  = Serving {| lastCrashTime := nowAt c6; restartCount := 6 |}.
Proof.
  intros H2 H3 H4 H5 H6. cbn [fmap list_fmap serve_loop].
  rewrite on_crash_first.
  do 5 (rewrite on_crash_soon by (cbn; assumption || lia); cbn).
  reflexivity.
Qed.

(** C2, first half, and what the code does in the second: after six
    crashes each within 3600 seconds of the one before, the seventh crash
    ends the process, and it does so whatever the gap before it, also
    after more than 3600 healthy seconds; the counter is tested before
    the gap is looked at, and is not reset to 1. *)
Theorem seventh_crash_is_fatal (now : Z) (c1 c2 c3 c4 c5 c6 c7 : crash) :
  sinceAt c2 - nowAt c1 <= 3600 * second ->
  sinceAt c3 - nowAt c2 <= 3600 * second ->
  sinceAt c4 - nowAt c3 <= 3600 * second ->
  sinceAt c5 - nowAt c4 <= 3600 * second ->
  sinceAt c6 - nowAt c5 <= 3600 * second ->
  serve_loop (start now) (ServeError <$> [c1; c2; c3; c4; c5; c6; c7])
  = Fatal.
Proof.
  intros H2 H3 H4 H5 H6.
  pose proof (six_crashes now c1 c2 c3 c4 c5 c6 H2 H3 H4 H5 H6) as Hsix.
  cbn [fmap list_fmap serve_loop] in *.
  rewrite on_crash_first in *.
  do 5 (rewrite on_crash_soon in * by (cbn; assumption || lia); cbn in * ).
  rewrite on_crash_often by (cbn; lia). reflexivity.
Qed.

(** Crashes every ten seconds, then two healthy hours before the seventh:
    the process still exits. *)
Lemma seventh_crash_is_fatal_after_two_hours :
  3600 * second < gap {| lastCrashTime := 60 * second; restartCount := 6 |}
                      (at_second 7260)
  /\ serve_loop (start 0)
       (ServeError <$> [at_second 10; at_second 20; at_second 30;
                        at_second 40; at_second 50; at_second 60;
                        at_second 7260])
     = Fatal.
Proof.
  split; [reflexivity|].
  apply (seventh_crash_is_fatal 0 (at_second 10) (at_second 20)
           (at_second 30) (at_second 40) (at_second 50) (at_second 60)
           (at_second 7260)); vm_compute; discriminate.
Defined.

End SupervisorFacts.

(** ** Options and registration *)

Section OptionsFacts.

Context {L : Type} `{!VDeviceController L}.

Lemma initialize_policy (flags : Flags) devices d2v (m : NvidiaDevicePlugin L) :
  allocatePolicy (initialize flags devices d2v m) = allocatePolicy m.
Proof.
  unfold initialize.
  destruct (String.eqb _ _), (enableLegacyPreferredFlag flags);
    cbn; try reflexivity; destruct (allocatePolicy m) eqn:E; cbn;
    now rewrite ?E.
Qed.

Lemma initialize_controller (flags : Flags) devices d2v
  (m : NvidiaDevicePlugin L) :
  enableLegacyPreferredFlag flags = true ->
  notNil (allocatePolicy m) = true ->
  notNil (vDeviceController (initialize flags devices d2v m)) = true.
Proof.
  intros Hflag Hpol. unfold initialize. rewrite Hflag.
  destruct (String.eqb _ _); cbn; rewrite Hpol; reflexivity.
Qed.

(** C4, as the code has it: a plugin initialised with a policy and with
    legacy preferred allocation enabled has a Binding Ledger;
    [GetDevicePluginOptions] still reports preferred allocation as
    available, while the options that [Register] sends report it as
    unavailable. *)
Theorem GetDevicePluginOptions_ignores_ledger (flags : Flags) devices d2v
  (m0 : NvidiaDevicePlugin L) :
  enableLegacyPreferredFlag flags = true ->
  notNil (allocatePolicy m0) = true ->
  let m := initialize flags devices d2v m0 in
  notNil (vDeviceController m) = true
  /\ GetDevicePluginOptions m
     = Ok {| GetPreferredAllocationAvailable := true |}
  /\ Register_Options m = {| GetPreferredAllocationAvailable := false |}.
Proof.
  intros Hflag Hpol. cbv zeta.
  pose proof (initialize_controller flags devices d2v m0 Hflag Hpol) as Hctl.
  split; [exact Hctl|].
  unfold GetDevicePluginOptions, Register_Options.
  rewrite initialize_policy, Hpol, Hctl. split; reflexivity.
Qed.

(** C6: with MIG strategy "mixed", [GetPreferredAllocation] returns a nil
    response and a nil error, whatever the request. *)
Theorem GetPreferredAllocation_mixed (host : Host) (m : NvidiaDevicePlugin L)
  (r : list ContainerPreferredAllocationRequest) :
  migStrategy m = "mixed" ->
  GetPreferredAllocation host m r = Ok None.
Proof.
  intros Hmig. unfold GetPreferredAllocation. rewrite Hmig. reflexivity.
Qed.

End OptionsFacts.

(** On the small node, started with a policy and the legacy flag. *)
Lemma GetDevicePluginOptions_ignores_ledger_on_node :
  let m := Node.started (Some Node.firstFit) "none" in
  notNil (vDeviceController m) = true
  /\ GetDevicePluginOptions m = Ok {| GetPreferredAllocationAvailable := true |}
  /\ Register_Options m = {| GetPreferredAllocationAvailable := false |}.
Proof.
  apply (GetDevicePluginOptions_ignores_ledger
           (Node.flags DeviceListStrategyEnvvar) [Node.gpuA; Node.gpuB]
           Node.slices (Node.new (Some Node.firstFit) "none"));
    reflexivity.
Defined.

(** On the small node with strategy "mixed". *)
Lemma GetPreferredAllocation_mixed_on_node :
  GetPreferredAllocation Node.host (Node.started (Some Node.firstFit) "mixed")
    [ {| AvailableDeviceIDs := ["GPU-A"; "GPU-B"];
         MustIncludeDeviceIDs := []; AllocationSize := 1 |} ]
  = Ok None.
Proof.
  apply (GetPreferredAllocation_mixed Node.host
           (Node.started (Some Node.firstFit) "mixed")).
  reflexivity.
Defined.

(** ** Device specs *)

Section DeviceSpecFacts.

Context {L : Type}.
Variable host : Host.

Lemma length_specs_of_device (driverRoot : string) (d : Device)
  (uuids : list string) :
  length (flat_map (fun id =>
            if String.eqb (ID (d_Device d)) id
            then map (deviceSpec driverRoot) (Paths d) else []) uuids)
  = (occurrences (ID (d_Device d)) uuids * length (Paths d))%nat.
Proof.
  unfold occurrences. induction uuids as [|id uuids IH]; [reflexivity|].
  cbn [flat_map List.filter]. rewrite length_app, IH.
  destruct (String.eqb _ id); cbn [length]; [rewrite length_map|]; lia.
Qed.

Lemma elem_of_specs_of_device (driverRoot : string) (d : Device)
  (uuids : list string) (s : DeviceSpec) :
  s ∈ flat_map (fun id =>
        if String.eqb (ID (d_Device d)) id
        then map (deviceSpec driverRoot) (Paths d) else []) uuids
  <-> ID (d_Device d) ∈ uuids
      /\ exists p, p ∈ Paths d /\ s = deviceSpec driverRoot p.
Proof.
  rewrite list_elem_of_In, in_flat_map. split.
  - intros (id & Hid & Hs). destruct (String.eqb_spec (ID (d_Device d)) id).
    + subst id. split; [now apply list_elem_of_In|].
      apply in_map_iff in Hs as (p & <- & Hp).
      exists p. split; [now apply list_elem_of_In|reflexivity].
    + destruct Hs.
  - intros (Hid & p & Hp & ->). exists (ID (d_Device d)).
    split; [now apply list_elem_of_In|].
    rewrite String.eqb_refl. apply in_map. now apply list_elem_of_In.
Qed.

Lemma specs_of_device_replicate (driverRoot : string) (d : Device)
  (uuids : list string) :
  flat_map (fun id =>
              if String.eqb (ID (d_Device d)) id
              then map (deviceSpec driverRoot) (Paths d) else []) uuids
  = concat (replicate (occurrences (ID (d_Device d)) uuids)
              (map (deviceSpec driverRoot) (Paths d))).
Proof.
  unfold occurrences. induction uuids as [|id uuids IH]; [reflexivity|].
  cbn [flat_map List.filter]. rewrite IH.
  now destruct (String.eqb _ id).
Qed.

(** C9, amended: the specs are those of the control, UVM and modeset
    nodes that exist on the host at the time of the call, in the order
    [/dev/nvidiactl], [/dev/nvidia-uvm], [/dev/nvidia-uvm-tools],
    [/dev/nvidia-modeset], followed by those of the device nodes of the
    cached devices whose ID is among the granted ones: the cached devices
    in their order, and for each the specs of its paths in their order,
    the whole once per occurrence of the ID.  Of each spec the host path
    is the node's path joined under the driver root; the container path is
    the node's path itself, and the permissions are "rw".  The first two
    parts give the members and the number of specs, the third the list
    itself. *)
Theorem apiDeviceSpecs_spec (m : NvidiaDevicePlugin L) (driverRoot : string)
  (uuids : list string) :
  (forall s : DeviceSpec,
      s ∈ apiDeviceSpecs host m driverRoot uuids <->
      exists p,
        s = {| spec_ContainerPath := p;
               spec_HostPath := filepath_Join [driverRoot; p];
               spec_Permissions := "rw" |}
        /\ (p ∈ ["/dev/nvidiactl"; "/dev/nvidia-uvm"; "/dev/nvidia-uvm-tools";
                 "/dev/nvidia-modeset"] /\ statOK host p = true
            \/ exists d, d ∈ cachedDevices m
                         /\ ID (d_Device d) ∈ uuids /\ p ∈ Paths d))
  /\ length (apiDeviceSpecs host m driverRoot uuids)
     = (length (List.filter (statOK host) controlPaths)
        + sum_list (map (fun d => occurrences (ID (d_Device d)) uuids
                                  * length (Paths d))
                        (cachedDevices m)))%nat
  /\ (let spec := fun p =>
                    {| spec_ContainerPath := p;
                       spec_HostPath := filepath_Join [driverRoot; p];
                       spec_Permissions := "rw" |} in
      apiDeviceSpecs host m driverRoot uuids
      = map spec
          (List.filter (statOK host)
             ["/dev/nvidiactl"; "/dev/nvidia-uvm"; "/dev/nvidia-uvm-tools";
              "/dev/nvidia-modeset"])
        ++ flat_map
             (fun d =>
                concat (replicate (occurrences (ID (d_Device d)) uuids)
                          (map spec (Paths d))))
             (cachedDevices m)).
Proof.
  unfold apiDeviceSpecs. split; [|split].
  - intros s. rewrite elem_of_app. split.
    + intros [Hs | Hs].
      * apply list_elem_of_In, in_map_iff in Hs as (p & <- & Hp).
        apply filter_In in Hp as [Hp Hstat].
        exists p. split; [reflexivity|]. left.
        split; [now apply list_elem_of_In|exact Hstat].
      * apply list_elem_of_In, in_flat_map in Hs as (d & Hd & Hs).
        apply list_elem_of_In, elem_of_specs_of_device in Hs
          as (Hid & p & Hp & ->).
        exists p. split; [reflexivity|]. right.
        exists d. split; [now apply list_elem_of_In|]. now split.
    + intros (p & Hs & Hwhere).
      change (s = deviceSpec driverRoot p) in Hs. subst s.
      destruct Hwhere as [[Hp Hstat] | (d & Hd & Hid & Hp)].
      * left. apply list_elem_of_In, in_map, filter_In.
        split; [now apply list_elem_of_In|exact Hstat].
      * right. apply list_elem_of_In, in_flat_map. exists d.
        split; [now apply list_elem_of_In|].
        apply list_elem_of_In, elem_of_specs_of_device.
        split; [exact Hid|]. now exists p.
  - rewrite length_app, length_map. f_equal.
    induction (cachedDevices m) as [|d ds IH]; [reflexivity|].
    cbn [flat_map map sum_list sum_list_with].
    now rewrite length_app, length_specs_of_device, IH.
  - cbv zeta. f_equal. apply flat_map_ext. intros d.
    apply specs_of_device_replicate.
Qed.

End DeviceSpecFacts.

(** The claim C9 as stated fails on the container paths: with the driver
    root [/run/nvidia/driver] the spec of [/dev/nvidiactl] has that very
    path as container path, which is not under the driver root. *)
Lemma apiDeviceSpecs_container_path_not_under_root :
  let m := Node.started (Some Node.firstFit) "none" in
  let specs := apiDeviceSpecs Node.host m "/run/nvidia/driver" ["GPU-A"] in
  specs !! 0%nat
  = Some {| spec_ContainerPath := "/dev/nvidiactl";
            spec_HostPath := "/run/nvidia/driver/dev/nvidiactl";
            spec_Permissions := "rw" |}
  /\ ~ (forall s, s ∈ specs ->
          String.prefix "/run/nvidia/driver" (spec_ContainerPath s) = true
          /\ String.prefix "/run/nvidia/driver" (spec_HostPath s) = true).
Proof.
  cbv zeta. split; [reflexivity|].
  intros Hall.
  destruct (Hall {| spec_ContainerPath := "/dev/nvidiactl";
                    spec_HostPath := "/run/nvidia/driver/dev/nvidiactl";
                    spec_Permissions := "rw" |}) as [Hc _].
  - apply list_elem_of_lookup. exists 0%nat. reflexivity.
  - vm_compute in Hc. discriminate.
Qed.

(** ** Health is never restored within a session *)

Section HealthFacts.

Context {L : Type}.
Implicit Types m : NvidiaDevicePlugin L.

Lemma refreshHealth_ok (cached : list Device) (vds vds' : list VDevice) :
  refreshHealth cached vds = Ok vds' ->
  map dev vds' = map dev vds
  /\ forall i vd, vds' !! i = Some vd ->
       exists pd, cached !! dev vd = Some pd
                  /\ Health (vd_Device vd) = Health (d_Device pd).
Proof.
  revert vds'. induction vds as [|vd vds IH]; intros vds'; cbn.
  - intros [= <-]. split; [reflexivity|]. intros i vd Hi. inversion Hi.
  - destruct (cached !! dev vd) as [pd|] eqn:Hpd; [|discriminate].
    destruct (refreshHealth cached vds) as [rest| |]; cbn; try discriminate.
    intros [= <-]. destruct (IH rest eq_refl) as [Hdev Hrest].
    split; [cbn; now rewrite Hdev|].
    intros [|i] vd' Hi; cbn in Hi.
    + injection Hi as <-. exists pd. now split.
    + now apply (Hrest i).
Qed.

Lemma apiDevices_ok m m' (devs : list ApiDevice) (d : nat) :
  apiDevices m = Ok (devs, m') ->
  migStrategy m' = migStrategy m
  /\ map dev (vDevices m') = map dev (vDevices m)
  /\ cachedDevices m' = cachedDevices m
  /\ (marked m d -> showsUnhealthy m d devs).
Proof.
  unfold apiDevices, showsUnhealthy.
  destruct (String.eqb (migStrategy m) "none").
  - destruct (refreshHealth _ _) as [vds| |] eqn:Hvds; cbn; try discriminate.
    intros [= <- <-]. cbn.
    destruct (refreshHealth_ok _ _ _ Hvds) as [Hdev Hhealth].
    repeat split; try assumption.
    intros Hmarked i Hi. rewrite <- Hdev in Hi.
    change (map dev vds) with (dev <$> vds) in Hi.
    change (map vd_Device vds) with (vd_Device <$> vds).
    rewrite list_lookup_fmap in Hi. rewrite list_lookup_fmap.
    destruct (vds !! i) as [vd|] eqn:Hvd; [|discriminate].
    cbn in *. injection Hi as Hi.
    destruct (Hhealth i vd Hvd) as (pd & Hpd & ->).
    rewrite Hi in Hpd. now rewrite (Hmarked pd Hpd).
  - intros [= <- <-]. repeat split.
    intros Hmarked Hd.
    change (map d_Device (cachedDevices m)) with (d_Device <$> cachedDevices m).
    rewrite list_lookup_fmap.
    destruct (lookup_lt_is_Some_2 _ _ Hd) as [pd Hpd].
    rewrite Hpd. cbn. now rewrite (Hmarked pd Hpd).
Qed.

(** Marking a device leaves every marked device marked, and marks it. *)
Lemma markUnhealthy_marked m (d d' : nat) :
  marked m d -> marked (markUnhealthy m d') d.
Proof.
  unfold marked, markUnhealthy. cbn. intros Hm pd.
  destruct (decide (d' = d)) as [->|Hne].
  - rewrite list_lookup_alter_eq.
    destruct (cachedDevices m !! d); cbn; [|discriminate]. now intros [= <-].
  - rewrite list_lookup_alter_ne by assumption. apply Hm.
Qed.

Lemma markUnhealthy_marks m (d : nat) : marked (markUnhealthy m d) d.
Proof.
  unfold marked, markUnhealthy. cbn. intros pd.
  rewrite list_lookup_alter_eq.
  destruct (cachedDevices m !! d); cbn; [|discriminate]. now intros [= <-].
Qed.

Lemma showsUnhealthy_shape m m' d sent :
  sameShape m m' -> showsUnhealthy m' d sent -> showsUnhealthy m d sent.
Proof.
  intros (Hmig & Hdev & Hlen). unfold showsUnhealthy.
  now rewrite Hmig, Hdev, Hlen.
Qed.

Lemma sameShape_step m m' devs (d : nat) :
  apiDevices (markUnhealthy m d) = Ok (devs, m') -> sameShape m m'.
Proof.
  intros Hapi.
  destruct (apiDevices_ok _ _ _ d Hapi) as (Hmig & Hdev & Hcached & _).
  unfold sameShape. rewrite Hmig, Hdev, Hcached. cbn.
  now rewrite length_alter.
Qed.

Lemma marked_step m m' devs (d : nat) :
  apiDevices m = Ok (devs, m') -> marked m d -> marked m' d.
Proof.
  intros Hapi.
  destruct (apiDevices_ok _ _ _ d Hapi) as (_ & _ & Hcached & _).
  unfold marked. now rewrite Hcached.
Qed.

(** Once marked in the store, a device is unhealthy in every list the loop
    sends. *)
Lemma watch_loop_marked (evs : list watch_event) m (d : nat) :
  marked m d ->
  Forall (showsUnhealthy m d) (watch_loop m evs).1.
Proof.
  revert m. induction evs as [|[|[d'|]] evs IH]; intros m Hm; cbn;
    try constructor.
  destruct (apiDevices (markUnhealthy m d')) as [[devs m']| |] eqn:Hapi;
    try constructor.
  pose proof (markUnhealthy_marked m d d' Hm) as Hm1.
  pose proof (sameShape_step _ _ _ _ Hapi) as Hshape.
  destruct (apiDevices_ok _ _ _ d Hapi) as (Hmig & Hdev & Hcached & Hshow).
  specialize (IH m' (marked_step _ _ _ d Hapi Hm1)).
  destruct (watch_loop m' evs) as [sent e]. cbn in *. constructor.
  - apply (showsUnhealthy_shape m (markUnhealthy m d')).
    + unfold sameShape. cbn. now rewrite length_alter.
    + now apply Hshow.
  - eapply Forall_impl; [exact IH|].
    intros sent1. now apply showsUnhealthy_shape.
Qed.

Lemma watch_loop_after (pre : list watch_event) m (d : nat)
  (post : list watch_event) (k : nat) (sent : list ApiDevice) :
  (watch_loop m (pre ++ HealthEvent (Some d) :: post)).1 !! k = Some sent ->
  (length (watch_loop m pre).1 <= k)%nat ->
  showsUnhealthy m d sent.
Proof.
  revert m k. induction pre as [|[|[d'|]] pre IH]; intros m k; cbn.
  - intros Hk _.
    pose proof (watch_loop_marked (HealthEvent (Some d) :: post) m d) as Hall.
    cbn in Hall.
    destruct (apiDevices (markUnhealthy m d)) as [[devs m']| |] eqn:Hapi;
      try (cbn in Hk; inversion Hk; fail).
    pose proof (sameShape_step _ _ _ _ Hapi) as Hshape.
    pose proof (markUnhealthy_marks m d) as Hm1.
    destruct (apiDevices_ok _ _ _ d Hapi) as (_ & _ & _ & Hshow).
    pose proof (watch_loop_marked post m' d
                  (marked_step _ _ _ d Hapi Hm1)) as Hrest.
    destruct (watch_loop m' post) as [sent' e]. cbn in *.
    destruct k as [|k]; cbn in Hk.
    + injection Hk as <-.
      apply (showsUnhealthy_shape m (markUnhealthy m d)).
      * unfold sameShape. cbn. now rewrite length_alter.
      * now apply Hshow.
    + apply (showsUnhealthy_shape m m' d sent Hshape).
      rewrite Forall_forall in Hrest. apply Hrest.
      apply list_elem_of_lookup. now exists k.
  - intros Hk. inversion Hk.
  - destruct (apiDevices (markUnhealthy m d')) as [[devs m']| |] eqn:Hapi;
      try (intros Hk; cbn in Hk; inversion Hk; fail).
    pose proof (sameShape_step _ _ _ _ Hapi) as Hshape.
    specialize (IH m').
    destruct (watch_loop m' (pre ++ HealthEvent (Some d) :: post))
      as [sent1 e1].
    destruct (watch_loop m' pre) as [sent0 e0]. cbn in *.
    intros Hk Hlen. destruct k as [|k]; [lia|]. cbn in Hk.
    apply (showsUnhealthy_shape m m' d sent Hshape).
    apply (IH k Hk). lia.
  - intros Hk. inversion Hk.
Qed.

(** C7: in a [ListAndWatch] session, once the health event of a device has
    been received, every list sent from then on shows that device
    [Unhealthy]: the lists sent before the event are those of the run on
    the events before it, and every later one shows the device unhealthy. *)
Theorem ListAndWatch_unhealthy_forever m (pre post : list watch_event)
  (d k : nat) (sent : list ApiDevice) :
  (ListAndWatch m (pre ++ HealthEvent (Some d) :: post)).1 !! k = Some sent ->
  (length (ListAndWatch m pre).1 <= k)%nat ->
  showsUnhealthy m d sent.
Proof.
  unfold ListAndWatch.
  destruct (apiDevices m) as [[devs m']| |] eqn:Hapi;
    try (intros Hk; inversion Hk; fail).
  destruct (apiDevices_ok _ _ _ d Hapi) as (Hmig & Hdev & Hcached & _).
  assert (sameShape m m') as Hshape
    by (unfold sameShape; now rewrite Hmig, Hdev, Hcached).
  pose proof (watch_loop_after pre m' d post) as Hafter.
  destruct (watch_loop m' (pre ++ HealthEvent (Some d) :: post))
    as [sent1 e1].
  destruct (watch_loop m' pre) as [sent0 e0]. cbn in *.
  intros Hk Hlen. destruct k as [|k]; [lia|]. cbn in Hk.
  apply (showsUnhealthy_shape m m' d sent Hshape).
  apply (Hafter k sent Hk). lia.
Qed.

End HealthFacts.

(** On the small node: [GPU-B] fails, then [GPU-A], then [GPU-B] again;
    the fourth list sent still shows the slices of [GPU-A] unhealthy. *)
Lemma ListAndWatch_unhealthy_forever_on_node :
  showsUnhealthy (Node.started (Some Node.firstFit) "none") 0
    [ {| ID := "v1"; Health := Unhealthy |};
      {| ID := "v2"; Health := Unhealthy |};
      {| ID := "v3"; Health := Unhealthy |};
      {| ID := "v4"; Health := Unhealthy |} ].
Proof.
  apply (ListAndWatch_unhealthy_forever
           (Node.started (Some Node.firstFit) "none")
           [HealthEvent (Some 1%nat)] [HealthEvent (Some 1%nat)] 0 3);
    [reflexivity | vm_compute; lia].
Defined.

(** ** The ledger during [Allocate] *)

Section AllocateFacts.

Context {L : Type} `{!VDeviceController L}.
Variable flags : Flags.
Variable host : Host.
Implicit Types m : NvidiaDevicePlugin L.

(** Too few devices available: the request fails, after its release. *)
Lemma selectDevices_short m (l : L) (req : ContainerAllocateRequest) :
  (length (available (releaseByRequest (DevicesIDs req) l))
   < length (DevicesIDs req))%nat ->
  selectDevices host m (Some l) req
  = (Err "no enough devices", Some (releaseByRequest (DevicesIDs req) l)).
Proof.
  intros Hshort. unfold selectDevices.
  destruct (Nat.ltb_spec
              (length (available (releaseByRequest (DevicesIDs req) l)))
              (length (DevicesIDs req))); [reflexivity|lia].
Qed.

(** A selection that succeeds released the request's key, found enough
    devices available and acquired what it returns, which is as long as
    the request as far as an [int32] can tell. *)
Lemma selectDevices_ok m (l : L) (req : ContainerAllocateRequest)
  (granted : list string) (ctl : option L) :
  selectDevices host m (Some l) req = (Ok granted, ctl) ->
  let l1 := releaseByRequest (DevicesIDs req) l in
  ctl = Some (acquire (DevicesIDs req) granted l1)
  /\ (length (DevicesIDs req) <= length (available l1))%nat
  /\ int32 (Z.of_nat (length granted))
     = int32 (Z.of_nat (length (DevicesIDs req))).
Proof.
  unfold selectDevices. cbn zeta.
  destruct (Nat.ltb_spec
              (length (available (releaseByRequest (DevicesIDs req) l)))
              (length (DevicesIDs req))) as [|Hlen]; [discriminate|].
  destruct (GetPreferredAllocation _ _ _) as [[[|resp0 resps]|]| |];
    try discriminate.
  cbn [AllocationSize].
  destruct (Z.eqb_spec (int32 (Z.of_nat (length (DeviceIDs resp0))))
              (int32 (Z.of_nat (length (DevicesIDs req))))) as [Heq|_];
    intros [= <- <-]; repeat split; try assumption.
  now rewrite length_take_le.
Qed.

Lemma int32_small (n : Z) : 0 <= n < 2 ^ 31 -> int32 n = n.
Proof. intros Hn. unfold int32. rewrite Z.mod_small; lia. Qed.

Lemma selectDevices_length m (l : L) (req : ContainerAllocateRequest)
  (granted : list string) (ctl : option L) :
  selectDevices host m (Some l) req = (Ok granted, ctl) ->
  Z.of_nat (length (DevicesIDs req)) < 2 ^ 31 ->
  Z.of_nat (length granted) < 2 ^ 31 ->
  length granted = length (DevicesIDs req).
Proof.
  intros Hsel Hreq Hgranted.
  destruct (selectDevices_ok _ _ _ _ _ Hsel) as (_ & _ & Heq).
  rewrite !int32_small in Heq by lia. lia.
Qed.

Lemma selectDevices_unledgered m (req : ContainerAllocateRequest) :
  selectDevices host m None req = (Ok (DevicesIDs req), None).
Proof. reflexivity. Qed.

(** A response that succeeds acquired the binding once more and carries
    it in its annotations. *)
Lemma respond_ok m (l : L) (targetpod : Pod) (ctrname : string) (reqidx : nat)
  (req : ContainerAllocateRequest) (granted : list string)
  (response : ContainerAllocateResponse) (ctl : option L) :
  respond flags host m (Some l) targetpod ctrname reqidx req granted
  = (Ok response, ctl) ->
  ctl = Some (acquire (DevicesIDs req) granted l)
  /\ Annotations response
     = <[annUsing flags := strings_Join granted (annSep flags)]>
         (<[annRequest flags :=
              strings_Join (DevicesIDs req) (annSep flags)]> ∅).
Proof.
  unfold respond.
  destruct (VDevicesByIDs _ _) as [vdevices| |]; try discriminate.
  destruct (UniqueDeviceIDs _ _) as [uuids| |]; try discriminate.
  cbn [recordBinding].
  set (r := withAnnotations _ _).
  assert (forall r0 r1, vgpuResponse flags host m targetpod ctrname reqidx
                          vdevices r0 = Ok r1 ->
                        Annotations r1 = Annotations r0) as Hann.
  { clear. intros r0 r1. unfold vgpuResponse.
    assert (forall k v ra rb, setEnv k v ra = Ok rb ->
                              Annotations rb = Annotations ra) as Hset.
    { intros k v ra rb. unfold setEnv.
      destruct (Envs ra); [|discriminate]. now intros [= <-]. }
    assert (forall vds i ra rb, memoryLimits (cachedDevices m) i vds ra = Ok rb
                                -> Annotations rb.1 = Annotations ra) as Hmem.
    { induction vds as [|vd vds IH]; intros i ra rb; cbn.
      - now intros [= <-].
      - destruct (setEnv _ _ ra) as [ra1| |] eqn:E1; try discriminate. cbn.
        destruct (devID _ vd); try discriminate. cbn.
        destruct (memoryLimits _ _ vds ra1) as [rb1| |] eqn:E2;
          try discriminate. cbn. intros [= <-]. cbn.
        rewrite (IH _ _ _ E2). now apply (Hset _ _ _ _ E1). }
    destruct (memoryLimits _ _ _ r0) as [lim| |] eqn:E0; try discriminate. cbn.
    destruct (setEnv _ _ lim.1) as [r2| |] eqn:E2; try discriminate. cbn.
    destruct (setEnv _ _ r2) as [r3| |] eqn:E3; try discriminate. cbn.
    destruct (if monitoring host then _ else _) as [r4| |] eqn:E4;
      try discriminate. cbn.
    destruct (if memoryOversold flags then _ else _) as [r5| |] eqn:E5;
      try discriminate. cbn.
    intros [= <-]. cbn.
    assert (Annotations r5 = Annotations r4) as ->.
    { destruct (memoryOversold flags); [now apply (Hset _ _ _ _ E5)|].
      now injection E5 as <-. }
    assert (Annotations r4 = Annotations r3) as ->.
    { destruct (monitoring host); now rewrite (Hset _ _ _ _ E4). }
    rewrite (Hset _ _ _ _ E3), (Hset _ _ _ _ E2). now apply Hmem in E0. }
  destruct (vgpuResponse _ _ _ _ _ _ _ r) as [r1| |] eqn:Hr; try discriminate.
  intros [= <- <-]. split; [reflexivity|]. now rewrite (Hann _ _ Hr).
Qed.

(** What a container request that is allocated does to the ledger:
    release of its key, then the same [acquire] twice. *)
Lemma allocateContainer_ok m (l : L) (targetpod : Pod) (reqidx addnum : nat)
  (req : ContainerAllocateRequest) (response : ContainerAllocateResponse)
  (addnum' : nat) (ctl : option L) :
  allocateContainer flags host m (Some l) targetpod reqidx addnum req
  = (Ok (response, addnum'), ctl) ->
  exists granted,
    let l1 := releaseByRequest (DevicesIDs req) l in
    ctl = Some (acquire (DevicesIDs req) granted
                  (acquire (DevicesIDs req) granted l1))
    /\ (length (DevicesIDs req) <= length (available l1))%nat
    /\ int32 (Z.of_nat (length granted))
       = int32 (Z.of_nat (length (DevicesIDs req)))
    /\ Annotations response !! annUsing flags
       = Some (strings_Join granted (annSep flags)).
Proof.
  unfold allocateContainer.
  destruct (if monitoring host then _ else _) as [[ctrname a1]| |];
    try discriminate.
  destruct (selectDevices host m (Some l) req) as [[granted| |] ctl1] eqn:Hsel;
    try discriminate.
  destruct (selectDevices_ok _ _ _ _ _ Hsel) as (-> & Hlen & Hint).
  destruct (respond _ _ _ _ _ _ _ _ _) as [[r| |] ctl2] eqn:Hresp;
    try discriminate.
  destruct (respond_ok _ _ _ _ _ _ _ _ _ Hresp) as (-> & Hann).
  intros [= <- <- <-]. exists granted. cbn zeta.
  repeat split; try assumption.
  rewrite Hann. apply lookup_insert_eq.
Qed.

(** Without monitor mode the loop body is selection, then response, and
    [addnum] stays as it is. *)
Lemma allocateContainer_quiet m (ctl : option L) (targetpod : Pod)
  (reqidx addnum : nat) (req : ContainerAllocateRequest) :
  monitoring host = false ->
  allocateContainer flags host m ctl targetpod reqidx addnum req
  = match selectDevices host m ctl req with
    | (Err e, ctl1) => (Err e, ctl1)
    | (Panic, ctl1) => (Panic, ctl1)
    | (Ok reqDeviceIDs, ctl1) =>
        match respond flags host m ctl1 targetpod "" reqidx req reqDeviceIDs
        with
        | (Ok response, ctl2) => (Ok (response, addnum), ctl2)
        | (Err e, ctl2) => (Err e, ctl2)
        | (Panic, ctl2) => (Panic, ctl2)
        end
    end.
Proof. intros Hquiet. unfold allocateContainer. now rewrite Hquiet. Qed.

Lemma allocateContainers_app m (ctl : option L) (targetpod : Pod)
  (reqidx addnum : nat) (pre rest : list ContainerAllocateRequest) :
  monitoring host = false ->
  allocateContainers flags host m ctl targetpod reqidx addnum (pre ++ rest)
  = match allocateContainers flags host m ctl targetpod reqidx addnum pre with
    | (Ok responses, ctl1) =>
        match allocateContainers flags host m ctl1 targetpod
                (reqidx + length pre) addnum rest with
        | (Ok responses', ctl2) => (Ok (responses ++ responses'), ctl2)
        | other => other
        end
    | other => other
    end.
Proof.
  intros Hquiet. revert ctl reqidx.
  induction pre as [|req pre IH]; intros ctl reqidx; cbn.
  - rewrite Nat.add_0_r.
    now destruct (allocateContainers _ _ _ _ _ _ _ rest) as [[?| |] ?].
  - rewrite allocateContainer_quiet by assumption.
    destruct (selectDevices host m ctl req) as [[granted| |] ctl1];
      try reflexivity.
    destruct (respond _ _ _ _ _ _ _ _ _) as [[r| |] ctl2]; try reflexivity.
    rewrite IH, Nat.add_succ_r.
    destruct (allocateContainers _ _ _ _ _ _ _ pre) as [[rs| |] ctl3];
      try reflexivity. cbn.
    now destruct (allocateContainers _ _ _ _ _ _ _ rest) as [[?| |] ?].
Qed.

(** C1, amended: a container request for which fewer virtual devices are
    available than it asks for makes [Allocate] fail with the error
    "no enough devices".  The failing request acquires nothing; what the
    call did before stays in the ledger: the reconciliation with the
    checkpoint, the releases and acquires of the container requests before
    it, and the release of the failing request's own key. *)
Theorem Allocate_no_enough_devices m (l0 l l1 : L)
  (pre post : list ContainerAllocateRequest) (req : ContainerAllocateRequest)
  (responses : list ContainerAllocateResponse) :
  String.eqb (migStrategy m) "mixed" = false ->
  monitoring host = false ->
  vDeviceController m = Some l0 ->
  updateFromCheckpoint l0 = (l, None) ->
  allocateContainers flags host m (Some l) noPod 0 0 pre
  = (Ok responses, Some l1) ->
  (length (available (releaseByRequest (DevicesIDs req) l1))
   < length (DevicesIDs req))%nat ->
  Allocate flags host m (pre ++ req :: post)
  = (Err "no enough devices",
     Some (releaseByRequest (DevicesIDs req) l1)).
Proof.
  intros Hmig Hquiet Hctl Hupdate Hpre Hshort.
  unfold Allocate, targetPod. rewrite Hmig, Hquiet, Hctl, Hupdate.
  rewrite allocateContainers_app, Hpre by assumption.
  cbn [allocateContainers].
  rewrite allocateContainer_quiet by assumption.
  now rewrite selectDevices_short.
Qed.

End AllocateFacts.

(** ** The log is an observer *)

Section LoggedFacts.

Context {L : Type} `{!VDeviceController L}.
Variable flags : Flags.
Variable host : Host.
Implicit Types pl : NvidiaDevicePlugin (L * list LedgerCall).










(** The calls of the loop over the container requests, when it succeeds. *)
Lemma allocateContainers_calls pl (reqs : list ContainerAllocateRequest)
  (l : L) (log : list LedgerCall) (targetpod : Pod) (reqidx addnum : nat)
  (responses : list ContainerAllocateResponse)
  (ctl : option (L * list LedgerCall)) :
  allocateContainers flags host pl (Some (l, log)) targetpod reqidx addnum reqs
  = (Ok responses, ctl) ->
  exists grants,
    length grants = length reqs
    /\ (exists l', ctl = Some (l', log ++ concat (zip_with callsOf reqs grants)))
    /\ Forall2 (fun response granted =>
                  Annotations response !! annUsing flags
                  = Some (strings_Join granted (annSep flags)))
               responses grants.
Proof.
  revert l log reqidx addnum responses ctl.
  induction reqs as [|req reqs IH];
    intros l log reqidx addnum responses ctl; cbn [allocateContainers].
  - intros [= <- <-]. exists []. cbn. rewrite app_nil_r. eauto.
  - destruct (allocateContainer _ _ _ _ _ _ _ _) as [[[r a1]| |] ctl1] eqn:Hone;
      try discriminate.
    destruct (allocateContainer_ok _ _ _ _ _ _ _ _ _ _ _ Hone)
      as (granted & -> & _ & _ & Hann).
    cbn [acquire releaseByRequest Logged fst snd].
    destruct (allocateContainers _ _ _ _ _ _ _ _) as [[rs| |] ctl2] eqn:Hrest;
      try discriminate.
    apply IH in Hrest as (grants & Hlen & (l' & ->) & Hanns).
    intros [= <- <-]. exists (granted :: grants). cbn.
    split; [now rewrite Hlen|]. split; [|now constructor].
    exists l'. unfold callsOf at 2. now rewrite <- !app_assoc.
Qed.

(** The calls of a virtualized [Allocate] that succeeds. *)
Lemma Allocate_calls (m : NvidiaDevicePlugin L) (l0 : L)
  (reqs : list ContainerAllocateRequest)
  (responses : list ContainerAllocateResponse)
  (ctl : option (L * list LedgerCall)) :
  String.eqb (migStrategy m) "mixed" = false ->
  vDeviceController m = Some l0 ->
  Allocate flags host (logging m) reqs = (Ok responses, ctl) ->
  exists grants,
    length grants = length reqs
    /\ calls ctl
       = CallUpdateFromCheckpoint
         :: concat (zip_with
                      (fun req granted =>
                         [CallRelease (DevicesIDs req);
                          CallAcquire (DevicesIDs req) granted;
                          CallAcquire (DevicesIDs req) granted])
                      reqs grants)
    /\ Forall2 (fun response granted =>
                  Annotations response !! annUsing flags
                  = Some (strings_Join granted (annSep flags)))
               responses grants.
Proof.
  intros Hmig Hctl. unfold Allocate.
  cbn [migStrategy logging vDeviceController]. rewrite Hmig, Hctl.
  destruct (targetPod host reqs) as [targetpod| |]; try discriminate.
  cbn [fmap option_fmap option_map updateFromCheckpoint Logged fst snd].
  destruct (updateFromCheckpoint l0) as [l [err|]]; [discriminate|].
  cbn [fst snd app]. intros Hrun.
  apply allocateContainers_calls in Hrun as (grants & Hlen & (l' & ->) & Hanns).
  exists grants. repeat split; assumption.
Qed.

(** C10: in virtualized mode with a Binding Ledger, an [Allocate] that
    succeeds has made these calls on the ledger and no others: the
    reconciliation with the checkpoint, then per container request the
    release of its key followed by two calls of [acquire] with the same
    arguments, the request's IDs and the granted IDs, which are the ones
    the response's annotation records. *)
Theorem Allocate_acquires_twice (m : NvidiaDevicePlugin L) (l0 : L)
  (reqs : list ContainerAllocateRequest)
  (responses : list ContainerAllocateResponse)
  (ctl : option (L * list LedgerCall)) :
  String.eqb (migStrategy m) "mixed" = false ->
  vDeviceController m = Some l0 ->
  Allocate flags host (logging m) reqs = (Ok responses, ctl) ->
  exists grants,
    length grants = length reqs
    /\ calls ctl
       = CallUpdateFromCheckpoint
         :: concat (zip_with
                      (fun req granted =>
                         [CallRelease (DevicesIDs req);
                          CallAcquire (DevicesIDs req) granted;
                          CallAcquire (DevicesIDs req) granted])
                      reqs grants)
    /\ Forall2 (fun response granted =>
                  Annotations response !! annUsing flags
                  = Some (strings_Join granted (annSep flags)))
               responses grants.
Proof. apply Allocate_calls. Qed.

End LoggedFacts.

(** ** A repeated request *)

Section RepeatFacts.

Context {L : Type} `{!VDeviceController L} `{!LedgerLaws L}.
Variable flags : Flags.
Variable host : Host.
Implicit Types m : NvidiaDevicePlugin L.





End RepeatFacts.

(** The ledger of bindings keeps the laws. *)
#[global] Instance Bindings_laws : LedgerLaws Bindings.t.
Proof.
  split.
  - intros key ids [known es err rel].
    cbn. unfold Bindings.release, Bindings.bind, Bindings.withEntries,
      Bindings.without. cbn. f_equal.
    rewrite bool_decide_eq_true_2 by reflexivity. cbn.
    induction es as [|e es IH]; [reflexivity|]. cbn.
    destruct (bool_decide (e.1 = key)) eqn:E; cbn; [exact IH|].
    rewrite E. cbn. now rewrite IH.
  - intros key [known es err rel].
    cbn. unfold Bindings.release, Bindings.withEntries, Bindings.without.
    cbn. f_equal.
    induction es as [|e es IH]; [reflexivity|]. cbn.
    destruct (bool_decide (e.1 = key)) eqn:E; cbn; [exact IH|].
    rewrite E. cbn. now rewrite IH.
Qed.

(** ** The properties on the small node *)

(** The claim C1 as stated fails: of two container requests the second
    finds one device where it asks for two, and the call fails with
    "no enough devices"; its ledger, empty before, keeps the binding of the
    first container request, acquired twice, and has seen the release for
    the second. *)
Lemma Allocate_failure_keeps_earlier_binding :
  let reqs := [Node.request ["a"; "b"; "c"]; Node.request ["d"; "e"]] in
  let run := Allocate Node.envvar Node.host (logging Node.ledgered) reqs in
  vDeviceController Node.ledgered = Some (Node.ledger [])
  /\ run.1 = Err "no enough devices"
  /\ fst <$> run.2
     = Some (Node.ledger [(["a"; "b"; "c"], ["v1"; "v2"; "v3"])])
  /\ calls run.2
     = [CallUpdateFromCheckpoint;
        CallRelease ["a"; "b"; "c"];
        CallAcquire ["a"; "b"; "c"] ["v1"; "v2"; "v3"];
        CallAcquire ["a"; "b"; "c"] ["v1"; "v2"; "v3"];
        CallRelease ["d"; "e"]].
Proof. vm_compute. repeat split. Qed.

(** The same call, by the theorem: the first request is allocated, the
    second fails. *)
Lemma Allocate_no_enough_devices_on_node :
  Allocate Node.envvar Node.host Node.ledgered
    [Node.request ["a"; "b"; "c"]; Node.request ["d"; "e"]]
  = (Err "no enough devices",
     Some (Node.ledger [(["a"; "b"; "c"], ["v1"; "v2"; "v3"])])).
Proof.
  change (Allocate Node.envvar Node.host Node.ledgered
            ([Node.request ["a"; "b"; "c"]] ++ Node.request ["d"; "e"] :: [])
          = (Err "no enough devices",
             Some (releaseByRequest (DevicesIDs (Node.request ["d"; "e"]))
                     (Node.ledger [(["a"; "b"; "c"], ["v1"; "v2"; "v3"])])))).
  eapply (Allocate_no_enough_devices Node.envvar Node.host Node.ledgered
            (Node.ledger []) (Node.ledger [])
            (Node.ledger [(["a"; "b"; "c"], ["v1"; "v2"; "v3"])])
            [Node.request ["a"; "b"; "c"]] [] (Node.request ["d"; "e"]));
    try reflexivity.
  vm_compute. lia.
Defined.

(** Two container requests on the small node. *)
Lemma Allocate_acquires_twice_on_node :
  let reqs := [Node.request ["a"; "b"]; Node.request ["c"]] in
  let run := Allocate Node.envvar Node.host (logging Node.ledgered) reqs in
  exists grants,
    length grants = length reqs
    /\ calls run.2
       = CallUpdateFromCheckpoint
         :: concat (zip_with
                      (fun req granted =>
                         [CallRelease (DevicesIDs req);
                          CallAcquire (DevicesIDs req) granted;
                          CallAcquire (DevicesIDs req) granted])
                      reqs grants)
    /\ Forall2 (fun response granted =>
                  Annotations response !! annUsing Node.envvar
                  = Some (strings_Join granted (annSep Node.envvar)))
               (Node.responsesOf run) grants.
Proof.
  cbv zeta.
  apply (Allocate_acquires_twice Node.envvar Node.host Node.ledgered
           (Node.ledger []));
    [reflexivity | reflexivity | vm_compute; reflexivity].
Defined.


(** ** How many devices are granted *)

Section CountFacts.

Context {L : Type} `{!VDeviceController L}.
Variable host : Host.
Implicit Types m : NvidiaDevicePlugin L.

Lemma devicesFrom_UUID (devices : list GDevice) (uuids : list string)
  (gs : list GDevice) :
  devicesFrom devices uuids = Ok gs -> map UUID gs = uuids.
Proof.
  revert gs. induction uuids as [|uuid uuids IH]; intros gs; cbn.
  - now intros [= <-].
  - destruct (List.find _ devices) as [g|] eqn:Hfind; [|discriminate].
    destruct (devicesFrom devices uuids) as [rest| |]; try discriminate.
    cbn. intros [= <-]. cbn. rewrite (IH rest eq_refl).
    apply find_some in Hfind as [_ Heq]. apply String.eqb_eq in Heq.
    now rewrite Heq.
Qed.


Lemma NewDevicesFrom_UUID (uuids : list string) (gs : list GDevice) :
  NewDevicesFrom host uuids = Ok gs -> map UUID gs = uuids.
Proof.
  unfold NewDevicesFrom. destruct (nvmlDevices host) as [devices| |];
    try discriminate.
  apply devicesFrom_UUID.
Qed.






Lemma distinctDevices_ok m (ids uuids : list string) :
  distinctDevices m ids = Ok uuids ->
  exists vds, VDevicesByIDs (vDevices m) ids = Ok vds
              /\ UniqueDeviceIDs (cachedDevices m) vds = Ok uuids.
Proof.
  unfold distinctDevices.
  destruct (VDevicesByIDs _ _) as [vds| |]; try discriminate. cbn. eauto.
Qed.



(** What [firstOn] finds is the first virtual device of the list on that
    physical device. *)
Lemma firstOn_first (cached : list Device) (avd : list VDevice)
  (uuid id : string) :
  firstOn cached avd uuid = Ok (Some id) ->
  exists j vd,
    avd !! j = Some vd
    /\ ID (vd_Device vd) = id
    /\ devID cached vd = Ok uuid
    /\ forall j' vd', (j' < j)%nat -> avd !! j' = Some vd' ->
                      devID cached vd' <> Ok uuid.
Proof.
  induction avd as [|vd avd IH]; cbn; [discriminate|].
  destruct (devID cached vd) as [did| |] eqn:Hdev; try discriminate. cbn.
  destruct (String.eqb_spec did uuid) as [->|Hne].
  - intros [= <-]. exists 0%nat, vd. repeat split; auto. intros j' vd' Hlt. lia.
  - intros Hrest. destruct (IH Hrest) as (j & vd0 & Hj & Hid & Hd & Hfirst).
    exists (S j), vd0. repeat split; auto.
    intros [|j'] vd' Hlt; cbn.
    + intros [= <-]. congruence.
    + apply Hfirst. lia.
Qed.





End CountFacts.



(** ** The device list as volume mounts *)

Lemma path_elems_cons (s : string) : exists e es, path_elems s = e :: es.
Proof.
  destruct s as [|c s]; cbn; [eauto|].
  destruct (Ascii.eqb c "/"); [eauto|]. destruct (path_elems s); eauto.
Qed.

Lemma path_elems_app (a b : string) :
  path_elems (a +:+ String "/" b) = path_elems a ++ path_elems b.
Proof.
  induction a as [|c a IH]; [reflexivity|].
  change (String c a +:+ String "/" b) with (String c (a +:+ String "/" b)).
  cbn [path_elems]. rewrite IH.
  destruct (Ascii.eqb c "/"); [reflexivity|].
  now destruct (path_elems_cons a) as (e & es & ->).
Qed.

Lemma path_elems_plain (id : string) :
  hasSlash id = false -> path_elems id = [id].
Proof.
  induction id as [|c id IH]; [reflexivity|]. cbn.
  destruct (Ascii.eqb c "/"); [discriminate|]. cbn.
  intros Hid. now rewrite (IH Hid).
Qed.


Section MountFacts.

Context {L : Type} `{!VDeviceController L}.
Variable flags : Flags.
Variable host : Host.
Implicit Types m : NvidiaDevicePlugin L.









Lemma allocateContainer_responds m (ctl ctl' : option L) (targetpod : Pod)
  (reqidx addnum addnum' : nat) (req : ContainerAllocateRequest)
  (response : ContainerAllocateResponse) :
  allocateContainer flags host m ctl targetpod reqidx addnum req
  = (Ok (response, addnum'), ctl') ->
  exists ctl1 ctrname granted,
    respond flags host m ctl1 targetpod ctrname reqidx req granted
    = (Ok response, ctl')
    /\ (ctl = None -> granted = DevicesIDs req).
Proof.
  unfold allocateContainer.
  destruct (if monitoring host then _ else _) as [[ctrname a1]| |];
    try discriminate.
  destruct (selectDevices host m ctl req) as [[granted| |] ctl1] eqn:Hsel;
    try discriminate.
  destruct (respond _ _ _ _ _ _ _ _ _) as [[r| |] ctl2] eqn:Hresp;
    try discriminate.
  intros [= <- _ <-]. exists ctl1, ctrname, granted. split; [exact Hresp|].
  intros ->. now injection Hsel as <- _.
Qed.

Lemma allocateContainers_unledgered m (targetpod : Pod)
  (reqs : list ContainerAllocateRequest) (reqidx addnum : nat) :
  (allocateContainers flags host m None targetpod reqidx addnum reqs).2 = None.
Proof.
  revert reqidx addnum. induction reqs as [|req reqs IH];
    intros reqidx addnum; [reflexivity|].
  cbn [allocateContainers]. unfold allocateContainer.
  destruct (if monitoring host then _ else _) as [[ctrname a1]| |];
    try reflexivity.
  cbn [selectDevices]. unfold respond.
  destruct (VDevicesByIDs _ _) as [vdevices| |]; try reflexivity.
  destruct (UniqueDeviceIDs _ _) as [uuids| |]; try reflexivity.
  cbn [recordBinding].
  destruct (vgpuResponse _ _ _ _ _ _ _ _) as [r| |]; try reflexivity.
  specialize (IH (S reqidx) a1).
  now destruct (allocateContainers _ _ _ _ _ _ _ reqs) as [[rs| |] ctl2].
Qed.

(** What a container request that is answered went through: the
    selection, then the response on the ledger that the selection left. *)
Lemma allocateContainer_inv m (ctl ctl' : option L) (targetpod : Pod)
  (reqidx addnum addnum' : nat) (req : ContainerAllocateRequest)
  (response : ContainerAllocateResponse) :
  allocateContainer flags host m ctl targetpod reqidx addnum req
  = (Ok (response, addnum'), ctl') ->
  exists ctl1 ctrname granted,
    selectDevices host m ctl req = (Ok granted, ctl1)
    /\ respond flags host m ctl1 targetpod ctrname reqidx req granted
       = (Ok response, ctl').
Proof.
  unfold allocateContainer.
  destruct (if monitoring host then _ else _) as [[ctrname a1]| |];
    try discriminate.
  destruct (selectDevices host m ctl req) as [[granted| |] ctl1] eqn:Hsel;
    try discriminate.
  destruct (respond _ _ _ _ _ _ _ _ _) as [[r| |] ctl2] eqn:Hresp;
    try discriminate.
  intros [= <- _ <-]. now exists ctl1, ctrname, granted.
Qed.

(** The response acquires the grant once more, on a ledger if there is
    one. *)
Lemma respond_ledger_after m (ctl ctl' : option L) (targetpod : Pod)
  (ctrname : string) (reqidx : nat) (req : ContainerAllocateRequest)
  (granted : list string) (response : ContainerAllocateResponse) :
  respond flags host m ctl targetpod ctrname reqidx req granted
  = (Ok response, ctl') ->
  ctl' = acquire (DevicesIDs req) granted <$> ctl.
Proof.
  unfold respond.
  destruct (VDevicesByIDs _ _) as [vdevices| |]; try discriminate.
  destruct (UniqueDeviceIDs _ _) as [uuids| |]; try discriminate.
  unfold recordBinding. destruct ctl as [l|];
    destruct (vgpuResponse _ _ _ _ _ _ _ _); try discriminate;
    now intros [= _ <-].
Qed.

(** Every response of the loop came from [respond], for the devices that
    the loop granted to its request. *)
Lemma allocateContainers_grants m (targetpod : Pod)
  (P : ContainerAllocateRequest -> list string -> ContainerAllocateResponse
       -> Prop) :
  (forall ctl1 ctl2 ctrname k req granted response,
      respond flags host m ctl1 targetpod ctrname k req granted
      = (Ok response, ctl2) ->
      P req granted response) ->
  forall (reqs : list ContainerAllocateRequest) (ctl ctl' : option L)
         (reqidx addnum : nat) (responses : list ContainerAllocateResponse),
    allocateContainers flags host m ctl targetpod reqidx addnum reqs
    = (Ok responses, ctl') ->
    Forall3 (fun req granted response =>
               (ctl = None -> granted = DevicesIDs req)
               /\ P req granted response)
            reqs (grantsFrom host m ctl reqs) responses.
Proof.
  intros HP. induction reqs as [|req reqs IH];
    intros ctl ctl' reqidx addnum responses;
    cbn [allocateContainers grantsFrom].
  - intros [= <- _]. constructor.
  - destruct (allocateContainer _ _ _ _ _ _ _ _) as [[[r a1]| |] ctl1] eqn:Hone;
      try discriminate.
    destruct (allocateContainers _ _ _ _ _ _ _ reqs) as [[rs| |] ctl2]
      eqn:Hrest; try discriminate.
    intros [= <- _].
    destruct (allocateContainer_inv _ _ _ _ _ _ _ _ _ Hone)
      as (ctl0 & ctrname & granted & Hsel & Hresp).
    rewrite Hsel.
    pose proof (respond_ledger_after _ _ _ _ _ _ _ _ _ Hresp) as Hafter.
    subst ctl1. constructor.
    + split; [|exact (HP _ _ _ _ _ _ _ Hresp)].
      intros ->. cbn in Hsel. now injection Hsel as <- _.
    + eapply Forall3_impl; [exact (IH _ _ _ _ _ Hrest)|].
      intros req' g r' [Hnone Hp]. split; [|exact Hp].
      intros ->. cbn in Hsel. injection Hsel as _ <-. now apply Hnone.
Qed.

(** A virtualized [Allocate] that succeeds ran the loop over the container
    requests, from the reconciled ledger, to its end. *)
Lemma Allocate_virtualized_loop m (reqs : list ContainerAllocateRequest)
  (responses : list ContainerAllocateResponse) (ctl : option L) :
  String.eqb (migStrategy m) "mixed" = false ->
  Allocate flags host m reqs = (Ok responses, ctl) ->
  grantedBy host m reqs = grantsFrom host m (reconciled m) reqs
  /\ exists targetpod,
       allocateContainers flags host m (reconciled m) targetpod 0 0 reqs
       = (Ok responses, ctl).
Proof.
  intros Hmig. unfold Allocate, grantedBy, reconciled. rewrite Hmig.
  split; [reflexivity|]. revert H.
  destruct (targetPod host reqs) as [targetpod| |]; try discriminate.
  destruct (vDeviceController m) as [l|]; cbn [fmap option_fmap option_map].
  - destruct (updateFromCheckpoint l) as [l' [err|]]; [discriminate|].
    intros Hrun. now exists targetpod.
  - intros Hrun. now exists targetpod.
Qed.




End MountFacts.



(** ** The committed total of the ledger of bindings *)

Section TotalFacts.

Import Bindings.











End TotalFacts.

Section BoundedFacts.

Context {L : Type} `{!VDeviceController L}.
Variable flags : Flags.
Variable host : Host.
Implicit Types m : NvidiaDevicePlugin L.







End BoundedFacts.

Section BindingsFacts.

Import Bindings.

Variable flags : Flags.
Variable host : Host.
Implicit Types m : NvidiaDevicePlugin t.





End BindingsFacts.



(** * Further properties of the code *)

(** ** The crash-restart loop, beyond the seventh crash *)

Module SupervisorMore.
Import Supervisor SupervisorFacts.

Lemma fatal_needs_crashes (rs : list serve_return) (s : crash_state) :
  0 <= restartCount s <= 6 ->
  serve_loop s rs = Fatal ->
  7 - restartCount s <= Z.of_nat (crashCount rs).
Proof.
  revert s. induction rs as [|[|c] rs IH]; intros s Hs; cbn [serve_loop].
  - discriminate.
  - discriminate.
  - unfold crashCount. cbn [List.filter length]. fold (crashCount rs).
    unfold on_crash. destruct (Z.ltb_spec 5 (restartCount s)); [lia|].
    intros Hrest. apply IH in Hrest; cbn in *; destruct (moreThanAnHour _); lia.
Qed.

(** X1: the loop of [Serve] ends the process only at a crash that at least
    six crashes precede: when a run from the start of the goroutine is
    fatal, [Serve] has crashed at least seven times. *)
Theorem fatal_after_seven_crashes (now : Z) (rs : list serve_return) :
  serve_loop (start now) rs = Fatal -> (7 <= crashCount rs)%nat.
Proof.
  intros Hfatal. apply fatal_needs_crashes in Hfatal; cbn in *; lia.
Qed.

Lemma spaced_never_fatal (rs : list serve_return) (s : crash_state) :
  restartCount s <= 1 ->
  spacedFrom (lastCrashTime s) rs ->
  serve_loop s rs <> Fatal.
Proof.
  revert s. induction rs as [|[|c] rs IH]; intros s Hs; cbn;
    try discriminate.
  intros [Hgap Hrest]. rewrite on_crash_late by (unfold gap; lia).
  apply IH; cbn; [lia|exact Hrest].
Qed.

Lemma spaced_counter_one (rs : list serve_return) (s s' : crash_state) :
  restartCount s = 1 ->
  spacedFrom (lastCrashTime s) rs ->
  serve_loop s rs = Serving s' ->
  restartCount s' = 1.
Proof.
  revert s. induction rs as [|[|c] rs IH]; intros s Hs; cbn.
  - intros _ [= <-]. exact Hs.
  - discriminate.
  - intros [Hgap Hrest]. rewrite on_crash_late by (unfold gap; lia).
    apply IH; [reflexivity|exact Hrest].
Qed.

(** X2: crashes that are each more than an hour apart never end the
    process, however many there are; the first crash may come at any
    time.  The counter is set back to 1 at each of them: it is 1 whenever
    the loop serves again. *)
Theorem spaced_crashes_never_fatal (now : Z) (c : crash)
  (rs : list serve_return) :
  spacedFrom (nowAt c) rs ->
  serve_loop (start now) (ServeError c :: rs) <> Fatal
  /\ forall s, serve_loop (start now) (ServeError c :: rs) = Serving s ->
               restartCount s = 1.
Proof.
  intros Hspaced. cbn [serve_loop]. rewrite on_crash_first. split.
  - apply spaced_never_fatal; cbn; [lia|exact Hspaced].
  - intros s. now apply spaced_counter_one.
Qed.

Lemma count_at_most_crashes (rs : list serve_return) (s s' : crash_state) :
  0 <= restartCount s ->
  serve_loop s rs = Serving s' ->
  restartCount s' <= restartCount s + Z.of_nat (crashCount rs).
Proof.
  revert s. induction rs as [|[|c] rs IH]; intros s Hs; cbn [serve_loop].
  - intros [= <-]. cbn. lia.
  - discriminate.
  - unfold crashCount. cbn [List.filter length]. fold (crashCount rs).
    unfold on_crash. destruct (Z.ltb_spec 5 (restartCount s)); [discriminate|].
    intros Hrest. apply IH in Hrest; cbn in *; destruct (moreThanAnHour _); lia.
Qed.

Lemma count_at_least_one (rs : list serve_return) (s s' : crash_state) :
  0 <= restartCount s ->
  serve_loop s rs = Serving s' ->
  1 <= restartCount s \/ (0 < crashCount rs)%nat ->
  1 <= restartCount s'.
Proof.
  revert s. induction rs as [|[|c] rs IH]; intros s Hs; cbn [serve_loop].
  - intros [= <-]. cbn. lia.
  - discriminate.
  - unfold on_crash. destruct (Z.ltb_spec 5 (restartCount s)); [discriminate|].
    intros Hrest _.
    apply IH in Hrest;
      [exact Hrest
      |cbn; destruct (moreThanAnHour _); lia
      |left; cbn; destruct (moreThanAnHour _); lia].
Qed.

(** X3: while the loop serves, its counter is at most 6 and at most the
    number of crashes so far, and at least 1 once [Serve] has crashed; the
    Go [int] never wraps. *)
Theorem restartCount_range (now : Z) (rs : list serve_return)
  (s : crash_state) :
  serve_loop (start now) rs = Serving s ->
  0 <= restartCount s <= 6
  /\ restartCount s <= Z.of_nat (crashCount rs)
  /\ ((0 < crashCount rs)%nat -> 1 <= restartCount s).
Proof.
  intros Hrun. split; [|split].
  - apply (restartCount_bounded rs (start now)); [cbn; lia|exact Hrun].
  - apply count_at_most_crashes in Hrun; cbn in *; lia.
  - intros Hcrashed.
    apply (count_at_least_one rs (start now)); [cbn; lia|exact Hrun|now right].
Qed.

(** Seven crashes ten seconds apart are fatal, and are seven crashes. *)
Lemma fatal_after_seven_crashes_example :
  (7 <= crashCount
          (ServeError <$> [at_second 10; at_second 20; at_second 30;
                           at_second 40; at_second 50; at_second 60;
                           at_second 70]))%nat.
Proof.
  apply (fatal_after_seven_crashes 0). reflexivity.
Defined.

(** Nine crashes, two hours apart. *)
Lemma spaced_crashes_never_fatal_example :
  serve_loop (start 0)
    (ServeError (at_second 5)
     :: (ServeError <$> [at_second 7205; at_second 14405; at_second 21605;
                         at_second 28805; at_second 36005; at_second 43205;
                         at_second 50405; at_second 57605]))
  <> Fatal
  /\ forall s,
       serve_loop (start 0)
         (ServeError (at_second 5)
          :: (ServeError <$> [at_second 7205; at_second 14405;
                              at_second 21605; at_second 28805;
                              at_second 36005; at_second 43205;
                              at_second 50405; at_second 57605]))
       = Serving s ->
       restartCount s = 1.
Proof.
  apply (spaced_crashes_never_fatal 0 (at_second 5)).
  vm_compute. repeat split.
Defined.

(** Three quick crashes, then one after two hours: the counter is 1. *)
Lemma restartCount_range_example :
  let rs := ServeError <$> [at_second 10; at_second 20; at_second 30;
                            at_second 7230] in
  let s := {| lastCrashTime := 7230 * second; restartCount := 1 |} in
  0 <= restartCount s <= 6
  /\ restartCount s <= Z.of_nat (crashCount rs)
  /\ ((0 < crashCount rs)%nat -> 1 <= restartCount s).
Proof.
  cbv zeta.
  apply (restartCount_range 0
           (ServeError <$> [at_second 10; at_second 20; at_second 30;
                            at_second 7230])
           {| lastCrashTime := 7230 * second; restartCount := 1 |}).
  reflexivity.
Defined.

End SupervisorMore.

(** ** The lists of [ListAndWatch] *)

Section WatchMore.

Context {L : Type}.
Implicit Types m : NvidiaDevicePlugin L.

Lemma refreshHealth_mirrored (cached : list Device) (vds : list VDevice) :
  Forall (fun vd => (dev vd < length cached)%nat) vds ->
  exists vds',
    refreshHealth cached vds = Ok vds'
    /\ map vd_Device vds' = map (mirrored cached) vds
    /\ map dev vds' = map dev vds.
Proof.
  induction 1 as [|vd vds Hvd _ (vds' & Hrun & Hlist & Hdev)]; cbn.
  - exists []. repeat split.
  - destruct (lookup_lt_is_Some_2 _ _ Hvd) as [pd Hpd].
    rewrite Hpd, Hrun. cbn. eexists. split; [reflexivity|]. cbn.
    rewrite Hlist, Hdev. unfold mirrored at 2. rewrite Hpd. repeat split.
Qed.

Lemma mirrored_ext (cached : list Device) (vds vds' : list VDevice) :
  map dev vds' = map dev vds ->
  map (fun vd => ID (vd_Device vd)) vds'
  = map (fun vd => ID (vd_Device vd)) vds ->
  Forall (fun vd => (dev vd < length cached)%nat) vds ->
  map (mirrored cached) vds' = map (mirrored cached) vds.
Proof.
  revert vds'. induction vds as [|vd vds IH]; intros [|vd' vds'];
    cbn; try discriminate; [reflexivity|].
  intros [= Hdev Hdevs] [= Hid Hids] Hall.
  apply Forall_cons in Hall as [Hvd Hall].
  rewrite (IH vds' Hdevs Hids Hall). f_equal.
  unfold mirrored. rewrite Hdev, Hid.
  now destruct (lookup_lt_is_Some_2 _ _ Hvd) as [pd ->].
Qed.

Lemma sameView_refl m : sameView m m.
Proof. repeat split. Qed.

Lemma sameView_mark m m' (d : nat) :
  sameView m m' -> sameView (markUnhealthy m d) (markUnhealthy m' d).
Proof.
  intros (Hmig & Hcached & Hdev & Hid). unfold sameView, markUnhealthy. cbn.
  now rewrite Hmig, Hcached, Hdev, Hid.
Qed.

Lemma wellPointed_mark m (d : nat) :
  wellPointed m -> wellPointed (markUnhealthy m d).
Proof.
  unfold wellPointed, markUnhealthy. cbn. intros Hwell Hmig.
  rewrite length_alter. now apply Hwell.
Qed.

Lemma wellPointed_view m m' :
  sameView m m' -> wellPointed m -> wellPointed m'.
Proof.
  intros (Hmig & Hcached & Hdev & _). unfold wellPointed.
  rewrite Hmig, Hcached. intros Hwell Hnone. specialize (Hwell Hnone).
  rewrite Forall_forall in Hwell. rewrite Forall_forall. intros vd' Hin.
  apply list_elem_of_lookup in Hin as [i Hi].
  assert (map dev (vDevices m) !! i = Some (dev vd')) as Hpos.
  { rewrite <- Hdev. change (map dev (vDevices m')) with (dev <$> vDevices m').
    now rewrite list_lookup_fmap, Hi. }
  change (map dev (vDevices m)) with (dev <$> vDevices m) in Hpos.
  rewrite list_lookup_fmap in Hpos.
  destruct (vDevices m !! i) as [vd|] eqn:Hvd; [|discriminate].
  injection Hpos as <-. apply Hwell. apply list_elem_of_lookup. eauto.
Qed.

Lemma currentList_view m m' :
  sameView m m' -> wellPointed m -> currentList m' = currentList m.
Proof.
  intros (Hmig & Hcached & Hdev & Hid) Hwell. unfold currentList.
  rewrite Hmig, Hcached.
  destruct (String.eqb (migStrategy m) "none") eqn:Hnone; [|reflexivity].
  apply mirrored_ext; auto.
Qed.

(** [apiDevices] returns the current list, and leaves a plugin with the
    same view. *)
Lemma apiDevices_current m :
  wellPointed m ->
  exists m', apiDevices m = Ok (currentList m, m') /\ sameView m m'.
Proof.
  intros Hwell. unfold apiDevices, currentList.
  destruct (String.eqb (migStrategy m) "none") eqn:Hnone.
  - destruct (refreshHealth_mirrored (cachedDevices m) (vDevices m)
                (Hwell Hnone)) as (vds' & -> & Hlist & Hdev).
    cbn. rewrite Hlist. eexists. split; [reflexivity|].
    unfold sameView. cbn. repeat split; [exact Hdev|].
    change (map (fun vd => ID (vd_Device vd)) vds')
      with (map ID (map vd_Device vds')) at 1 || idtac.
    rewrite <- (map_map vd_Device ID vds'), Hlist, map_map. reflexivity.
  - eexists. split; [reflexivity|apply sameView_refl].
Qed.

Lemma listsAfter_view (ds : list nat) m m' :
  sameView m m' -> wellPointed m -> listsAfter m' ds = listsAfter m ds.
Proof.
  revert m m'. induction ds as [|d ds IH]; intros m m' Hview Hwell;
    [reflexivity|]. cbn.
  rewrite (currentList_view (markUnhealthy m d) (markUnhealthy m' d))
    by (auto using sameView_mark, wellPointed_mark).
  now rewrite (IH (markUnhealthy m d) (markUnhealthy m' d))
    by (auto using sameView_mark, wellPointed_mark).
Qed.

Lemma watch_loop_lists (evs : list watch_event) m :
  wellPointed m ->
  watch_loop m evs = (listsAfter m (heard evs), ending evs).
Proof.
  revert m. induction evs as [|[|[d|]] evs IH]; intros m Hwell; cbn;
    try reflexivity.
  destruct (apiDevices_current (markUnhealthy m d)
              (wellPointed_mark m d Hwell)) as (m' & -> & Hview).
  rewrite (IH m') by (eapply wellPointed_view; eauto using wellPointed_mark).
  now rewrite (listsAfter_view _ _ _ Hview (wellPointed_mark m d Hwell)).
Qed.

Lemma ListAndWatch_sent m (evs : list watch_event) :
  wellPointed m ->
  ListAndWatch m evs
  = (currentList m :: listsAfter m (heard evs), ending evs).
Proof.
  intros Hwell. unfold ListAndWatch.
  destruct (apiDevices_current m Hwell) as (m' & -> & Hview).
  rewrite (watch_loop_lists evs m') by (eapply wellPointed_view; eauto).
  now rewrite (listsAfter_view _ _ _ Hview Hwell).
Qed.

(** X4: [ListAndWatch] sends the current device list at once and, after
    each health event, the list with that device marked unhealthy in the
    store; it sends nothing else, and nothing after the stop signal.  With
    strategy "none" an entry has the ID of a virtual device and the health
    of its physical device, whatever health the virtual device stored. *)
Theorem ListAndWatch_lists m (evs : list watch_event) :
  wellPointed m ->
  ListAndWatch m evs
  = (currentList m :: listsAfter m (heard evs), ending evs).
Proof. apply ListAndWatch_sent. Qed.

End WatchMore.

Section WatchFrame.

Context {L : Type}.
Implicit Types m : NvidiaDevicePlugin L.

Lemma mirrored_mark_ne (cached : list Device) (d : nat) (vd : VDevice) :
  dev vd <> d ->
  mirrored (alter (d_setHealth Unhealthy) d cached) vd = mirrored cached vd.
Proof.
  intros Hne. unfold mirrored.
  now rewrite list_lookup_alter_ne by congruence.
Qed.

Lemma mirrored_mark_eq (cached : list Device) (vd : VDevice) :
  (dev vd < length cached)%nat ->
  Health (mirrored (alter (d_setHealth Unhealthy) (dev vd) cached) vd)
  = Unhealthy.
Proof.
  intros Hvd. unfold mirrored. rewrite list_lookup_alter_eq.
  now destruct (lookup_lt_is_Some_2 _ _ Hvd) as [pd ->].
Qed.

Lemma currentList_mark_ids m (d : nat) :
  map ID (currentList (markUnhealthy m d)) = map ID (currentList m).
Proof.
  unfold currentList, markUnhealthy. cbn.
  destruct (String.eqb (migStrategy m) "none").
  - now rewrite !map_map.
  - rewrite !map_map.
    apply (list_eq_same_length _ _ (length (cachedDevices m)));
      rewrite ?length_map, ?length_alter; try reflexivity.
    intros i x y _.
    change (map ?f ?l) with (f <$> l).
    rewrite !list_lookup_fmap.
    destruct (decide (i = d)) as [->|Hne].
    + rewrite list_lookup_alter_eq.
      destruct (cachedDevices m !! d); cbn; congruence.
    + rewrite list_lookup_alter_ne by congruence. congruence.
Qed.

Lemma currentList_mark_other m (d i : nat) :
  ~ entryOf m d i ->
  currentList (markUnhealthy m d) !! i = currentList m !! i.
Proof.
  unfold entryOf, currentList, markUnhealthy. cbn.
  destruct (String.eqb (migStrategy m) "none").
  - change (map ?f ?l) with (f <$> l). rewrite !list_lookup_fmap.
    destruct (vDevices m !! i) as [vd|]; cbn; [|reflexivity].
    intros Hne. f_equal. apply mirrored_mark_ne. congruence.
  - intros Hne. change (map ?f ?l) with (f <$> l).
    rewrite !list_lookup_fmap. now rewrite list_lookup_alter_ne by congruence.
Qed.

Lemma currentList_mark_own m (d i : nat) (a : ApiDevice) :
  wellPointed m ->
  entryOf m d i ->
  currentList (markUnhealthy m d) !! i = Some a ->
  Health a = Unhealthy.
Proof.
  unfold wellPointed, entryOf, currentList, markUnhealthy. cbn.
  destruct (String.eqb (migStrategy m) "none").
  - intros Hwell. specialize (Hwell eq_refl).
    change (map ?f ?l) with (f <$> l). rewrite !list_lookup_fmap.
    destruct (vDevices m !! i) as [vd|] eqn:Hvd; cbn; [|discriminate].
    intros [= <-] [= <-]. apply mirrored_mark_eq.
    rewrite Forall_forall in Hwell. apply Hwell.
    apply list_elem_of_lookup. eauto.
  - intros _ ->. change (map ?f ?l) with (f <$> l).
    rewrite list_lookup_fmap, list_lookup_alter_eq.
    destruct (cachedDevices m !! d); cbn; [|discriminate]. now intros [= <-].
Qed.

Lemma sameShape_mark m (d : nat) : sameShape m (markUnhealthy m d).
Proof. unfold sameShape, markUnhealthy. cbn. now rewrite length_alter. Qed.

Lemma sameShape_trans m1 m2 m3 :
  sameShape m1 m2 -> sameShape m2 m3 -> sameShape m1 m3.
Proof.
  unfold sameShape. intros (-> & -> & ->) (? & ? & ?). now repeat split.
Qed.

Lemma entryOf_shape m m' (d i : nat) :
  sameShape m m' -> entryOf m' d i <-> entryOf m d i.
Proof. intros (Hmig & Hdev & _). unfold entryOf. now rewrite Hmig, Hdev. Qed.

(** Two lists sent one after the other are the lists before and after the
    marking of one device. *)
Lemma lists_step (ds : list nat) m (k : nat) (before after : list ApiDevice) :
  wellPointed m ->
  (currentList m :: listsAfter m ds) !! k = Some before ->
  (currentList m :: listsAfter m ds) !! S k = Some after ->
  exists d m',
    ds !! k = Some d
    /\ sameShape m m' /\ wellPointed m'
    /\ before = currentList m'
    /\ after = currentList (markUnhealthy m' d).
Proof.
  revert m k before after.
  induction ds as [|d0 ds IH]; intros m k before after Hwell.
  - destruct k; cbn; discriminate.
  - destruct k as [|k]; cbn [lookup list_lookup listsAfter].
    + intros [= <-] [= <-]. exists d0, m.
      split; [reflexivity|]. split; [repeat split|]. now split.
    + intros Hbefore Hafter.
      destruct (IH (markUnhealthy m d0) k before after
                  (wellPointed_mark m d0 Hwell) Hbefore Hafter)
        as (d & m' & Hd & Hshape & Hwell' & -> & ->).
      exists d, m'. split; [exact Hd|].
      split; [exact (sameShape_trans _ _ _ (sameShape_mark m d0) Hshape)|].
      now split.
Qed.

(** X5: between two lists that [ListAndWatch] sends one after the other a
    health event for one device lies; the second list has the same IDs in
    the same order, shows the entries of that device [Unhealthy] and every
    other entry exactly as the first list. *)
Theorem ListAndWatch_frame m (evs : list watch_event) (k : nat)
  (before after : list ApiDevice) :
  wellPointed m ->
  (ListAndWatch m evs).1 !! k = Some before ->
  (ListAndWatch m evs).1 !! S k = Some after ->
  exists d,
    heard evs !! k = Some d
    /\ map ID after = map ID before
    /\ (forall i a, entryOf m d i -> after !! i = Some a ->
                    Health a = Unhealthy)
    /\ (forall i, ~ entryOf m d i -> after !! i = before !! i).
Proof.
  intros Hwell. rewrite (ListAndWatch_sent m evs Hwell). cbn [fst].
  intros Hbefore Hafter.
  destruct (lists_step _ _ _ _ _ Hwell Hbefore Hafter)
    as (d & m' & Hd & Hshape & Hwell' & -> & ->).
  exists d. split; [exact Hd|]. split; [apply currentList_mark_ids|]. split.
  - intros i a Hentry. apply (currentList_mark_own m' d i a Hwell').
    now apply (entryOf_shape m m').
  - intros i Hentry. apply currentList_mark_other.
    now rewrite (entryOf_shape m m').
Qed.

End WatchFrame.

Lemma Node_wellPointed (policy : option Policy) (strategy : string) :
  wellPointed (Node.started policy strategy).
Proof.
  unfold wellPointed, Node.started, initialize. cbn.
  destruct (String.eqb strategy "none") eqn:Hnone; cbn;
    destruct policy; cbn; rewrite ?Hnone; intros; try discriminate;
    repeat constructor.
Qed.

(** On the small node: [GPU-A] fails, the stop signal comes, and the
    failure of [GPU-B] after it is not heard. *)
Lemma ListAndWatch_lists_on_node :
  let m := Node.started (Some Node.firstFit) "none" in
  let evs := [HealthEvent (Some 0%nat); StopClosed; HealthEvent (Some 1%nat)] in
  ListAndWatch m evs
  = (currentList m :: listsAfter m (heard evs), ending evs).
Proof.
  cbv zeta.
  apply (ListAndWatch_lists (Node.started (Some Node.firstFit) "none")).
  apply Node_wellPointed.
Defined.

(** On the small node: the second and third lists, around the event for
    [GPU-B]. *)
Lemma ListAndWatch_frame_on_node :
  let m := Node.started (Some Node.firstFit) "none" in
  let evs := [HealthEvent (Some 0%nat); HealthEvent (Some 1%nat)] in
  let before := [ {| ID := "v1"; Health := Unhealthy |};
                  {| ID := "v2"; Health := Unhealthy |};
                  {| ID := "v3"; Health := Healthy |};
                  {| ID := "v4"; Health := Healthy |} ] in
  let after := [ {| ID := "v1"; Health := Unhealthy |};
                 {| ID := "v2"; Health := Unhealthy |};
                 {| ID := "v3"; Health := Unhealthy |};
                 {| ID := "v4"; Health := Unhealthy |} ] in
  exists d,
    heard evs !! 1%nat = Some d
    /\ map ID after = map ID before
    /\ (forall i a, entryOf m d i -> after !! i = Some a ->
                    Health a = Unhealthy)
    /\ (forall i, ~ entryOf m d i -> after !! i = before !! i).
Proof.
  cbv zeta.
  apply (ListAndWatch_frame (Node.started (Some Node.firstFit) "none")
           [HealthEvent (Some 0%nat); HealthEvent (Some 1%nat)] 1);
    [apply Node_wellPointed | reflexivity | reflexivity].
Defined.

(** ** What [GetPreferredAllocation] returns *)

Section PreferredMore.

Context {L : Type}.
Variable host : Host.
Implicit Types m : NvidiaDevicePlugin L.

Lemma VDevicesByIDs_ids (vdevices : list VDevice) (ids : list string)
  (found : list VDevice) :
  VDevicesByIDs vdevices ids = Ok found ->
  map (fun vd => ID (vd_Device vd)) found = ids
  /\ Forall (fun vd => vd ∈ vdevices) found.
Proof.
  revert found. induction ids as [|id ids IH]; intros found; cbn.
  - intros [= <-]. split; [reflexivity|constructor].
  - destruct (List.find _ vdevices) as [vd|] eqn:Hfind; [|discriminate].
    destruct (VDevicesByIDs vdevices ids) as [rest| |]; try discriminate.
    cbn. intros [= <-]. destruct (IH rest eq_refl) as [Hids Hin].
    apply find_some in Hfind as [Hvd Heq]. apply String.eqb_eq in Heq.
    cbn. rewrite Hids, Heq. split; [reflexivity|].
    constructor; [now apply list_elem_of_In|exact Hin].
Qed.

Lemma toDeviceIds_first (cached : list Device) (avd : list VDevice)
  (allocated : list GDevice) (ids : list string) :
  toDeviceIds cached avd allocated = Ok ids ->
  Forall (fun id =>
            exists j vd g,
              g ∈ allocated
              /\ avd !! j = Some vd
              /\ ID (vd_Device vd) = id
              /\ devID cached vd = Ok (UUID g)
              /\ forall j' vd', (j' < j)%nat -> avd !! j' = Some vd' ->
                                devID cached vd' <> Ok (UUID g))
         ids.
Proof.
  revert ids. induction allocated as [|g gs IH]; intros ids; cbn.
  - intros [= <-]. constructor.
  - destruct (firstOn cached avd (UUID g)) as [found| |] eqn:Hfound;
      try discriminate. cbn.
    destruct (toDeviceIds cached avd gs) as [rest| |]; try discriminate.
    cbn. intros [= <-].
    assert (Forall (fun id =>
              exists j vd g0,
                g0 ∈ g :: gs /\ avd !! j = Some vd
                /\ ID (vd_Device vd) = id
                /\ devID cached vd = Ok (UUID g0)
                /\ forall j' vd', (j' < j)%nat -> avd !! j' = Some vd' ->
                                  devID cached vd' <> Ok (UUID g0)) rest)
      as Hrest.
    { eapply Forall_impl; [exact (IH rest eq_refl)|].
      intros id (j & vd & g0 & Hg0 & H). exists j, vd, g0.
      split; [now right|exact H]. }
    destruct found as [id|]; [|exact Hrest].
    constructor; [|exact Hrest].
    destruct (firstOn_first _ _ _ _ Hfound) as (j & vd & H).
    exists j, vd, g. split; [now left|exact H].
Qed.

(** What a successful answer for one container went through. *)
Lemma preferredForContainer_inv m
  (req : ContainerPreferredAllocationRequest)
  (resp : ContainerPreferredAllocationResponse) :
  preferredForContainer host m req = Ok resp ->
  exists avd uuids available rvd required_uuids required policy allocated,
    VDevicesByIDs (vDevices m) (AvailableDeviceIDs req) = Ok avd
    /\ UniqueDeviceIDs (cachedDevices m) avd = Ok uuids
    /\ NewDevicesFrom host uuids = Ok available
    /\ VDevicesByIDs (vDevices m) (MustIncludeDeviceIDs req) = Ok rvd
    /\ UniqueDeviceIDs (cachedDevices m) rvd = Ok required_uuids
    /\ NewDevicesFrom host required_uuids = Ok required
    /\ allocatePolicy m = Some policy
    /\ choose policy available required (AllocationSize req) = Ok allocated
    /\ toDeviceIds (cachedDevices m) avd allocated = Ok (DeviceIDs resp).
Proof.
  unfold preferredForContainer.
  destruct (VDevicesByIDs _ (AvailableDeviceIDs req)) as [avd| |] eqn:H1;
    try discriminate. cbn [wrapErr rbind].
  destruct (UniqueDeviceIDs _ avd) as [uuids| |] eqn:H2; try discriminate.
  cbn [rbind].
  destruct (NewDevicesFrom host uuids) as [available| |] eqn:H3;
    try discriminate.
  cbn [wrapErr rbind].
  destruct (VDevicesByIDs _ (MustIncludeDeviceIDs req)) as [rvd| |] eqn:H4;
    try discriminate. cbn [wrapErr rbind].
  destruct (UniqueDeviceIDs _ rvd) as [ruuids| |] eqn:H5; try discriminate.
  cbn [rbind].
  destruct (NewDevicesFrom host ruuids) as [required| |] eqn:H6;
    try discriminate.
  cbn [wrapErr rbind].
  destruct (allocatePolicy m) as [policy|] eqn:H7; [|discriminate].
  cbn [rbind].
  destruct (choose policy available required (AllocationSize req))
    as [allocated| |] eqn:Hchoose; try discriminate. cbn [rbind].
  destruct (toDeviceIds _ avd allocated) as [ids| |] eqn:Hids;
    try discriminate. cbn.
  intros [= <-]. cbn.
  exists avd, uuids, available, rvd, ruuids, required, policy, allocated.
  repeat split; assumption.
Qed.

Lemma preferredForContainers_each m
  (reqs : list ContainerPreferredAllocationRequest)
  (resps : list ContainerPreferredAllocationResponse) :
  preferredForContainers host m reqs = Ok resps <->
  Forall2 (fun req resp => preferredForContainer host m req = Ok resp)
          reqs resps.
Proof.
  revert resps. induction reqs as [|req reqs IH]; intros resps; cbn.
  - split.
    + intros [= <-]. constructor.
    + intros Hall. now inversion Hall.
  - split.
    + destruct (preferredForContainer host m req) as [resp| |] eqn:Hone;
        try discriminate. cbn.
      destruct (preferredForContainers host m reqs) as [rest| |] eqn:Hrest;
        try discriminate. cbn.
      intros [= <-]. constructor; [exact Hone|]. now apply IH.
    + intros Hall. inversion Hall as [|? resp ? rest Hone Hrest]; subst.
      rewrite Hone. cbn. apply IH in Hrest. now rewrite Hrest.
Qed.

Lemma GetPreferredAllocation_one m
  (req : ContainerPreferredAllocationRequest)
  (resp : ContainerPreferredAllocationResponse) :
  String.eqb (migStrategy m) "mixed" = false ->
  GetPreferredAllocation host m [req] = Ok (Some [resp])
  <-> preferredForContainer host m req = Ok resp.
Proof.
  intros Hmig. unfold GetPreferredAllocation. rewrite Hmig. cbn.
  destruct (preferredForContainer host m req) as [r| |]; cbn;
    split; try discriminate; now intros [= ->].
Qed.

(** X6: a call of [GetPreferredAllocation] for several containers answers
    each container as a call for that container alone would, in the order
    of the requests: one container's choice takes nothing from another's,
    and the call succeeds exactly when every container's does. *)
Theorem GetPreferredAllocation_per_container m
  (reqs : list ContainerPreferredAllocationRequest)
  (resps : list ContainerPreferredAllocationResponse) :
  String.eqb (migStrategy m) "mixed" = false ->
  GetPreferredAllocation host m reqs = Ok (Some resps)
  <-> Forall2 (fun req resp =>
                 GetPreferredAllocation host m [req] = Ok (Some [resp]))
              reqs resps.
Proof.
  intros Hmig.
  transitivity (preferredForContainers host m reqs = Ok resps).
  - unfold GetPreferredAllocation. rewrite Hmig.
    destruct (preferredForContainers host m reqs) as [r| |]; cbn;
      split; try discriminate; now intros [= ->].
  - rewrite preferredForContainers_each.
    split; intros Hall; (eapply Forall2_impl; [exact Hall|]);
      intros req resp; now apply GetPreferredAllocation_one.
Qed.

Lemma preferred_offered m (req : ContainerPreferredAllocationRequest)
  (resp : ContainerPreferredAllocationResponse) :
  preferredForContainer host m req = Ok resp ->
  forall id, id ∈ DeviceIDs resp -> id ∈ AvailableDeviceIDs req.
Proof.
  intros Hrun id Hid.
  destruct (preferredForContainer_inv m req resp Hrun)
    as (avd & uuids & available & rvd & ruuids & required & policy
        & allocated & Havd & _ & _ & _ & _ & _ & _ & _ & Hids).
  apply toDeviceIds_first in Hids. rewrite Forall_forall in Hids.
  destruct (Hids id Hid) as (j & vd & g & _ & Hj & <- & _).
  destruct (VDevicesByIDs_ids _ _ _ Havd) as [<- _].
  change (map ?f ?l) with (f <$> l).
  apply list_elem_of_fmap. exists vd. split; [reflexivity|].
  apply list_elem_of_lookup. eauto.
Qed.

(** X7: [GetPreferredAllocation] never returns an ID that the request did
    not offer as available, whatever the policy selects. *)
Theorem GetPreferredAllocation_offered m
  (reqs : list ContainerPreferredAllocationRequest)
  (resps : list ContainerPreferredAllocationResponse) :
  GetPreferredAllocation host m reqs = Ok (Some resps) ->
  Forall2 (fun req resp =>
             forall id, id ∈ DeviceIDs resp -> id ∈ AvailableDeviceIDs req)
          reqs resps.
Proof.
  unfold GetPreferredAllocation.
  destruct (String.eqb (migStrategy m) "mixed"); [discriminate|].
  destruct (preferredForContainers host m reqs) as [r| |] eqn:Hrun;
    try discriminate.
  cbn. intros [= <-]. apply preferredForContainers_each in Hrun.
  eapply Forall2_impl; [exact Hrun|].
  intros req resp. apply preferred_offered.
Qed.

End PreferredMore.

(** ** The slice that stands for a physical device, and the sizes the
    fallback does not serve *)

Section PreferredChoice.

Context {L : Type}.
Variable host : Host.
Implicit Types m : NvidiaDevicePlugin L.

(** X8: every ID that [GetPreferredAllocation] returns for a container is
    the ID of the first offered virtual device on its physical device, in
    the order of [AvailableDeviceIDs]: no virtual device offered before it
    lies on the same physical device. *)
Theorem GetPreferredAllocation_first_on_device m
  (req : ContainerPreferredAllocationRequest)
  (resp : ContainerPreferredAllocationResponse) :
  GetPreferredAllocation host m [req] = Ok (Some [resp]) ->
  exists offered,
    VDevicesByIDs (vDevices m) (AvailableDeviceIDs req) = Ok offered
    /\ Forall (fun id =>
                 exists j vd,
                   offered !! j = Some vd
                   /\ ID (vd_Device vd) = id
                   /\ forall j' vd', (j' < j)%nat -> offered !! j' = Some vd' ->
                        devID (cachedDevices m) vd'
                        <> devID (cachedDevices m) vd)
              (DeviceIDs resp).
Proof.
  intros Hrun.
  assert (String.eqb (migStrategy m) "mixed" = false) as Hmig.
  { unfold GetPreferredAllocation in Hrun.
    destruct (String.eqb (migStrategy m) "mixed"); [discriminate|reflexivity]. }
  apply GetPreferredAllocation_one in Hrun; [|exact Hmig].
  destruct (preferredForContainer_inv host m req resp Hrun)
    as (avd & uuids & available & rvd & ruuids & required & policy
        & allocated & Havd & _ & _ & _ & _ & _ & _ & _ & Hids).
  exists avd. split; [exact Havd|].
  eapply Forall_impl; [exact (toDeviceIds_first _ _ _ _ Hids)|].
  intros id (j & vd & g & _ & Hj & Hid & Hdev & Hfirst).
  exists j, vd. repeat split; auto.
  intros j' vd' Hlt Hj'. rewrite Hdev. now apply (Hfirst j' vd').
Qed.

(** What [choose] does when the policy selected nothing. *)
Lemma choose_silent (policy : Policy) (available required : list GDevice)
  (size : Z) :
  policy available required size = [] ->
  choose policy available required size
  = if size <=? Z.of_nat (length available)
    then if size <? 0 then Panic else Ok (firstn (Z.to_nat size) available)
    else Ok [].
Proof.
  intros Hsilent. unfold choose. rewrite Hsilent. cbn [length].
  rewrite Z.eqb_refl. cbn [andb]. reflexivity.
Qed.

Lemma preferred_silent m (policy : Policy)
  (req : ContainerPreferredAllocationRequest)
  (uuids required_uuids : list string) (available required : list GDevice) :
  String.eqb (migStrategy m) "mixed" = false ->
  allocatePolicy m = Some policy ->
  distinctDevices m (AvailableDeviceIDs req) = Ok uuids ->
  NewDevicesFrom host uuids = Ok available ->
  distinctDevices m (MustIncludeDeviceIDs req) = Ok required_uuids ->
  NewDevicesFrom host required_uuids = Ok required ->
  policy available required (AllocationSize req) = [] ->
  exists avd,
    length available = length uuids
    /\ GetPreferredAllocation host m [req]
       = (resps <-
            (resp <-
               (allocated <-
                  (if AllocationSize req <=? Z.of_nat (length available)
                   then if AllocationSize req <? 0 then Panic
                        else Ok (firstn (Z.to_nat (AllocationSize req))
                                   available)
                   else Ok []) ;;
                deviceIds <- toDeviceIds (cachedDevices m) avd allocated ;;
                Ok {| DeviceIDs := deviceIds |}) ;;
             Ok [resp]) ;;
          Ok (Some resps)).
Proof.
  intros Hmig Hpol Hav Hnew Hrq Hrnew Hsilent.
  apply distinctDevices_ok in Hav as (avd & Havd & Huniq).
  apply distinctDevices_ok in Hrq as (rvd & Hrvd & Hruniq).
  exists avd. split.
  { rewrite <- (NewDevicesFrom_UUID _ _ _ Hnew). now rewrite length_map. }
  unfold GetPreferredAllocation, preferredForContainers, preferredForContainer.
  rewrite Hmig, Havd. cbn [wrapErr rbind]. rewrite Huniq. cbn [rbind].
  rewrite Hnew. cbn [wrapErr rbind]. rewrite Hrvd. cbn [wrapErr rbind].
  rewrite Hruniq. cbn [rbind]. rewrite Hrnew. cbn [wrapErr rbind].
  rewrite Hpol. cbn [rbind]. rewrite (choose_silent _ _ _ _ Hsilent).
  destruct (_ <=? _); [destruct (_ <? _)|]; cbn [rbind]; try reflexivity;
    destruct (toDeviceIds _ _ _); reflexivity.
Qed.

(** X9: when the policy selects nothing and the container asks for more
    devices than the distinct physical devices under the offered virtual
    devices, [GetPreferredAllocation] succeeds with an empty list of IDs
    for that container: it reports no error. *)
Theorem GetPreferredAllocation_short m (policy : Policy)
  (req : ContainerPreferredAllocationRequest)
  (uuids required_uuids : list string) (available required : list GDevice) :
  String.eqb (migStrategy m) "mixed" = false ->
  allocatePolicy m = Some policy ->
  distinctDevices m (AvailableDeviceIDs req) = Ok uuids ->
  NewDevicesFrom host uuids = Ok available ->
  distinctDevices m (MustIncludeDeviceIDs req) = Ok required_uuids ->
  NewDevicesFrom host required_uuids = Ok required ->
  policy available required (AllocationSize req) = [] ->
  Z.of_nat (length uuids) < AllocationSize req ->
  GetPreferredAllocation host m [req] = Ok (Some [ {| DeviceIDs := [] |} ]).
Proof.
  intros Hmig Hpol Hav Hnew Hrq Hrnew Hsilent Hshort.
  destruct (preferred_silent m policy req uuids required_uuids available
              required Hmig Hpol Hav Hnew Hrq Hrnew Hsilent)
    as (avd & Hlen & ->).
  destruct (Z.leb_spec (AllocationSize req) (Z.of_nat (length available)));
    [lia|].
  reflexivity.
Qed.

(** X10: when the policy selects nothing and [AllocationSize] is negative,
    [GetPreferredAllocation] panics: the fallback slices the available
    devices with the negative size. *)
Theorem GetPreferredAllocation_negative_size m (policy : Policy)
  (req : ContainerPreferredAllocationRequest)
  (uuids required_uuids : list string) (available required : list GDevice) :
  String.eqb (migStrategy m) "mixed" = false ->
  allocatePolicy m = Some policy ->
  distinctDevices m (AvailableDeviceIDs req) = Ok uuids ->
  NewDevicesFrom host uuids = Ok available ->
  distinctDevices m (MustIncludeDeviceIDs req) = Ok required_uuids ->
  NewDevicesFrom host required_uuids = Ok required ->
  policy available required (AllocationSize req) = [] ->
  AllocationSize req < 0 ->
  GetPreferredAllocation host m [req] = Panic.
Proof.
  intros Hmig Hpol Hav Hnew Hrq Hrnew Hsilent Hneg.
  destruct (preferred_silent m policy req uuids required_uuids available
              required Hmig Hpol Hav Hnew Hrq Hrnew Hsilent)
    as (avd & Hlen & ->).
  destruct (Z.leb_spec (AllocationSize req) (Z.of_nat (length available)));
    [|lia].
  destruct (Z.ltb_spec (AllocationSize req) 0); [|lia].
  reflexivity.
Qed.

End PreferredChoice.

(** On the node, two containers are answered one by one. *)
Lemma GetPreferredAllocation_per_container_on_node :
  GetPreferredAllocation Node.host (Node.started (Some Node.firstFit) "none")
    [ {| AvailableDeviceIDs := ["v2"; "v3"; "v4"];
         MustIncludeDeviceIDs := []; AllocationSize := 2 |};
      {| AvailableDeviceIDs := ["v4"; "v1"];
         MustIncludeDeviceIDs := []; AllocationSize := 1 |} ]
  = Ok (Some [ {| DeviceIDs := ["v2"; "v3"] |}; {| DeviceIDs := ["v4"] |} ])
  <-> Forall2 (fun req resp =>
                 GetPreferredAllocation Node.host
                   (Node.started (Some Node.firstFit) "none") [req]
                 = Ok (Some [resp]))
        [ {| AvailableDeviceIDs := ["v2"; "v3"; "v4"];
             MustIncludeDeviceIDs := []; AllocationSize := 2 |};
          {| AvailableDeviceIDs := ["v4"; "v1"];
             MustIncludeDeviceIDs := []; AllocationSize := 1 |} ]
        [ {| DeviceIDs := ["v2"; "v3"] |}; {| DeviceIDs := ["v4"] |} ].
Proof.
  apply (GetPreferredAllocation_per_container Node.host
           (Node.started (Some Node.firstFit) "none")).
  reflexivity.
Defined.

Lemma GetPreferredAllocation_offered_on_node :
  Forall2 (fun req resp =>
             forall id, id ∈ DeviceIDs resp -> id ∈ AvailableDeviceIDs req)
    [ {| AvailableDeviceIDs := ["v2"; "v3"; "v4"];
         MustIncludeDeviceIDs := []; AllocationSize := 2 |};
      {| AvailableDeviceIDs := ["v4"; "v1"];
         MustIncludeDeviceIDs := []; AllocationSize := 1 |} ]
    [ {| DeviceIDs := ["v2"; "v3"] |}; {| DeviceIDs := ["v4"] |} ].
Proof.
  apply (GetPreferredAllocation_offered Node.host
           (Node.started (Some Node.firstFit) "none")).
  reflexivity.
Defined.

Lemma GetPreferredAllocation_first_on_device_on_node :
  exists offered,
    VDevicesByIDs (vDevices (Node.started (Some Node.firstFit) "none"))
      ["v2"; "v1"; "v4"; "v3"] = Ok offered
    /\ Forall (fun id =>
                 exists j vd,
                   offered !! j = Some vd
                   /\ ID (vd_Device vd) = id
                   /\ forall j' vd', (j' < j)%nat -> offered !! j' = Some vd' ->
                        devID (cachedDevices
                                 (Node.started (Some Node.firstFit) "none")) vd'
                        <> devID (cachedDevices
                                    (Node.started (Some Node.firstFit) "none"))
                             vd)
              ["v2"; "v4"].
Proof.
  apply (GetPreferredAllocation_first_on_device Node.host
           (Node.started (Some Node.firstFit) "none")
           {| AvailableDeviceIDs := ["v2"; "v1"; "v4"; "v3"];
              MustIncludeDeviceIDs := ["v1"]; AllocationSize := 2 |}
           {| DeviceIDs := ["v2"; "v4"] |}).
  reflexivity.
Defined.

Lemma GetPreferredAllocation_short_on_node :
  GetPreferredAllocation Node.host Node.ledgered
    [ {| AvailableDeviceIDs := ["v1"; "v2"; "v3"; "v4"];
         MustIncludeDeviceIDs := []; AllocationSize := 3 |} ]
  = Ok (Some [ {| DeviceIDs := [] |} ]).
Proof.
  apply (GetPreferredAllocation_short Node.host Node.ledgered Node.silent
           {| AvailableDeviceIDs := ["v1"; "v2"; "v3"; "v4"];
              MustIncludeDeviceIDs := []; AllocationSize := 3 |}
           ["GPU-A"; "GPU-B"] []
           [ {| UUID := "GPU-A"; g_Index := 0 |};
             {| UUID := "GPU-B"; g_Index := 1 |} ] []);
    try reflexivity.
Defined.

Lemma GetPreferredAllocation_negative_size_on_node :
  GetPreferredAllocation Node.host Node.ledgered
    [ {| AvailableDeviceIDs := ["v1"; "v3"];
         MustIncludeDeviceIDs := []; AllocationSize := -1 |} ]
  = Panic.
Proof.
  apply (GetPreferredAllocation_negative_size Node.host Node.ledgered
           Node.silent
           {| AvailableDeviceIDs := ["v1"; "v3"];
              MustIncludeDeviceIDs := []; AllocationSize := -1 |}
           ["GPU-A"; "GPU-B"] []
           [ {| UUID := "GPU-A"; g_Index := 0 |};
             {| UUID := "GPU-B"; g_Index := 1 |} ] []);
    try reflexivity.
Defined.

(** ** [Allocate] with the MIG strategy "mixed", and the device IDs by
    index *)

Section MixedMore.

Context {L : Type} `{!VDeviceController L}.
Variable flags : Flags.
Variable host : Host.
Implicit Types m : NvidiaDevicePlugin L.

Lemma find_app_first {A} (f : A -> bool) (l1 l2 : list A) :
  List.find f (l1 ++ l2)
  = match List.find f l1 with
    | Some x => Some x
    | None => List.find f l2
    end.
Proof.
  induction l1 as [|a l1 IH]; cbn; [reflexivity|]. now destruct (f a).
Qed.

Lemma MIGAllocate_find m (reqs : list ContainerAllocateRequest) :
  MIGAllocate flags host m reqs
  = match List.find (fun id => negb (deviceExists m id))
            (flat_map DevicesIDs reqs) with
    | Some id =>
        Err ("invalid allocation request for '" +:+ resourceName m
             +:+ "': unknown device: " +:+ id)
    | None =>
        Ok (map (fun req =>
                   deviceListResponse flags host m
                     (deviceIDsFromUUIDs flags m (DevicesIDs req))
                     (DevicesIDs req))
                reqs)
    end.
Proof.
  induction reqs as [|req reqs IH]; [reflexivity|].
  cbn [MIGAllocate flat_map map]. rewrite find_app_first.
  unfold migAllocateContainer.
  destruct (List.find _ (DevicesIDs req)) as [id|]; [reflexivity|].
  cbn [rbind]. rewrite IH.
  now destruct (List.find _ (flat_map DevicesIDs reqs)).
Qed.

(** X11: with the MIG strategy "mixed", [Allocate] answers all containers
    or none.  When every requested ID of every container is the ID of a
    cached device it returns one response per container, in order, built
    from the requested IDs alone; otherwise it returns the error that names
    the first unknown ID, in the order of the containers and of their IDs.
    It never panics, and it leaves the ledger as it is. *)
Theorem Allocate_mixed_all_or_error m (reqs : list ContainerAllocateRequest) :
  String.eqb (migStrategy m) "mixed" = true ->
  Allocate flags host m reqs
  = (match List.find (fun id => negb (deviceExists m id))
             (flat_map DevicesIDs reqs) with
     | Some id =>
         Err ("invalid allocation request for '" +:+ resourceName m
              +:+ "': unknown device: " +:+ id)
     | None =>
         Ok (map (fun req =>
                    deviceListResponse flags host m
                      (deviceIDsFromUUIDs flags m (DevicesIDs req))
                      (DevicesIDs req))
                 reqs)
     end,
     vDeviceController m).
Proof.
  intros Hmig. unfold Allocate. rewrite Hmig. now rewrite MIGAllocate_find.
Qed.

Lemma indicesOf_perm (d : Device) (uuids uuids' : list string) :
  uuids ≡ₚ uuids' -> indicesOf d uuids = indicesOf d uuids'.
Proof.
  unfold indicesOf.
  induction 1 as [|x l l' _ IH|x y l|l l' l'' _ IH1 _ IH2]; cbn.
  - reflexivity.
  - now rewrite IH.
  - now destruct (String.eqb _ y), (String.eqb _ x).
  - congruence.
Qed.

Lemma indicesOf_elem (d : Device) (uuids : list string) (idx : string) :
  idx ∈ indicesOf d uuids <-> ID (d_Device d) ∈ uuids /\ Index d = idx.
Proof.
  unfold indicesOf. induction uuids as [|id uuids IH]; cbn.
  - split; [intros Hin; inversion Hin|intros [Hin _]; inversion Hin].
  - rewrite elem_of_app, IH, elem_of_cons.
    destruct (String.eqb_spec (ID (d_Device d)) id) as [->|Hne].
    + rewrite list_elem_of_singleton. split.
      * intros [->|[Hin <-]]; auto.
      * intros [[_|Hin] <-]; auto.
    + split.
      * intros [Hin|[Hin Hidx]]; [inversion Hin|auto].
      * intros [[Heq|Hin] Hidx]; [congruence|auto].
Qed.

Lemma deviceIDsFromUUIDs_by_index m (uuids : list string) :
  deviceIDStrategyFlag flags = DeviceIDStrategyIndex ->
  deviceIDsFromUUIDs flags m uuids
  = flat_map (fun d => indicesOf d uuids) (cachedDevices m).
Proof. intros Hflag. unfold deviceIDsFromUUIDs. now rewrite Hflag. Qed.

Lemma indicesOf_cons_length (cached : list Device) (id : string)
  (uuids : list string) :
  length (flat_map (fun d => indicesOf d (id :: uuids)) cached)
  = (length (List.filter (fun d => String.eqb (ID (d_Device d)) id) cached)
     + length (flat_map (fun d => indicesOf d uuids) cached))%nat.
Proof.
  induction cached as [|d cached IH]; [reflexivity|].
  cbn [flat_map List.filter]. rewrite !length_app, IH.
  change (indicesOf d (id :: uuids))
    with ((if String.eqb (ID (d_Device d)) id then [Index d] else [])
          ++ indicesOf d uuids).
  rewrite length_app.
  destruct (String.eqb (ID (d_Device d)) id); cbn; lia.
Qed.

Lemma one_device_per_ID (cached : list Device) (id : string) :
  NoDup (map (fun d => ID (d_Device d)) cached) ->
  length (List.filter (fun d => String.eqb (ID (d_Device d)) id) cached)
  = if existsb (fun d => String.eqb (ID (d_Device d)) id) cached
    then 1%nat else 0%nat.
Proof.
  induction cached as [|d cached IH]; [reflexivity|].
  cbn [map List.filter existsb]. intros Hnodup.
  apply NoDup_cons in Hnodup as [Hfresh Hnodup].
  specialize (IH Hnodup).
  destruct (String.eqb_spec (ID (d_Device d)) id) as [Heq|Hne]; cbn.
  - destruct (existsb _ cached) eqn:Hex; [|now rewrite IH].
    exfalso. apply Hfresh. apply existsb_exists in Hex as (d' & Hin & Hd').
    apply String.eqb_eq in Hd'. rewrite Heq, <- Hd'.
    change (map ?f ?l) with (f <$> l). apply list_elem_of_fmap.
    exists d'. split; [reflexivity|now apply list_elem_of_In].
  - exact IH.
Qed.

Lemma indicesOf_replicate (d : Device) (uuids : list string) :
  indicesOf d uuids
  = replicate (occurrences (ID (d_Device d)) uuids) (Index d).
Proof.
  unfold indicesOf, occurrences.
  induction uuids as [|id uuids IH]; [reflexivity|].
  cbn [flat_map List.filter]. rewrite IH.
  now destruct (String.eqb _ id).
Qed.

(** X12: with the device-ID strategy "index", [deviceIDsFromUUIDs] returns
    the indices of the cached devices whose ID is among the UUIDs given: an
    unknown UUID is dropped without an error, the result is in the order of
    the cached devices (for each cached device in turn, its index once per
    occurrence of its ID) and does not depend on the order of the UUIDs,
    and when the cached devices have distinct IDs it has one index for
    every known UUID given. *)
Theorem deviceIDsFromUUIDs_index m (uuids : list string) :
  deviceIDStrategyFlag flags = DeviceIDStrategyIndex ->
  (forall idx,
      idx ∈ deviceIDsFromUUIDs flags m uuids
      <-> exists d, d ∈ cachedDevices m
                    /\ ID (d_Device d) ∈ uuids /\ Index d = idx)
  /\ (forall uuids',
         uuids ≡ₚ uuids' ->
         deviceIDsFromUUIDs flags m uuids' = deviceIDsFromUUIDs flags m uuids)
  /\ (NoDup (map (fun d => ID (d_Device d)) (cachedDevices m)) ->
      length (deviceIDsFromUUIDs flags m uuids)
      = length (List.filter (deviceExists m) uuids))
  /\ deviceIDsFromUUIDs flags m uuids
     = flat_map (fun d => replicate (occurrences (ID (d_Device d)) uuids)
                            (Index d))
         (cachedDevices m).
Proof.
  intros Hflag. split; [|split; [|split]].
  - intros idx. rewrite deviceIDsFromUUIDs_by_index by assumption.
    rewrite list_elem_of_In, in_flat_map. split.
    + intros (d & Hd & Hidx). exists d.
      apply list_elem_of_In in Hd, Hidx. apply indicesOf_elem in Hidx.
      tauto.
    + intros (d & Hd & Hid & Hidx). exists d.
      split; [now apply list_elem_of_In|].
      apply list_elem_of_In. now apply indicesOf_elem.
  - intros uuids' Hperm. rewrite !deviceIDsFromUUIDs_by_index by assumption.
    apply flat_map_ext. intros d. symmetry. now apply indicesOf_perm.
  - intros Hnodup. rewrite deviceIDsFromUUIDs_by_index by assumption.
    induction uuids as [|id uuids IH].
    + cbn. induction (cachedDevices m) as [|d ds IHd]; [reflexivity|].
      cbn. exact (IHd (NoDup_cons_1_2 _ _ Hnodup)).
    + rewrite indicesOf_cons_length, IH, (one_device_per_ID _ _ Hnodup).
      cbn [List.filter]. unfold deviceExists.
      now destruct (existsb _ (cachedDevices m)).
  - rewrite deviceIDsFromUUIDs_by_index by assumption.
    apply flat_map_ext. intros d. apply indicesOf_replicate.
Qed.

End MixedMore.

(** ** The environment of a virtualized response *)

Section ResponseMore.

Context {L : Type} `{!VDeviceController L}.
Variable flags : Flags.
Variable host : Host.
Implicit Types m : NvidiaDevicePlugin L.

Lemma at_setEnv (k v : string) (r r' : ContainerAllocateResponse) :
  setEnv k v r = Ok r' -> envAt r' k = Some v.
Proof.
  unfold setEnv, envAt. destruct (Envs r) as [e|]; [|discriminate].
  intros [= <-]. cbn. apply lookup_insert_eq.
Qed.

Lemma after_setEnv (k v : string) (r r' : ContainerAllocateResponse)
  (k' : string) :
  setEnv k v r = Ok r' -> String.eqb k' k = false ->
  envAt r' k' = envAt r k'.
Proof.
  unfold setEnv, envAt. destruct (Envs r) as [e|]; [|discriminate].
  intros [= <-] Hne. cbn. apply lookup_insert_ne.
  intros ->. now rewrite String.eqb_refl in Hne.
Qed.

Lemma setEnv_needs_envs (k v : string) (r r' : ContainerAllocateResponse) :
  setEnv k v r = Ok r' -> Envs r <> None.
Proof. unfold setEnv. now destruct (Envs r). Qed.

Lemma append_inj (p a b : string) : p +:+ a = p +:+ b -> a = b.
Proof. induction p as [|c p IH]; cbn; [auto|]. intros [= H]. auto. Qed.

Lemma limitKey_inj (i j : nat) : limitKey i = limitKey j -> i = j.
Proof. intros H. apply append_inj in H. now apply (inj pretty). Qed.

Lemma limitKey_eqb (i j : nat) :
  i <> j -> String.eqb (limitKey i) (limitKey j) = false.
Proof. intros Hne. apply String.eqb_neq. intros H. now apply limitKey_inj in H. Qed.

Lemma limitKey_vgpu (i : nat) : vgpuKey (limitKey i) = true.
Proof. reflexivity. Qed.

(** What the loop over the virtual devices leaves in the environment. *)
Lemma memoryLimits_limits (cached : list Device) (vds : list VDevice) (i : nat)
  (r : ContainerAllocateResponse)
  (done : ContainerAllocateResponse * list string) :
  memoryLimits cached i vds r = Ok done ->
  (forall j vd, vds !! j = Some vd ->
                envAt done.1 (limitKey (i + j)%nat)
                = Some (pretty (memory vd) +:+ "m"))
  /\ (forall k, (forall j, (j < length vds)%nat ->
                           String.eqb k (limitKey (i + j)%nat) = false) ->
                envAt done.1 k = envAt r k)
  /\ exists ids,
       Forall2 (fun vd id => devID cached vd = Ok id) vds ids
       /\ done.2 = imap (fun j id => pretty (i + j)%nat +:+ ":" +:+ id) ids.
Proof.
  revert i r done. induction vds as [|vd vds IH]; intros i r done.
  - cbn. intros [= <-]. repeat split; try easy.
    exists []. split; [constructor|reflexivity].
  - cbn [memoryLimits].
    destruct (setEnv _ _ r) as [r1| |] eqn:E1; try discriminate. cbn [rbind].
    destruct (devID cached vd) as [id| |] eqn:Hid; try discriminate.
    cbn [rbind].
    destruct (memoryLimits cached (S i) vds r1) as [rest| |] eqn:E2;
      try discriminate.
    cbn [rbind]. intros [= <-]. cbn [fst snd].
    destruct (IH _ _ _ E2) as (Hin & Hout & ids & Hids & Hmap).
    split; [|split].
    + intros [|j] vd'.
      * intros [= <-]. rewrite Hout.
        -- rewrite Nat.add_0_r. exact (at_setEnv _ _ _ _ E1).
        -- intros j _. apply limitKey_eqb. lia.
      * intros Hj. replace (i + S j)%nat with (S i + j)%nat by lia.
        now apply Hin.
    + intros k Hk. rewrite Hout.
      * apply (after_setEnv _ _ _ _ _ E1).
        rewrite <- (Nat.add_0_r i). apply Hk. cbn. lia.
      * intros j Hj. replace (S i + j)%nat with (i + S j)%nat by lia.
        apply Hk. cbn. lia.
    + exists (id :: ids). split; [now constructor|].
      rewrite Hmap. cbn [imap]. rewrite Nat.add_0_r. f_equal.
      apply imap_ext. intros j x _. cbn [compose].
      now replace (S i + j)%nat with (i + S j)%nat by lia.
Qed.

Lemma vgpuResponse_needs_envs m (targetpod : Pod) (ctrname : string)
  (reqidx : nat) (vdevices : list VDevice) (r r' : ContainerAllocateResponse) :
  vgpuResponse flags host m targetpod ctrname reqidx vdevices r = Ok r' ->
  Envs r <> None.
Proof.
  unfold vgpuResponse. destruct vdevices as [|vd vds].
  - cbn [memoryLimits rbind fst].
    destruct (setEnv _ _ r) as [r2| |] eqn:E2; try discriminate.
    intros _. exact (setEnv_needs_envs _ _ _ _ E2).
  - cbn [memoryLimits].
    destruct (setEnv _ _ r) as [r1| |] eqn:E1; try discriminate.
    intros _. exact (setEnv_needs_envs _ _ _ _ E1).
Qed.

(** The variables of virtualisation in a response. *)
Lemma vgpuResponse_env m (targetpod : Pod) (ctrname : string) (reqidx : nat)
  (vdevices : list VDevice) (r r' : ContainerAllocateResponse) :
  vgpuResponse flags host m targetpod ctrname reqidx vdevices r = Ok r' ->
  envAt r' "CUDA_DEVICE_SM_LIMIT" = Some (smLimit flags)
  /\ (forall i,
         envAt r' (limitKey i)
         = match vdevices !! i with
           | Some vd => Some (pretty (memory vd) +:+ "m")
           | None => envAt r (limitKey i)
           end)
  /\ envAt r' "CUDA_OVERSUBSCRIBE"
     = (if memoryOversold flags then Some "true"
        else envAt r "CUDA_OVERSUBSCRIBE")
  /\ exists ids,
       Forall2 (fun vd id => devID (cachedDevices m) vd = Ok id) vdevices ids
       /\ envAt r' "NVIDIA_DEVICE_MAP"
          = Some (strings_Join (deviceMap ids) " ").
Proof.
  unfold vgpuResponse.
  destruct (memoryLimits _ _ _ r) as [lim| |] eqn:E0; try discriminate.
  cbn [rbind].
  destruct (setEnv _ _ lim.1) as [r2| |] eqn:E2; try discriminate.
  cbn [rbind].
  destruct (setEnv _ _ r2) as [r3| |] eqn:E3; try discriminate. cbn [rbind].
  destruct (if monitoring host then _ else _) as [r4| |] eqn:E4;
    try discriminate. cbn [rbind].
  destruct (if memoryOversold flags then _ else _) as [r5| |] eqn:E5;
    try discriminate. cbn [rbind].
  intros [= <-].
  assert (forall k, envAt (withMounts r5 (Mounts r5 ++ shimMounts host)) k
                    = envAt r5 k) as Hlast by reflexivity.
  assert (forall k, String.eqb k "CUDA_DEVICE_MEMORY_SHARED_CACHE" = false ->
                    envAt r4 k = envAt r3 k) as H4.
  { intros k Hk. destruct (monitoring host);
      now rewrite (after_setEnv _ _ _ _ _ E4 Hk). }
  assert (forall k, String.eqb k "CUDA_OVERSUBSCRIBE" = false ->
                    envAt r5 k = envAt r4 k) as H5.
  { intros k Hk. destruct (memoryOversold flags).
    - exact (after_setEnv _ _ _ _ _ E5 Hk).
    - now injection E5 as <-. }
  destruct (memoryLimits_limits _ _ _ _ _ E0) as (Hin & Hout & ids & Hids & Hmap).
  split; [|split; [|split]].
  - rewrite Hlast, H5, H4 by reflexivity.
    rewrite (after_setEnv _ _ _ _ _ E3) by reflexivity.
    exact (at_setEnv _ _ _ _ E2).
  - intros i. rewrite Hlast, H5, H4 by reflexivity.
    rewrite (after_setEnv _ _ _ _ _ E3) by reflexivity.
    rewrite (after_setEnv _ _ _ _ _ E2) by reflexivity.
    destruct (vdevices !! i) as [vd|] eqn:Hi.
    + exact (Hin i vd Hi).
    + apply Hout. intros j Hj. apply limitKey_eqb.
      apply lookup_ge_None in Hi. cbn. lia.
  - destruct (memoryOversold flags).
    + rewrite Hlast. exact (at_setEnv _ _ _ _ E5).
    + injection E5 as <-. rewrite Hlast, H4 by reflexivity.
      rewrite (after_setEnv _ _ _ _ _ E3) by reflexivity.
      rewrite (after_setEnv _ _ _ _ _ E2) by reflexivity.
      apply Hout. intros j _. reflexivity.
  - exists ids. split; [exact Hids|].
    rewrite Hlast, H5, H4 by reflexivity.
    rewrite (at_setEnv _ _ _ _ E3), Hmap. reflexivity.
Qed.

Lemma recordBinding_keeps (ctl ctl' : option L)
  (req : ContainerAllocateRequest) (granted : list string)
  (r r1 : ContainerAllocateResponse) :
  recordBinding flags ctl req granted r = (r1, ctl') ->
  Envs r1 = Envs r /\ Mounts r1 = Mounts r.
Proof.
  unfold recordBinding. destruct ctl; intros [= <- _]; now split.
Qed.

(** What a response that succeeds went through. *)
Lemma respond_inv m (ctl ctl' : option L) (targetpod : Pod)
  (ctrname : string) (reqidx : nat) (req : ContainerAllocateRequest)
  (granted : list string) (response : ContainerAllocateResponse) :
  respond flags host m ctl targetpod ctrname reqidx req granted
  = (Ok response, ctl') ->
  exists vdevices uuids r1,
    VDevicesByIDs (vDevices m) granted = Ok vdevices
    /\ UniqueDeviceIDs (cachedDevices m) vdevices = Ok uuids
    /\ Envs r1
       = Envs (deviceListResponse flags host m
                 (deviceIDsFromUUIDs flags m uuids) uuids)
    /\ Mounts r1
       = Mounts (deviceListResponse flags host m
                   (deviceIDsFromUUIDs flags m uuids) uuids)
    /\ vgpuResponse flags host m targetpod ctrname reqidx vdevices r1
       = Ok response.
Proof.
  unfold respond.
  destruct (VDevicesByIDs _ _) as [vdevices| |] eqn:Hvds; try discriminate.
  destruct (UniqueDeviceIDs _ _) as [uuids| |] eqn:Huniq; try discriminate.
  destruct (recordBinding flags ctl req granted _) as [r1 ctl1] eqn:Hrec.
  destruct (vgpuResponse _ _ _ _ _ _ _ r1) as [r2| |] eqn:Hvgpu;
    try discriminate.
  intros [= <- _]. exists vdevices, uuids, r1.
  destruct (recordBinding_keeps _ _ _ _ _ _ Hrec) as [He Hm].
  repeat split; assumption.
Qed.

(** Every response of the loop came from [respond]. *)
Lemma allocateContainers_each m (targetpod : Pod)
  (P : ContainerAllocateRequest -> list string -> ContainerAllocateResponse
       -> Prop) :
  (forall ctl1 ctl2 ctrname k req granted response,
      respond flags host m ctl1 targetpod ctrname k req granted
      = (Ok response, ctl2) ->
      P req granted response) ->
  forall (reqs : list ContainerAllocateRequest) (ctl ctl' : option L)
         (reqidx addnum : nat) (responses : list ContainerAllocateResponse),
    allocateContainers flags host m ctl targetpod reqidx addnum reqs
    = (Ok responses, ctl') ->
    Forall2 (fun req response =>
               exists granted,
                 (ctl = None -> granted = DevicesIDs req)
                 /\ P req granted response)
            reqs responses.
Proof.
  intros HP. induction reqs as [|req reqs IH];
    intros ctl ctl' reqidx addnum responses; cbn [allocateContainers].
  - intros [= <- _]. constructor.
  - destruct (allocateContainer _ _ _ _ _ _ _ _) as [[[r a1]| |] ctl1] eqn:Hone;
      try discriminate.
    destruct (allocateContainers _ _ _ _ _ _ _ reqs) as [[rs| |] ctl2]
      eqn:Hrest; try discriminate.
    intros [= <- _].
    destruct (allocateContainer_responds _ _ _ _ _ _ _ _ _ _ _ Hone)
      as (ctl0 & ctrname & granted & Hresp & Hnone).
    constructor; [exists granted; split; [exact Hnone|exact (HP _ _ _ _ _ _ _ Hresp)]|].
    assert (ctl = None -> ctl1 = None) as Hstays.
    { intros ->.
      pose proof (allocateContainers_unledgered flags host m targetpod [req]
                    reqidx addnum) as Hno.
      cbn [allocateContainers] in Hno. rewrite Hone in Hno. exact Hno. }
    eapply Forall2_impl; [exact (IH _ _ _ _ _ Hrest)|].
    intros req' r' (g & Hn & Hp). exists g. split; auto.
Qed.

(** A virtualized [Allocate] that succeeds ran the loop over the container
    requests to its end. *)
Lemma Allocate_virtualized_runs m (reqs : list ContainerAllocateRequest)
  (responses : list ContainerAllocateResponse) (ctl : option L) :
  String.eqb (migStrategy m) "mixed" = false ->
  Allocate flags host m reqs = (Ok responses, ctl) ->
  exists targetpod ctl0,
    allocateContainers flags host m ctl0 targetpod 0 0 reqs
    = (Ok responses, ctl)
    /\ (vDeviceController m = None -> ctl0 = None).
Proof.
  intros Hmig. unfold Allocate. rewrite Hmig.
  destruct (targetPod host reqs) as [targetpod| |]; try discriminate.
  destruct (vDeviceController m) as [l|].
  - destruct (updateFromCheckpoint l) as [l' [err|]]; [discriminate|].
    intros Hrun. exists targetpod, (Some l'). split; [exact Hrun|discriminate].
  - intros Hrun. exists targetpod, None. now split.
Qed.

Lemma deviceListResponse_env_other m (deviceIDs uuids : list string)
  (k : string) :
  vgpuKey (deviceListEnvvar m) = false ->
  vgpuKey k = true ->
  envAt (deviceListResponse flags host m deviceIDs uuids) k = None.
Proof.
  intros Henv Hk. assert (deviceListEnvvar m <> k) as Hne by congruence.
  unfold deviceListResponse, envAt.
  destruct (String.eqb _ DeviceListStrategyEnvvar),
    (String.eqb _ DeviceListStrategyVolumeMounts),
    (passDeviceSpecsFlag flags); cbn;
    try reflexivity; now apply lookup_singleton_ne.
Qed.

(** X13: every response of a virtualized [Allocate] that succeeds carries
    the variables of virtualisation for the virtual devices that the call
    granted to its container request (the requested ones without a ledger,
    the ones selected on the ledger with one): the SM limit of the flags,
    one memory limit per granted virtual device, numbered from 0 in the
    order granted and worth the memory of that device followed by "m", no
    memory limit beyond, the map from these numbers to the physical
    devices, and [CUDA_OVERSUBSCRIBE] exactly when memory is oversold.
    The name of the device-list variable is assumed not to be one of
    virtualisation's own. *)
Theorem Allocate_virtualized_env m (reqs : list ContainerAllocateRequest)
  (responses : list ContainerAllocateResponse) (ctl : option L) :
  String.eqb (migStrategy m) "mixed" = false ->
  vgpuKey (deviceListEnvvar m) = false ->
  Allocate flags host m reqs = (Ok responses, ctl) ->
  Forall3 (fun req granted response =>
    exists vdevices ids,
      (vDeviceController m = None -> granted = DevicesIDs req)
      /\ VDevicesByIDs (vDevices m) granted = Ok vdevices
      /\ Forall2 (fun vd id => devID (cachedDevices m) vd = Ok id)
                 vdevices ids
      /\ envAt response "CUDA_DEVICE_SM_LIMIT" = Some (smLimit flags)
      /\ (forall i,
             envAt response (limitKey i)
             = (fun vd => pretty (memory vd) +:+ "m") <$> vdevices !! i)
      /\ envAt response "NVIDIA_DEVICE_MAP"
         = Some (strings_Join (deviceMap ids) " ")
      /\ envAt response "CUDA_OVERSUBSCRIBE"
         = (if memoryOversold flags then Some "true" else None))
    reqs (grantedBy host m reqs) responses.
Proof.
  intros Hmig Henv Hrun.
  destruct (Allocate_virtualized_loop flags host m reqs responses ctl Hmig
              Hrun) as (-> & targetpod & Hloop).
  eapply Forall3_impl.
  - apply (allocateContainers_grants flags host m targetpod
             (fun req granted response =>
                exists vdevices ids,
                  VDevicesByIDs (vDevices m) granted = Ok vdevices
                  /\ Forall2 (fun vd id => devID (cachedDevices m) vd = Ok id)
                             vdevices ids
                  /\ envAt response "CUDA_DEVICE_SM_LIMIT"
                     = Some (smLimit flags)
                  /\ (forall i,
                         envAt response (limitKey i)
                         = (fun vd => pretty (memory vd) +:+ "m")
                             <$> vdevices !! i)
                  /\ envAt response "NVIDIA_DEVICE_MAP"
                     = Some (strings_Join (deviceMap ids) " ")
                  /\ envAt response "CUDA_OVERSUBSCRIBE"
                     = (if memoryOversold flags then Some "true" else None)))
      with (2 := Hloop).
    intros ctl1 ctl2 ctrname k req granted response Hresp.
    destruct (respond_inv _ _ _ _ _ _ _ _ _ Hresp)
      as (vdevices & uuids & r1 & Hvds & _ & He & _ & Hvgpu).
    destruct (vgpuResponse_env _ _ _ _ _ _ _ Hvgpu)
      as (Hsm & Hlim & Hover & ids & Hids & Hmap).
    assert (forall key, vgpuKey key = true -> envAt r1 key = None) as Hbase.
    { intros key Hkey.
      rewrite <- (deviceListResponse_env_other m
                    (deviceIDsFromUUIDs flags m uuids) uuids key Henv Hkey).
      unfold envAt. now rewrite He. }
    exists vdevices, ids. repeat split; try assumption.
    + intros i. rewrite Hlim. destruct (vdevices !! i); [reflexivity|].
      apply Hbase, limitKey_vgpu.
    + rewrite Hover. destruct (memoryOversold flags); [reflexivity|].
      now apply Hbase.
  - intros req granted response (Hg & vdevices & ids & H).
    exists vdevices, ids. split; [|exact H].
    intros Hno. apply Hg. unfold reconciled. now rewrite Hno.
Qed.

Lemma deviceListResponse_none m (deviceIDs uuids : list string) :
  String.eqb (deviceListStrategyFlag flags) DeviceListStrategyEnvvar = false ->
  String.eqb (deviceListStrategyFlag flags) DeviceListStrategyVolumeMounts
  = false ->
  Envs (deviceListResponse flags host m deviceIDs uuids) = None.
Proof.
  intros H1 H2. unfold deviceListResponse. rewrite H1, H2.
  now destruct (passDeviceSpecsFlag flags).
Qed.

(** X14: with a device-list strategy that is neither "envvar" nor
    "volume-mounts", a virtualized [Allocate] for at least one container
    never succeeds: the response has no environment, and the first
    variable of virtualisation is written to a nil map. *)
Theorem Allocate_other_strategy m (reqs : list ContainerAllocateRequest) :
  String.eqb (migStrategy m) "mixed" = false ->
  String.eqb (deviceListStrategyFlag flags) DeviceListStrategyEnvvar = false ->
  String.eqb (deviceListStrategyFlag flags) DeviceListStrategyVolumeMounts
  = false ->
  reqs <> [] ->
  forall responses, (Allocate flags host m reqs).1 <> Ok responses.
Proof.
  intros Hmig H1 H2 Hsome responses Hok.
  destruct (Allocate flags host m reqs) as [res ctl] eqn:Hrun.
  cbn in Hok. subst res.
  destruct (Allocate_virtualized_runs m reqs responses ctl Hmig Hrun)
    as (targetpod & ctl0 & Hloop & _).
  pose proof (allocateContainers_each m targetpod
                (fun _ _ _ => False)) as Heach.
  destruct reqs as [|req reqs]; [congruence|].
  assert (Forall2 (fun req response =>
                     exists granted : list string,
                       (ctl0 = None -> granted = DevicesIDs req) /\ False)
                  (req :: reqs) responses) as Hall.
  { apply (Heach) with (2 := Hloop).
    intros ctl1 ctl2 ctrname k req' granted response Hresp.
    destruct (respond_inv _ _ _ _ _ _ _ _ _ Hresp)
      as (vdevices & uuids & r1 & _ & _ & He & _ & Hvgpu).
    apply (vgpuResponse_needs_envs _ _ _ _ _ _ _ Hvgpu).
    rewrite He. now apply deviceListResponse_none. }
  inversion Hall as [|? ? ? ? (g & _ & []) _].
Qed.




End ResponseMore.

(** Mixed mode on the node: the second container asks for a device that
    is not cached. *)
Lemma Allocate_mixed_all_or_error_on_node :
  Allocate Node.envvar Node.host (Node.started None "mixed")
    [Node.request ["GPU-B"]; Node.request ["GPU-A"; "GPU-C"; "GPU-D"]]
  = (match List.find
             (fun id => negb (deviceExists (Node.started None "mixed") id))
             (flat_map DevicesIDs
                [Node.request ["GPU-B"];
                 Node.request ["GPU-A"; "GPU-C"; "GPU-D"]]) with
     | Some id =>
         Err ("invalid allocation request for '"
              +:+ resourceName (Node.started None "mixed")
              +:+ "': unknown device: " +:+ id)
     | None =>
         Ok (map (fun req =>
                    deviceListResponse Node.envvar Node.host
                      (Node.started None "mixed")
                      (deviceIDsFromUUIDs Node.envvar
                         (Node.started None "mixed") (DevicesIDs req))
                      (DevicesIDs req))
                 [Node.request ["GPU-B"];
                  Node.request ["GPU-A"; "GPU-C"; "GPU-D"]])
     end,
     vDeviceController (Node.started None "mixed")).
Proof.
  apply (Allocate_mixed_all_or_error Node.envvar Node.host
           (Node.started None "mixed")
           [Node.request ["GPU-B"]; Node.request ["GPU-A"; "GPU-C"; "GPU-D"]]).
  reflexivity.
Defined.

Lemma deviceIDsFromUUIDs_index_on_node :
  let m := Node.started None "mixed" in
  let uuids := ["GPU-B"; "GPU-X"; "GPU-A"] in
  (forall idx,
      idx ∈ deviceIDsFromUUIDs indexFlags m uuids
      <-> exists d, d ∈ cachedDevices m
                    /\ ID (d_Device d) ∈ uuids /\ Index d = idx)
  /\ (forall uuids',
         uuids ≡ₚ uuids' ->
         deviceIDsFromUUIDs indexFlags m uuids'
         = deviceIDsFromUUIDs indexFlags m uuids)
  /\ (NoDup (map (fun d => ID (d_Device d)) (cachedDevices m)) ->
      length (deviceIDsFromUUIDs indexFlags m uuids)
      = length (List.filter (deviceExists m) uuids))
  /\ deviceIDsFromUUIDs indexFlags m uuids
     = flat_map (fun d => replicate (occurrences (ID (d_Device d)) uuids)
                            (Index d))
         (cachedDevices m).
Proof.
  cbv zeta.
  apply (deviceIDsFromUUIDs_index indexFlags (Node.started None "mixed")
           ["GPU-B"; "GPU-X"; "GPU-A"]).
  reflexivity.
Defined.

(** On the node with its ledger: the first container asks for three
    devices; the engine, with two physical devices only, answers nothing,
    and [Allocate] grants the first three available, [v1], [v2] and [v3];
    the second container is granted the one left, [v4]. *)
Lemma Allocate_virtualized_env_on_node :
  let m := Node.ledgered in
  let reqs := [Node.request ["a"; "b"; "c"]; Node.request ["d"]] in
  let run := Allocate Node.envvar Node.host m reqs in
  grantedBy Node.host m reqs = [["v1"; "v2"; "v3"]; ["v4"]]
  /\ Forall3 (fun req granted response =>
       exists vdevices ids,
         (vDeviceController m = None -> granted = DevicesIDs req)
         /\ VDevicesByIDs (vDevices m) granted = Ok vdevices
         /\ Forall2 (fun vd id => devID (cachedDevices m) vd = Ok id)
                    vdevices ids
         /\ envAt response "CUDA_DEVICE_SM_LIMIT" = Some (smLimit Node.envvar)
         /\ (forall i,
                envAt response (limitKey i)
                = (fun vd => pretty (memory vd) +:+ "m") <$> vdevices !! i)
         /\ envAt response "NVIDIA_DEVICE_MAP"
            = Some (strings_Join (deviceMap ids) " ")
         /\ envAt response "CUDA_OVERSUBSCRIBE"
            = (if memoryOversold Node.envvar then Some "true" else None))
       reqs (grantedBy Node.host m reqs) (Node.responsesOf run).
Proof.
  cbv zeta. split; [reflexivity|].
  apply (Allocate_virtualized_env Node.envvar Node.host Node.ledgered
           [Node.request ["a"; "b"; "c"]; Node.request ["d"]]
           (Node.responsesOf
              (Allocate Node.envvar Node.host Node.ledgered
                 [Node.request ["a"; "b"; "c"]; Node.request ["d"]]))
           (Allocate Node.envvar Node.host Node.ledgered
              [Node.request ["a"; "b"; "c"]; Node.request ["d"]]).2);
    vm_compute; reflexivity.
Defined.

Lemma Allocate_other_strategy_on_node :
  [Node.request ["v1"]] <> []
  /\ (Allocate otherStrategyFlags Node.host (Node.unledgered Node.ledgered)
        [Node.request ["v1"]]).1
     <> Ok [].
Proof.
  split; [discriminate|].
  apply (Allocate_other_strategy otherStrategyFlags Node.host
           (Node.unledgered Node.ledgered) [Node.request ["v1"]]);
    [reflexivity | reflexivity | reflexivity | discriminate].
Defined.


(** ** Monitor mode: the pod that a request is taken to be for *)

Section MonitorMore.

Context {L : Type} `{!VDeviceController L}.
Variable flags : Flags.
Variable host : Host.
Implicit Types m : NvidiaDevicePlugin L.

Lemma podMatches_from (reqs : list ContainerAllocateRequest)
  (ctrs : list Container) (rank : nat) :
  podMatches reqs ctrs rank = Ok true
  <-> Forall2 asksFor (omap gpuLimit ctrs)
        (take (length (omap gpuLimit ctrs)) (drop rank reqs)).
Proof.
  revert rank. induction ctrs as [|ctr ctrs IH]; intros rank.
  - cbn. split; [constructor|reflexivity].
  - cbn [podMatches omap list_omap]. change (list_omap ?f ?l) with (omap f l).
    destruct (gpuLimit ctr) as [nv|]; [|apply IH].
    cbn [length]. destruct (reqs !! rank) as [reqv|] eqn:Hrank.
    + rewrite (drop_S _ _ _ Hrank). cbn [take]. rewrite Forall2_cons.
      unfold asksFor at 1.
      destruct (Z.eqb_spec nv (Z.of_nat (length (DevicesIDs reqv))))
        as [Heq|Hne].
      * rewrite IH. tauto.
      * split; [discriminate|tauto].
    + apply lookup_ge_None in Hrank. rewrite drop_ge by lia. cbn.
      split; [discriminate|]. intros Hall. inversion Hall.
Qed.

(** X16: in monitor mode a pending pod matches an allocation request
    exactly when the GPU limits of its containers, in order and leaving out
    the containers without one, are the numbers of devices of the first so
    many container requests.  Container requests beyond these are not
    compared: a pod none of whose containers has a GPU limit matches every
    request. *)
Theorem podMatches_prefix (reqs : list ContainerAllocateRequest) (p : Pod) :
  podMatches reqs (pod_Containers p) 0 = Ok true
  <-> Forall2 asksFor (gpuLimits p) (take (length (gpuLimits p)) reqs).
Proof. apply (podMatches_from reqs (pod_Containers p) 0). Qed.

Lemma findTargetPod_app (reqs : list ContainerAllocateRequest)
  (pre rest : list Pod) (t : Pod) :
  findTargetPod reqs (pre ++ rest) t
  = (t' <- findTargetPod reqs pre t ;; findTargetPod reqs rest t').
Proof.
  revert t. induction pre as [|q pre IH]; intros t; cbn; [reflexivity|].
  destruct (pod_Pending q); [|apply IH].
  destruct (podMatches reqs (pod_Containers q) 0) as [b| |]; cbn;
    [apply IH|reflexivity|reflexivity].
Qed.

Lemma findTargetPod_total (reqs : list ContainerAllocateRequest)
  (pods : list Pod) (t : Pod) :
  Forall (fun q => pod_Pending q = true ->
                   exists b, podMatches reqs (pod_Containers q) 0 = Ok b)
         pods ->
  exists t', findTargetPod reqs pods t = Ok t'.
Proof.
  intros Hall. revert t. induction Hall as [|q pods Hq _ IH]; intros t; cbn.
  - eauto.
  - destruct (pod_Pending q); [|apply IH].
    destruct (Hq eq_refl) as [b ->]. cbn. apply IH.
Qed.

Lemma findTargetPod_no_match (reqs : list ContainerAllocateRequest)
  (pods : list Pod) (t : Pod) :
  Forall (fun q => pod_Pending q = true ->
                   podMatches reqs (pod_Containers q) 0 = Ok false)
         pods ->
  findTargetPod reqs pods t = Ok t.
Proof.
  induction 1 as [|q pods Hq _ IH]; cbn; [reflexivity|].
  destruct (pod_Pending q); [|exact IH].
  now rewrite (Hq eq_refl).
Qed.

(** X17: in monitor mode, of the pending pods that match the request the
    last one listed is the target pod. *)
Theorem targetPod_last_match (reqs : list ContainerAllocateRequest)
  (pre post : list Pod) (p : Pod) :
  monitoring host = true ->
  podList host = Some (pre ++ p :: post) ->
  Forall (fun q => pod_Pending q = true ->
                   exists b, podMatches reqs (pod_Containers q) 0 = Ok b)
         pre ->
  pod_Pending p = true ->
  podMatches reqs (pod_Containers p) 0 = Ok true ->
  Forall (fun q => pod_Pending q = true ->
                   podMatches reqs (pod_Containers q) 0 = Ok false)
         post ->
  targetPod host reqs = Ok p.
Proof.
  intros Hmon Hpods Hpre Hpending Hmatch Hpost.
  unfold targetPod. rewrite Hmon, Hpods, findTargetPod_app.
  destruct (findTargetPod_total reqs pre noPod Hpre) as [t ->].
  cbn. rewrite Hpending, Hmatch. cbn.
  now apply findTargetPod_no_match.
Qed.

(** X18: in monitor mode, when no pending pod matches, a virtualized
    [Allocate] for at least one container panics on the containers of the
    empty pod.  The ledger has been reconciled by then, and nothing else:
    nothing is released or acquired.  (A reconciliation that fails returns
    its error first.) *)
Theorem Allocate_monitor_no_match m (pods : list Pod)
  (req : ContainerAllocateRequest) (reqs : list ContainerAllocateRequest) :
  String.eqb (migStrategy m) "mixed" = false ->
  monitoring host = true ->
  podList host = Some pods ->
  Forall (fun q => pod_Pending q = true ->
                   podMatches (req :: reqs) (pod_Containers q) 0 = Ok false)
         pods ->
  Allocate flags host m (req :: reqs)
  = match vDeviceController m with
    | None => (Panic, None)
    | Some l =>
        match updateFromCheckpoint l with
        | (l', Some err) => (Err err, Some l')
        | (l', None) => (Panic, Some l')
        end
    end.
Proof.
  intros Hmig Hmon Hpods Hnone.
  unfold Allocate, targetPod. rewrite Hmig, Hmon, Hpods.
  rewrite (findTargetPod_no_match _ _ _ Hnone).
  cbn [allocateContainers]. unfold allocateContainer. rewrite Hmon. cbn.
  destruct (vDeviceController m) as [l|]; [|reflexivity].
  now destruct (updateFromCheckpoint l) as [l' [err|]].
Qed.

End MonitorMore.

Lemma podMatches_prefix_example :
  podMatches [Node.request ["v1"; "v2"]; Node.request ["v3"]]
    (pod_Containers (podOf "job" true [None; Some 2])) 0
  = Ok true.
Proof.
  apply (podMatches_prefix
           [Node.request ["v1"; "v2"]; Node.request ["v3"]]
           (podOf "job" true [None; Some 2])).
  repeat constructor.
Defined.

Lemma targetPod_last_match_example :
  targetPod
    (monitorHost [podOf "a" true [Some 1]; podOf "b" true [Some 1];
                  podOf "c" false [Some 1]; podOf "d" true [Some 2]])
    [Node.request ["v1"]]
  = Ok (podOf "b" true [Some 1]).
Proof.
  apply (targetPod_last_match
           (monitorHost [podOf "a" true [Some 1]; podOf "b" true [Some 1];
                         podOf "c" false [Some 1]; podOf "d" true [Some 2]])
           [Node.request ["v1"]]
           [podOf "a" true [Some 1]]
           [podOf "c" false [Some 1]; podOf "d" true [Some 2]]
           (podOf "b" true [Some 1]));
    try reflexivity.
  - constructor; [|constructor]. intros _. now exists true.
  - constructor; [intros H; discriminate H|].
    constructor; [intros _; reflexivity|constructor].
Defined.

Lemma Allocate_monitor_no_match_example :
  Allocate Node.envvar (monitorHost [podOf "done" false [Some 1]])
    Node.ledgered [Node.request ["v1"]]
  = match vDeviceController Node.ledgered with
    | None => (Panic, None)
    | Some l =>
        match updateFromCheckpoint l with
        | (l', Some err) => (Err err, Some l')
        | (l', None) => (Panic, Some l')
        end
    end.
Proof.
  apply (Allocate_monitor_no_match Node.envvar
           (monitorHost [podOf "done" false [Some 1]]) Node.ledgered
           [podOf "done" false [Some 1]] (Node.request ["v1"]) []);
    try reflexivity.
  constructor; [intros H; discriminate H|constructor].
Defined.

(** ** The life cycle: [Start], [Stop] and what they leave behind *)

Section LifeFacts.

Context {L : Type} `{!VDeviceController L}.
Variable flags : Flags.
Implicit Types (s : Session L) (w : World).

Ltac settle := unfold say; cbn; rewrite <- ?app_assoc; cbn; reflexivity.

Lemma initialize_keeps devices d2v (m : NvidiaDevicePlugin L) :
  socket (initialize flags devices d2v m) = socket m
  /\ resourceName (initialize flags devices d2v m) = resourceName m
  /\ withCachedDevices
       (withVDevices (withController (initialize flags devices d2v m) None) [])
       []
     = withCachedDevices (withVDevices (withController m None) []) [].
Proof.
  unfold initialize.
  destruct (String.eqb _ _), (enableLegacyPreferredFlag flags); cbn;
    try (repeat split; reflexivity);
    destruct (allocatePolicy m) eqn:E; cbn; rewrite ?E;
    repeat split; reflexivity.
Qed.

Lemma reset_initializeSession (out : Outside) s w :
  reset (initializeSession flags out s w).1 = reset s.
Proof.
  unfold reset, initializeSession. cbn [fst plugin].
  now rewrite (proj2 (proj2 (initialize_keeps _ _ _))).
Qed.

Lemma reset_tornDown s : tornDown (reset s).
Proof. repeat split. Qed.

Lemma cleanup_open s w (ch : nat) :
  stop s = Some ch ->
  ch ∉ closed w ->
  cleanup s w
  = Ok (reset s,
        {| fresh := fresh w; closed := ch :: closed w;
           did := did w ++ ledgerCleaning s ++ [CloseChannel ch] |}).
Proof.
  intros Hstop Hopen. unfold cleanup, ledgerCleaning. rewrite Hstop.
  destruct (vDeviceController (plugin s)); cbn [say closed fresh did];
    rewrite bool_decide_eq_false_2 by assumption;
    now rewrite <- ?app_assoc.
Qed.

Lemma worldOK_fresh w (k : nat) : worldOK w -> (fresh w + k)%nat ∉ closed w.
Proof.
  intros Hok Hin. unfold worldOK in Hok. rewrite Forall_forall in Hok.
  specialize (Hok _ Hin). lia.
Qed.

Lemma Stop_safe (rm : removal) s w :
  safe s w ->
  exists err s' w', Stop rm s w = Ok (err, s', w') /\ safe s' w'.
Proof.
  intros [Hok Hsrv]. unfold Stop.
  destruct (server s) as [srv|] eqn:Hserver.
  - destruct Hsrv as (ch & Hstop & Hlt & Hopen).
    assert (Ok (reset s,
                {| fresh := fresh w; closed := ch :: closed w;
                   did := (did w ++ [StopServer srv]
                           ++ [RemoveSocket (socket (plugin s))])
                          ++ ledgerCleaning s ++ [CloseChannel ch] |})
            = cleanup s (say (RemoveSocket (socket (plugin s)))
                           (say (StopServer srv) w))) as Hclean.
    { rewrite (cleanup_open _ _ ch Hstop) by exact Hopen.
      settle. }
    destruct rm as [| |err].
    + rewrite <- Hclean. cbn. do 3 eexists. split; [reflexivity|].
      split; [|exact I]. constructor; [exact Hlt|exact Hok].
    + rewrite <- Hclean. cbn. do 3 eexists. split; [reflexivity|].
      split; [|exact I]. constructor; [exact Hlt|exact Hok].
    + do 3 eexists. split; [reflexivity|]. split; [exact Hok|].
      rewrite Hserver. exists ch. now repeat split.
  - do 3 eexists. split; [reflexivity|]. split; [exact Hok|].
    now rewrite Hserver.
Qed.

(** What [Start] returns, step by step. *)
Lemma Start_steps (out : Outside) s w :
  worldOK w ->
  let s1 := (initializeSession flags out s w).1 in
  let sock := socket (plugin s) in
  let ch := S (S (fresh w)) in
  let listening := [RemoveSocket sock; Listen sock] in
  let serving := listening ++ [ServeLoop (fresh w); Dial sock] in
  let closing := ledgerCleaning s1 ++ [CloseChannel ch] in
  let world (cl : list nat) (new : list Effect) :=
    {| fresh := S (S (S (fresh w))); closed := cl; did := did w ++ new |} in
  Start flags out s w
  = match listen out, dialSelf out with
    | Some e, _ =>
        Ok (Some e, reset s, world (ch :: closed w) (listening ++ closing))
    | None, Some e =>
        Ok (Some e, reset s, world (ch :: closed w) (serving ++ closing))
    | None, None =>
        let dialed := serving ++ [Dial pluginapi_KubeletSocket] in
        let sent := dialed ++ [SendRegister (registerRequest (plugin s1))] in
        let stopping (did_ : list Effect) :=
          did_ ++ [StopServer (fresh w); RemoveSocket sock] in
        let failed (e : string) (did_ : list Effect) :=
          match remove out with
          | RemoveFailed _ => Ok (Some e, s1, world (closed w) (stopping did_))
          | Removed | NotExist =>
              Ok (Some e, reset s,
                  world (ch :: closed w) (stopping did_ ++ closing))
          end in
        match dialKubelet out, register out with
        | Some e, _ => failed e dialed
        | None, Some e => failed e sent
        | None, None =>
            Ok (None, s1,
                world (closed w)
                  (sent ++ [CheckHealth (Some ch) (cachedDevices (plugin s1))
                              (Some (S (fresh w)))]))
        end
    end.
Proof.
  intros Hok. cbv zeta.
  pose proof (worldOK_fresh w 2 Hok) as Hopen.
  replace (fresh w + 2)%nat with (S (S (fresh w))) in Hopen by lia.
  pose proof (reset_initializeSession out s w) as Hreset.
  pose proof (proj1 (initialize_keeps (out_Devices out)
                       (out_Device2VDevice out) (plugin s))) as Hsock.
  unfold Start. cbv zeta.
  change ((initializeSession flags out s w).2)
    with {| fresh := S (S (S (fresh w))); closed := closed w; did := did w |}.
  assert (stop (initializeSession flags out s w).1 = Some (S (S (fresh w))))
    as Hstop by reflexivity.
  assert (health (initializeSession flags out s w).1 = Some (S (fresh w)))
    as Hhealth by reflexivity.
  assert (server (initializeSession flags out s w).1 = Some (fresh w))
    as Hsrv by reflexivity.
  assert (socket (plugin (initializeSession flags out s w).1)
          = socket (plugin s)) as Hsock1 by exact Hsock.
  remember ((initializeSession flags out s w).1) as s1 eqn:Hs1. clear Hs1.
  assert (forall w', closed w' = closed w ->
            cleanup s1 w'
            = Ok (reset s,
                  {| fresh := fresh w'; closed := S (S (fresh w)) :: closed w;
                     did := did w' ++ ledgerCleaning s1
                            ++ [CloseChannel (S (S (fresh w)))] |}))
    as Hclean.
  { intros w' Hsame. rewrite (cleanup_open s1 w' _ Hstop), Hreset, Hsame.
    - reflexivity.
    - now rewrite Hsame. }
  unfold Serve. rewrite Hsrv, Hsock1, Hstop, Hhealth.
  destruct (listen out) as [e|].
  - cbn [rbind fst snd]. rewrite Hclean by reflexivity. settle.
  - unfold dial. cbn [rbind fst snd].
    destruct (dialSelf out) as [e|].
    + rewrite Hclean by reflexivity. settle.
    + unfold Register, dial. cbn [fst snd].
      destruct (dialKubelet out) as [e|].
      * unfold Stop. rewrite Hsrv, Hsock1.
        destruct (remove out) as [| |err].
        -- rewrite Hclean by reflexivity. settle.
        -- rewrite Hclean by reflexivity. settle.
        -- settle.
      * destruct (register out) as [e|].
        -- unfold Stop. rewrite Hsrv, Hsock1.
           destruct (remove out) as [| |err].
           ++ rewrite Hclean by reflexivity. settle.
           ++ rewrite Hclean by reflexivity. settle.
           ++ settle.
        -- settle.
Qed.

Lemma Start_safe (out : Outside) s w :
  worldOK w ->
  exists err s' w', Start flags out s w = Ok (err, s', w') /\ safe s' w'.
Proof.
  intros Hok. rewrite (Start_steps out s w Hok). cbv zeta.
  assert (forall cl new,
             Forall (fun ch => (ch < S (S (S (fresh w))))%nat) cl ->
             safe (reset s)
               {| fresh := S (S (S (fresh w))); closed := cl; did := new |})
    as Hdown.
  { intros cl new Hcl. split; [exact Hcl|exact I]. }
  assert (Forall (fun ch => (ch < S (S (S (fresh w))))%nat) (closed w))
    as Hold.
  { eapply Forall_impl; [exact Hok|]. cbn. intros ch Hch. lia. }
  assert (Forall (fun ch => (ch < S (S (S (fresh w))))%nat)
                 (S (S (fresh w)) :: closed w)) as Hnew.
  { constructor; [lia|exact Hold]. }
  assert (forall new,
             safe (initializeSession flags out s w).1
               {| fresh := S (S (S (fresh w))); closed := closed w;
                  did := new |}) as Hup.
  { intros new. split; [exact Hold|]. cbn.
    exists (S (S (fresh w))). split; [reflexivity|]. split; [lia|].
    pose proof (worldOK_fresh w 2 Hok) as Hopen.
    now replace (fresh w + 2)%nat with (S (S (fresh w))) in Hopen by lia. }
  destruct (listen out), (dialSelf out), (dialKubelet out), (register out),
    (remove out); do 3 eexists; (split; [reflexivity|]); auto.
Qed.

(** X19: no sequence of [Start] and [Stop] calls makes [cleanup] close a
    nil or a closed channel: from a session that is newly constructed, or
    more generally one that has a stop channel still open whenever it has
    a server, every call returns, whatever the outside answers, and the
    session stays so. *)
Theorem life_never_panics (cs : list LifeCall) s w :
  safe s w ->
  exists errs s' w',
    life flags cs s w = Ok (errs, s', w')
    /\ length errs = length cs /\ safe s' w'.
Proof.
  revert s w. induction cs as [|c cs IH]; intros s w Hsafe.
  - exists [], s, w. repeat split; apply Hsafe.
  - cbn [life].
    assert (exists err s1 w1,
               match c with
               | StartCall out => Start flags out s w
               | StopCall rm => Stop rm s w
               end = Ok (err, s1, w1) /\ safe s1 w1)
      as (err & s1 & w1 & -> & Hsafe1).
    { destruct c as [out|rm];
        [apply Start_safe, Hsafe|apply Stop_safe, Hsafe]. }
    cbn [rbind fst snd].
    destruct (IH s1 w1 Hsafe1) as (errs & s' & w' & -> & Hlen & Hsafe').
    cbn. exists (err :: errs), s', w'. repeat split; try apply Hsafe'.
    cbn. now rewrite Hlen.
Qed.

(** X20: [Stop] undoes a [Start] that succeeded, when the socket can be
    removed: it stops the server that [Start] set serving, closes the
    stop channel that [Start] gave to the health check, cleans the ledger
    if there is one, and leaves the plugin with nothing of the session:
    [cachedDevices], [vDevices], the ledger, the server and the channels
    are nil again. *)
Theorem Stop_undoes_Start (out : Outside) (rm : removal) s w s1 w1 :
  worldOK w ->
  Start flags out s w = Ok (None, s1, w1) ->
  (forall e, rm <> RemoveFailed e) ->
  exists srv hc ch w2,
    Stop rm s1 w1 = Ok (None, reset s, w2)
    /\ ServeLoop srv ∈ did w1
    /\ CheckHealth (Some ch) (cachedDevices (plugin s1)) (Some hc) ∈ did w1
    /\ did w2
       = did w1 ++ [StopServer srv; RemoveSocket (socket (plugin s))]
         ++ ledgerCleaning s1 ++ [CloseChannel ch]
    /\ ch ∈ closed w2.
Proof.
  intros Hok Hstart Hrm.
  rewrite (Start_steps out s w Hok) in Hstart. cbv zeta in Hstart.
  pose proof (worldOK_fresh w 2 Hok) as Hopen.
  replace (fresh w + 2)%nat with (S (S (fresh w))) in Hopen by lia.
  pose proof (reset_initializeSession out s w) as Hreset.
  pose proof (proj1 (initialize_keeps (out_Devices out)
                       (out_Device2VDevice out) (plugin s))) as Hsock.
  destruct (listen out), (dialSelf out), (dialKubelet out), (register out);
    try (destruct (remove out); discriminate).
  injection Hstart as <- <-.
  exists (fresh w), (S (fresh w)), (S (S (fresh w))).
  assert (forall w',
             closed w' = closed w ->
             cleanup (initializeSession flags out s w).1 w'
             = Ok (reset s,
                   {| fresh := fresh w'; closed := S (S (fresh w)) :: closed w;
                      did := did w'
                             ++ ledgerCleaning (initializeSession flags out s w).1
                             ++ [CloseChannel (S (S (fresh w)))] |}))
    as Hclean.
  { intros w' Hsame.
    rewrite (cleanup_open (initializeSession flags out s w).1 w'
               (S (S (fresh w))) eq_refl), Hreset, Hsame.
    - reflexivity.
    - now rewrite Hsame. }
  unfold Stop. cbn [server initializeSession fst plugin].
  rewrite Hsock.
  destruct rm as [| |err]; [| |now destruct (Hrm err)].
  - rewrite Hclean by reflexivity. cbn [rbind fst snd].
    eexists. split; [reflexivity|]. unfold say. cbn [did closed].
    split; [rewrite !elem_of_app, !elem_of_cons; tauto|].
    split; [rewrite !elem_of_app, !elem_of_cons; tauto|].
    split; [now rewrite <- !app_assoc|now left].
  - rewrite Hclean by reflexivity. cbn [rbind fst snd].
    eexists. split; [reflexivity|]. unfold say. cbn [did closed].
    split; [rewrite !elem_of_app, !elem_of_cons; tauto|].
    split; [rewrite !elem_of_app, !elem_of_cons; tauto|].
    split; [now rewrite <- !app_assoc|now left].
Qed.

(** X21: [Start] returns the error of the first step that fails, in the
    order listener, dial of the plugin's own socket, dial of the kubelet,
    registration, and no error when none fails.  After an error the
    session is torn down, with one exception: when a step of the
    registration failed and the socket could not be removed in [Stop],
    the session keeps its server, channels, devices and ledger: it is the
    session as [initialize] made it. *)
Theorem Start_first_error (out : Outside) s w :
  worldOK w ->
  exists s1 w1,
    Start flags out s w = Ok (firstError out, s1, w1)
    /\ (tornDown s1
        <-> firstError out <> None
            /\ ~ (listen out = None /\ dialSelf out = None
                  /\ exists e, remove out = RemoveFailed e))
    /\ (listen out = None -> dialSelf out = None ->
        (exists e, remove out = RemoveFailed e) ->
        s1 = (initializeSession flags out s w).1).
Proof.
  intros Hok. rewrite (Start_steps out s w Hok). cbv zeta.
  unfold firstError.
  assert (~ tornDown (initializeSession flags out s w).1) as Hup.
  { intros [Hsrv _]. discriminate Hsrv. }
  pose proof (reset_tornDown s) as Hdown.
  destruct (listen out), (dialSelf out), (dialKubelet out), (register out),
    (remove out); do 2 eexists; (split; [reflexivity|]);
    (split;
     [split;
      try (intros _; split; [discriminate|]; intros (Hl & Hd & e & He);
           discriminate);
      try (intros _; exact Hdown);
      try (intros Hdn; now destruct (Hup Hdn));
      try (intros [Hne _]; now destruct Hne);
      try (intros [_ Hnot]; destruct Hnot; repeat split; eauto)
     |intros Hl Hd (e' & He); first [discriminate | reflexivity]]).
Qed.

(** X22: when the listener is set up and the dial of the plugin's own
    socket fails, [Start] returns that error with the session torn down
    and its stop channel closed, but the goroutine that serves has been
    started and the server is not stopped: the session no longer has the
    server, so that a later [Stop] does nothing. *)
Theorem Start_self_dial_failure (out : Outside) (e : string) s w :
  worldOK w ->
  listen out = None ->
  dialSelf out = Some e ->
  exists s1 w1 new,
    Start flags out s w = Ok (Some e, s1, w1)
    /\ tornDown s1
    /\ did w1 = did w ++ new
    /\ ServeLoop (fresh w) ∈ new
    /\ (forall srv, StopServer srv ∉ new)
    /\ (forall rm, Stop rm s1 w1 = Ok (None, s1, w1))
    /\ CloseChannel (S (S (fresh w))) ∈ new
    /\ S (S (fresh w)) ∈ closed w1.
Proof.
  intros Hok Hlisten Hdial. rewrite (Start_steps out s w Hok). cbv zeta.
  rewrite Hlisten, Hdial. do 3 eexists. split; [reflexivity|].
  split; [apply reset_tornDown|]. split; [reflexivity|].
  split; [|split; [|split; [|split]]].
  - cbn. rewrite !elem_of_cons. tauto.
  - intros srv. unfold ledgerCleaning. cbn.
    destruct (vDeviceController _); cbn;
      rewrite !elem_of_cons, elem_of_nil; intros Hin;
      repeat (destruct Hin as [Hin|Hin]; try discriminate Hin); exact Hin.
  - reflexivity.
  - rewrite !elem_of_app, !elem_of_cons. tauto.
  - now left.
Qed.

Lemma path_Base_last (dir name : string) :
  name <> "" -> hasSlash name = false ->
  path_Base (dir +:+ "/" +:+ name) = name.
Proof.
  intros Hname Hslash. unfold path_Base.
  change (dir +:+ "/" +:+ name) with (dir +:+ String "/" name).
  assert (String.eqb (dir +:+ String "/" name) "" = false) as ->.
  { apply String.eqb_neq. now destruct dir. }
  rewrite path_elems_app, (path_elems_plain name Hslash), rev_app_distr.
  cbn. apply String.eqb_neq in Hname. now rewrite Hname.
Qed.

(** X23: [Register] announces as endpoint the file name of the plugin's
    socket: for a socket [dir/name] the request sent to the kubelet has
    the endpoint [name], with the resource name of the plugin, whatever
    the directory. *)
Theorem Register_endpoint (out : Outside) (m : NvidiaDevicePlugin L) w
  (dir name : string) :
  socket m = dir +:+ "/" +:+ name ->
  name <> "" ->
  hasSlash name = false ->
  dialKubelet out = None ->
  Register out m w
  = (register out,
     say (SendRegister {| reg_Version := pluginapi_Version;
                          reg_Endpoint := name;
                          reg_ResourceName := resourceName m;
                          reg_Options := Register_Options m |})
         (say (Dial pluginapi_KubeletSocket) w)).
Proof.
  intros Hsock Hname Hslash Hdial. unfold Register, dial, registerRequest.
  cbn [fst snd]. rewrite Hdial, Hsock.
  now rewrite (path_Base_last dir name Hname Hslash).
Qed.

Lemma cleanup_reset s w (done : Session L * World) :
  cleanup s w = Ok done -> done.1 = reset s.
Proof.
  unfold cleanup. destruct (stop s); [|discriminate].
  destruct (bool_decide _); [discriminate|]. now intros [= <-].
Qed.

(** X24: [Stop] is idempotent: after a [Stop] that returned no error, a
    further [Stop] returns no error, changes nothing and does nothing. *)
Theorem Stop_idempotent (rm rm' : removal) s w s' w' :
  Stop rm s w = Ok (None, s', w') ->
  Stop rm' s' w' = Ok (None, s', w').
Proof.
  unfold Stop at 1. destruct (server s) as [srv|] eqn:Hsrv.
  - destruct rm as [| |err]; try discriminate;
      destruct (cleanup s _) as [done| |] eqn:Hclean; try discriminate;
      cbn; intros [= <- <-];
      rewrite (cleanup_reset _ _ _ Hclean); reflexivity.
  - intros [= <- <-]. unfold Stop. now rewrite Hsrv.
Qed.

End LifeFacts.

(** The life cycle on the node. *)
Lemma life_never_panics_on_node :
  exists errs s' w',
    life Node.envvar
      [StartCall fair; StopCall Removed; StopCall NotExist;
       StartCall unlucky; StopCall (RemoveFailed "busy"); StartCall deaf;
       StopCall Removed]
      nodePlugin quiet
    = Ok (errs, s', w')
    /\ length errs = 7%nat /\ safe s' w'.
Proof.
  apply (life_never_panics Node.envvar
           [StartCall fair; StopCall Removed; StopCall NotExist;
            StartCall unlucky; StopCall (RemoveFailed "busy"); StartCall deaf;
            StopCall Removed]
           nodePlugin quiet).
  split; [constructor|exact I].
Defined.

Lemma Stop_undoes_Start_on_node :
  let started := left_by (Start Node.envvar fair nodePlugin quiet)
                   nodePlugin quiet in
  exists srv hc ch w2,
    Stop NotExist started.1 started.2 = Ok (None, reset nodePlugin, w2)
    /\ ServeLoop srv ∈ did started.2
    /\ CheckHealth (Some ch) (cachedDevices (plugin started.1)) (Some hc)
       ∈ did started.2
    /\ did w2
       = did started.2
         ++ [StopServer srv; RemoveSocket (socket (plugin nodePlugin))]
         ++ ledgerCleaning started.1 ++ [CloseChannel ch]
    /\ ch ∈ closed w2.
Proof.
  cbv zeta.
  apply (Stop_undoes_Start Node.envvar fair NotExist nodePlugin quiet
           (left_by (Start Node.envvar fair nodePlugin quiet)
              nodePlugin quiet).1
           (left_by (Start Node.envvar fair nodePlugin quiet)
              nodePlugin quiet).2).
  - constructor.
  - reflexivity.
  - discriminate.
Defined.

Lemma Start_first_error_on_node :
  exists s1 w1,
    Start Node.envvar unlucky nodePlugin quiet
    = Ok (firstError unlucky, s1, w1)
    /\ (tornDown s1
        <-> firstError unlucky <> None
            /\ ~ (listen unlucky = None /\ dialSelf unlucky = None
                  /\ exists e, remove unlucky = RemoveFailed e))
    /\ (listen unlucky = None -> dialSelf unlucky = None ->
        (exists e, remove unlucky = RemoveFailed e) ->
        s1 = (initializeSession Node.envvar unlucky nodePlugin quiet).1).
Proof.
  apply (Start_first_error Node.envvar unlucky nodePlugin quiet).
  constructor.
Defined.

Lemma Start_self_dial_failure_on_node :
  exists s1 w1 new,
    Start Node.envvar deaf nodePlugin quiet
    = Ok (Some "context deadline exceeded", s1, w1)
    /\ tornDown s1
    /\ did w1 = did quiet ++ new
    /\ ServeLoop (fresh quiet) ∈ new
    /\ (forall srv, StopServer srv ∉ new)
    /\ (forall rm, Stop rm s1 w1 = Ok (None, s1, w1))
    /\ CloseChannel (S (S (fresh quiet))) ∈ new
    /\ S (S (fresh quiet)) ∈ closed w1.
Proof.
  apply (Start_self_dial_failure Node.envvar deaf
           "context deadline exceeded" nodePlugin quiet).
  - constructor.
  - reflexivity.
  - reflexivity.
Defined.

Lemma Register_endpoint_on_node :
  Register fair (plugin nodePlugin) quiet
  = (register fair,
     say (SendRegister
            {| reg_Version := pluginapi_Version;
               reg_Endpoint := "nvidia.sock";
               reg_ResourceName := resourceName (plugin nodePlugin);
               reg_Options := Register_Options (plugin nodePlugin) |})
         (say (Dial pluginapi_KubeletSocket) quiet)).
Proof.
  apply (Register_endpoint fair (plugin nodePlugin) quiet
           "/var/lib/kubelet/device-plugins" "nvidia.sock").
  - reflexivity.
  - discriminate.
  - reflexivity.
  - reflexivity.
Defined.

Lemma Stop_idempotent_on_node :
  let started := left_by (Start Node.envvar fair nodePlugin quiet)
                   nodePlugin quiet in
  let stopped := left_by (Stop Removed started.1 started.2)
                   started.1 started.2 in
  Stop NotExist stopped.1 stopped.2 = Ok (None, stopped.1, stopped.2).
Proof.
  cbv zeta.
  apply (Stop_idempotent Removed NotExist
           (left_by (Start Node.envvar fair nodePlugin quiet)
              nodePlugin quiet).1
           (left_by (Start Node.envvar fair nodePlugin quiet)
              nodePlugin quiet).2).
  reflexivity.
Defined.

(** ** When a virtualized [Allocate] without a ledger succeeds *)

Section AllocateTotal.

Context {L : Type} `{!VDeviceController L}.
Variable flags : Flags.
Variable host : Host.
Implicit Types m : NvidiaDevicePlugin L.

Lemma VDevicesByIDs_known m (ids : list string) :
  match List.find (fun id => negb (vdeviceExists m id)) ids with
  | Some id => VDevicesByIDs (vDevices m) ids = Err ("unknown device: " +:+ id)
  | None => exists vds, VDevicesByIDs (vDevices m) ids = Ok vds
                        /\ Forall (fun vd => vd ∈ vDevices m) vds
  end.
Proof.
  induction ids as [|id ids IH]; cbn [List.find VDevicesByIDs].
  - exists []. split; [reflexivity|constructor].
  - unfold vdeviceExists at 1.
    destruct (List.find (fun vd => String.eqb (ID (vd_Device vd)) id)
                (vDevices m)) as [vd|] eqn:Hfind.
    + assert (existsb (fun vd => String.eqb (ID (vd_Device vd)) id)
                (vDevices m) = true) as ->.
      { apply existsb_exists. apply find_some in Hfind. now exists vd. }
      cbn [negb].
      destruct (List.find _ ids) as [bad|].
      * now rewrite IH.
      * destruct IH as (vds & -> & Hin). cbn. exists (vd :: vds).
        split; [reflexivity|]. constructor; [|exact Hin].
        apply find_some in Hfind as [Hvd _]. now apply list_elem_of_In.
    + assert (existsb (fun vd => String.eqb (ID (vd_Device vd)) id)
                (vDevices m) = false) as ->.
      { destruct (existsb _ _) eqn:Hex; [|reflexivity].
        apply existsb_exists in Hex as (vd & Hvd & Heq).
        now rewrite (find_none _ _ Hfind vd Hvd) in Heq. }
      reflexivity.
Qed.

Lemma devID_pointed m (vd : VDevice) :
  allPointed m -> vd ∈ vDevices m ->
  exists id, devID (cachedDevices m) vd = Ok id.
Proof.
  intros Hall Hin. unfold allPointed in Hall. rewrite Forall_forall in Hall.
  specialize (Hall vd Hin). unfold devID.
  destruct (cachedDevices m !! dev vd) as [d|] eqn:Hd; [eauto|].
  apply lookup_ge_None in Hd. lia.
Qed.

Lemma UniqueDeviceIDs_from_total (cached : list Device) (vds : list VDevice)
  (seen : list string) :
  Forall (fun vd => exists id, devID cached vd = Ok id) vds ->
  exists uuids, UniqueDeviceIDs_from cached seen vds = Ok uuids.
Proof.
  intros Hall. revert seen.
  induction Hall as [|vd vds [id Hid] _ IH]; intros seen; cbn.
  - eauto.
  - rewrite Hid. cbn. destruct (bool_decide (id ∈ seen)); [apply IH|].
    destruct (IH (id :: seen)) as [rest ->]. cbn. eauto.
Qed.

Lemma setEnv_total (k v : string) (r : ContainerAllocateResponse) :
  Envs r <> None ->
  exists r', setEnv k v r = Ok r' /\ Envs r' <> None.
Proof.
  unfold setEnv. destruct (Envs r) as [e|]; [|contradiction].
  intros _. eexists. split; [reflexivity|discriminate].
Qed.

Lemma memoryLimits_total (cached : list Device) (vds : list VDevice) (i : nat)
  (r : ContainerAllocateResponse) :
  Envs r <> None ->
  Forall (fun vd => exists id, devID cached vd = Ok id) vds ->
  exists done, memoryLimits cached i vds r = Ok done /\ Envs done.1 <> None.
Proof.
  intros Hr Hall. revert i r Hr.
  induction Hall as [|vd vds [id Hid] _ IH]; intros i r Hr; cbn.
  - exists (r, []). now split.
  - destruct (setEnv_total ("CUDA_DEVICE_MEMORY_LIMIT_" +:+ pretty i)
                (pretty (memory vd) +:+ "m") r Hr) as (r1 & -> & Hr1).
    cbn. rewrite Hid. cbn.
    destruct (IH (S i) r1 Hr1) as (done & -> & Hdone). cbn.
    eexists. split; [reflexivity|exact Hdone].
Qed.

Lemma vgpuResponse_total m (targetpod : Pod) (ctrname : string)
  (reqidx : nat) (vdevices : list VDevice) (r : ContainerAllocateResponse) :
  Envs r <> None ->
  Forall (fun vd => exists id, devID (cachedDevices m) vd = Ok id) vdevices ->
  exists r', vgpuResponse flags host m targetpod ctrname reqidx vdevices r
             = Ok r'.
Proof.
  intros Hr Hall. unfold vgpuResponse.
  destruct (memoryLimits_total _ _ 0%nat r Hr Hall) as (lim & -> & Hlim).
  cbn [rbind].
  destruct (setEnv_total "CUDA_DEVICE_SM_LIMIT" (smLimit flags) lim.1 Hlim)
    as (r2 & -> & Hr2). cbn [rbind].
  destruct (setEnv_total "NVIDIA_DEVICE_MAP" (strings_Join lim.2 " ") r2 Hr2)
    as (r3 & -> & Hr3). cbn [rbind].
  assert (exists r4, (if monitoring host then _ else _) = Ok r4
                     /\ Envs r4 <> None) as (r4 & -> & Hr4).
  { destruct (monitoring host); apply setEnv_total; exact Hr3. }
  cbn [rbind].
  assert (exists r5, (if memoryOversold flags
                      then setEnv "CUDA_OVERSUBSCRIBE" "true" r4
                      else Ok r4) = Ok r5) as (r5 & ->).
  { destruct (memoryOversold flags); [|eauto].
    destruct (setEnv_total "CUDA_OVERSUBSCRIBE" "true" r4 Hr4) as (r5 & -> & _).
    eauto. }
  cbn. eauto.
Qed.

Lemma deviceListResponse_some m (deviceIDs uuids : list string) :
  deviceListStrategyFlag flags = DeviceListStrategyEnvvar
  \/ deviceListStrategyFlag flags = DeviceListStrategyVolumeMounts ->
  Envs (deviceListResponse flags host m deviceIDs uuids) <> None.
Proof.
  unfold deviceListResponse. intros [-> | ->]; cbn;
    destruct (passDeviceSpecsFlag flags); discriminate.
Qed.

Lemma respond_unledgered m (targetpod : Pod) (ctrname : string)
  (reqidx : nat) (req : ContainerAllocateRequest) (granted : list string) :
  deviceListStrategyFlag flags = DeviceListStrategyEnvvar
  \/ deviceListStrategyFlag flags = DeviceListStrategyVolumeMounts ->
  allPointed m ->
  match List.find (fun id => negb (vdeviceExists m id)) granted with
  | Some id =>
      respond flags host m None targetpod ctrname reqidx req granted
      = (Err ("unknown device: " +:+ id), None)
  | None =>
      exists response,
        respond flags host m None targetpod ctrname reqidx req granted
        = (Ok response, None)
  end.
Proof.
  intros Hflag Hall. pose proof (VDevicesByIDs_known m granted) as Hknown.
  unfold respond.
  destruct (List.find _ granted) as [bad|]; [now rewrite Hknown|].
  destruct Hknown as (vds & -> & Hin).
  assert (Forall (fun vd => exists id, devID (cachedDevices m) vd = Ok id) vds)
    as Hdev.
  { eapply Forall_impl; [exact Hin|]. intros vd. now apply devID_pointed. }
  destruct (UniqueDeviceIDs_from_total _ _ [] Hdev) as [uuids Huniq].
  unfold UniqueDeviceIDs. rewrite Huniq. cbn [recordBinding].
  destruct (vgpuResponse_total m targetpod ctrname reqidx vds
              (deviceListResponse flags host m
                 (deviceIDsFromUUIDs flags m uuids) uuids)
              (deviceListResponse_some m _ _ Hflag) Hdev) as [r' ->].
  eauto.
Qed.

Lemma allocateContainers_unledgered_known m (targetpod : Pod)
  (reqs : list ContainerAllocateRequest) (reqidx addnum : nat) :
  monitoring host = false ->
  deviceListStrategyFlag flags = DeviceListStrategyEnvvar
  \/ deviceListStrategyFlag flags = DeviceListStrategyVolumeMounts ->
  allPointed m ->
  match List.find (fun id => negb (vdeviceExists m id))
          (flat_map DevicesIDs reqs) with
  | Some id =>
      allocateContainers flags host m None targetpod reqidx addnum reqs
      = (Err ("unknown device: " +:+ id), None)
  | None =>
      exists responses,
        allocateContainers flags host m None targetpod reqidx addnum reqs
        = (Ok responses, None)
        /\ length responses = length reqs
  end.
Proof.
  intros Hquiet Hflag Hall. revert reqidx.
  induction reqs as [|req reqs IH]; intros reqidx.
  - cbn. exists []. now split.
  - cbn [flat_map allocateContainers]. rewrite find_app_first.
    rewrite allocateContainer_quiet by assumption. cbn [selectDevices].
    pose proof (respond_unledgered m targetpod "" reqidx req (DevicesIDs req)
                  Hflag Hall) as Hresp.
    destruct (List.find _ (DevicesIDs req)) as [bad|]; [now rewrite Hresp|].
    destruct Hresp as [response ->].
    specialize (IH (S reqidx)).
    destruct (List.find _ (flat_map DevicesIDs reqs)) as [bad|].
    + now rewrite IH.
    + destruct IH as (responses & -> & Hlen).
      exists (response :: responses). split; [reflexivity|].
      cbn. now rewrite Hlen.
Qed.

(** X25: without a ledger and outside monitor mode, a virtualized
    [Allocate] under the strategy "envvar" or "volume-mounts" answers all
    containers or none.  When every requested ID is the ID of a virtual
    device it succeeds, with one response per container; otherwise it
    returns "unknown device" with the first requested ID that is none, in
    the order of the containers and of their IDs.  The virtual devices are
    assumed to point to cached devices. *)
Theorem Allocate_unledgered_all_or_error m
  (reqs : list ContainerAllocateRequest) :
  String.eqb (migStrategy m) "mixed" = false ->
  monitoring host = false ->
  vDeviceController m = None ->
  deviceListStrategyFlag flags = DeviceListStrategyEnvvar
  \/ deviceListStrategyFlag flags = DeviceListStrategyVolumeMounts ->
  allPointed m ->
  match List.find (fun id => negb (vdeviceExists m id))
          (flat_map DevicesIDs reqs) with
  | Some id =>
      Allocate flags host m reqs = (Err ("unknown device: " +:+ id), None)
  | None =>
      exists responses,
        Allocate flags host m reqs = (Ok responses, None)
        /\ length responses = length reqs
  end.
Proof.
  intros Hmig Hquiet Hctl Hflag Hall.
  unfold Allocate, targetPod. rewrite Hmig, Hquiet, Hctl.
  now apply allocateContainers_unledgered_known.
Qed.

End AllocateTotal.

Lemma Allocate_unledgered_all_or_error_on_node :
  Allocate Node.envvar Node.host (Node.unledgered Node.ledgered)
    [Node.request ["v1"; "v4"]; Node.request ["v2"; "v9"; "v8"]]
  = (Err ("unknown device: " +:+ "v9"), None).
Proof.
  apply (Allocate_unledgered_all_or_error Node.envvar Node.host
           (Node.unledgered Node.ledgered)
           [Node.request ["v1"; "v4"]; Node.request ["v2"; "v9"; "v8"]]).
  - reflexivity.
  - reflexivity.
  - reflexivity.
  - left. reflexivity.
  - repeat constructor.
Defined.
